(** * HTTP-over-RPC: the fetch worker's shared cache, the proxy's routing
      and the log analytics

    A shallow embedding of [rpc_worker.py], [rpc_proxy_server.py] and the
    map-reduce of [analytics.py].

    Conventions of the embedding.
    - Python [int] is [Z] (the round-robin counter, which starts at 0 and is
      only ever incremented, is [nat]); [bytes] is [list byte]; [str] is
      [string], the UTF-8 bytes of the text; a [dict] whose iteration order
      is observable is an association list; the process environment and
      the cache directory are [gmap]s.
    - Clock readings ([time.time()], file modification times) are exact
      rationals; binary rounding of the float subtraction is not modelled.
    - What the network and the clock answer is an input of each operation
      (an oracle); what the program writes (the client connection, the
      access log, the cache directory, the RPC calls it issues) is state.
    - Exceptions decided by the data are modelled ([bytes.fromhex] on a bad
      string, a missing dictionary key, [urlparse] rejecting a URL, a
      status or header line that [latin-1] cannot encode); faults
      of the medium itself (a disk that cannot be written, a client
      connection that breaks), the interleaving of threads and the console
      output of [print] are not. *)

From Stdlib Require Import QArith Lqa ZArith String Ascii Strings.Byte DecimalString.
From stdpp Require Import gmap strings list.

Close Scope Q_scope.
Local Open Scope string_scope.

(** ** Python primitives used by the programs *)

Module Py.

(** [x < y] on clock readings. *)
Definition Qltb (x y : Q) : bool := negb (Qle_bool y x).

(** [str.startswith]. *)
Definition startswith (s p : string) : bool := String.prefix p s.

(** [str.lower()], on the ASCII letters.  The only use compares the result
    with all-ASCII names, none of which contains a letter that a non-ASCII
    character lowers to. *)
Definition lower_ascii (c : ascii) : ascii :=
  let n := nat_of_ascii c in
  if (65 <=? n)%nat && (n <=? 90)%nat then ascii_of_nat (n + 32) else c.

Fixpoint lower (s : string) : string :=
  match s with
  | EmptyString => EmptyString
  | String c s' => String (lower_ascii c) (lower s')
  end.

(** The characters [bytes.fromhex] skips: space, tab, newline, vertical
    tab, form feed, carriage return. *)
Definition isspace (c : ascii) : bool :=
  let n := nat_of_ascii c in
  (n =? 32)%nat || ((9 <=? n)%nat && (n <=? 13)%nat).

(** The ASCII characters [str.strip()] removes: the same and the four
    separators 28 to 31. *)
Definition str_isspace (c : ascii) : bool :=
  let n := nat_of_ascii c in
  isspace c || ((28 <=? n)%nat && (n <=? 31)%nat).

Fixpoint lstrip (s : string) : string :=
  match s with
  | EmptyString => EmptyString
  | String c s' => if str_isspace c then lstrip s' else s
  end.

(** [rstrip] keeps a character when something non-blank follows it or it is
    not blank itself. *)
Fixpoint rstrip (s : string) : string :=
  match s with
  | EmptyString => EmptyString
  | String c s' =>
      match rstrip s' with
      | EmptyString => if str_isspace c then EmptyString else String c EmptyString
      | r => String c r
      end
  end.

Definition strip (s : string) : string := rstrip (lstrip s).

(** [str(n)] for an [int]. *)
Definition str_int (n : Z) : string := NilZero.string_of_int (Z.to_int n).

(** [str(b)] for a [bool]. *)
Definition str_bool (b : bool) : string := if b then "True" else "False".

(** [str.encode()]: the bytes of the string. *)
Definition encode (s : string) : list byte := list_byte_of_string s.

(** *** [bytes.hex()] and [bytes.fromhex()] *)

Definition hexdigit (n : N) : ascii :=
  match n with
  | 0 => "0" | 1 => "1" | 2 => "2" | 3 => "3" | 4 => "4" | 5 => "5"
  | 6 => "6" | 7 => "7" | 8 => "8" | 9 => "9" | 10 => "a" | 11 => "b"
  | 12 => "c" | 13 => "d" | 14 => "e" | _ => "f"
  end%N%char.

Definition hex_byte (b : byte) (rest : string) : string :=
  let n := Byte.to_N b in
  String (hexdigit (n / 16)) (String (hexdigit (n mod 16)) rest).

Definition hex (bs : list byte) : string := foldr hex_byte EmptyString bs.

(** Value of one hexadecimal digit, either case. *)
Definition hexval (c : ascii) : option N :=
  let n := N_of_ascii c in
  if (48 <=? n)%N && (n <=? 57)%N then Some (n - 48)%N
  else if (97 <=? n)%N && (n <=? 102)%N then Some (n - 87)%N
  else if (65 <=? n)%N && (n <=? 70)%N then Some (n - 55)%N
  else None.

(** [bytes.fromhex]: blanks are skipped between bytes, each byte is two
    adjacent digits; [None] is the [ValueError]. *)
Fixpoint fromhex (s : string) : option (list byte) :=
  match s with
  | EmptyString => Some []
  | String c s' =>
      if isspace c then fromhex s'
      else match s' with
           | EmptyString => None
           | String d s'' =>
               match hexval c, hexval d with
               | Some h, Some l =>
                   match Byte.of_N (16 * h + l), fromhex s'' with
                   | Some b, Some bs => Some (b :: bs)
                   | _, _ => None
                   end
               | _, _ => None
               end
           end
  end.

(** *** The format specification [.2f]

    The value is rounded to the nearest hundredth, ties to the even
    neighbour, and printed with its sign, as Python does for the exact
    value of the float. *)
Definition round_half_even (q : Q) : Z :=
  let n := Qnum q in
  let d := Z.pos (Qden q) in
  let fl := (n / d)%Z in
  let r2 := (2 * (n mod d))%Z in
  if (r2 <? d)%Z then fl
  else if (d <? r2)%Z then (fl + 1)%Z
  else if Z.even fl then fl else (fl + 1)%Z.

Definition two_digits (n : Z) : string :=
  (if (n <? 10)%Z then "0" else "") ++ str_int n.

Definition format_2f (q : Q) : string :=
  let c := Z.abs (round_half_even (q * 100)%Q) in
  (if Qltb q 0%Q then "-" else "")
    ++ str_int (c / 100) ++ "." ++ two_digits (c mod 100).

(** [posixpath.join] of two components. *)
Definition path_join (a b : string) : string :=
  if startswith b "/" then b
  else if (String.length a =? 0)%nat then b
  else if String.eqb (String.substring (String.length a - 1) 1 a) "/" then a ++ b
  else a ++ "/" ++ b.

(** [s.endswith(suffix)]: some tail of [s] is [suffix]. *)
Fixpoint endswith (s suffix : string) : bool :=
  String.eqb s suffix
  || match s with
     | EmptyString => false
     | String _ s' => endswith s' suffix
     end.

(** [s.split(sep)] for a separator of one character: one more piece than
    there are separators, empty pieces included. *)
Fixpoint split (sep : ascii) (s : string) : list string :=
  match s with
  | EmptyString => [EmptyString]
  | String c s' =>
      if Ascii.eqb c sep then EmptyString :: split sep s'
      else match split sep s' with
           | piece :: pieces => String c piece :: pieces
           | [] => [String c EmptyString]
           end
  end.

(** *** The directory of cache files

    The storage is a map from path to file; a directory is what the paths
    below it imply. *)

(** [s] without the leading [pre], when it starts with it. *)
Fixpoint strip_prefix (pre s : string) : option string :=
  match pre, s with
  | EmptyString, _ => Some s
  | String c pre', String d s' =>
      if Ascii.eqb c d then strip_prefix pre' s' else None
  | String _ _, EmptyString => None
  end.

(** A directory with its separator, as [posixpath.join] writes it. *)
Definition dir_prefix (dir : string) : string :=
  if String.eqb (String.substring (String.length dir - 1) 1 dir) "/" then dir
  else dir ++ "/".

(** The part of a relative path before its first separator. *)
Fixpoint first_component (s : string) : string :=
  match s with
  | EmptyString => EmptyString
  | String c s' =>
      if Ascii.eqb c "/" then EmptyString else String c (first_component s')
  end.

(** The entry of [dir] that [path] goes through, when it lies below [dir]. *)
Definition entry_name (dir path : string) : option string :=
  match strip_prefix (dir_prefix dir) path with
  | Some rest =>
      let name := first_component rest in
      if String.eqb name "" then None else Some name
  | None => None
  end.

(** [os.listdir(dir)]: the names of the entries of [dir], each once, in the
    order the storage lists them. *)
Definition listdir {A} (dir : string) (d : gmap string A) : list string :=
  remove_dups (omap (entry_name dir) (map_to_list d).*1).

(** [os.remove(path)]: the storage without the file, or [None] for the
    [OSError] when there is no file at [path]. *)
Definition remove {A} (path : string) (d : gmap string A) : option (gmap string A) :=
  match d !! path with
  | Some _ => Some (delete path d)
  | None => None
  end.

(** *** Text, its characters and its lines

    A [str] is held as its UTF-8 bytes: an ASCII character is one byte, and
    a character above U+00FF, and no other, begins with a byte of 0xC4 or
    more. *)

Definition lf : ascii := ascii_of_nat 10.
Definition cr : ascii := ascii_of_nat 13.
Definition crlf : string := String cr (String lf EmptyString).

(** The characters of a [str], as numbers; [cur] is the character whose
    bytes are being read. *)
Fixpoint code_points_from (cur : option N) (s : string) : list N :=
  match s with
  | EmptyString => match cur with Some v => [v] | None => [] end
  | String c s' =>
      let b := N_of_ascii c in
      if (128 <=? b)%N && (b <? 192)%N then
        match cur with
        | Some v => code_points_from (Some (v * 64 + (b - 128))%N) s'
        | None => code_points_from (Some b) s'
        end
      else
        let first := if (b <? 192)%N then b
                     else if (b <? 224)%N then (b - 192)%N
                     else if (b <? 240)%N then (b - 224)%N
                     else (b - 240)%N in
        match cur with
        | Some v => v :: code_points_from (Some first) s'
        | None => code_points_from (Some first) s'
        end
  end.

Definition code_points (s : string) : list N := code_points_from None s.

(** [n] in [width] hexadecimal digits, lower case. *)
Fixpoint hex_digits (width : nat) (n : N) (rest : string) : string :=
  match width with
  | O => rest
  | S width' => hex_digits width' (n / 16)%N (String (hexdigit (n mod 16)%N) rest)
  end.

(** The number of characters at the head of [cps] that [latin-1] lacks. *)
Fixpoint unencodable_run (cps : list N) : nat :=
  match cps with
  | cp :: rest => if (cp <? 256)%N then 0%nat else S (unencodable_run rest)
  | [] => 0%nat
  end.

Fixpoint latin1_scan (position : nat) (cps : list N) : option string :=
  match cps with
  | [] => None
  | cp :: rest =>
      if (cp <? 256)%N then latin1_scan (S position) rest
      else
        let reason := ": ordinal not in range(256)" in
        Some (match unencodable_run rest with
              | O =>
                  "'latin-1' codec can't encode character '"
                    ++ (if (cp <? 65536)%N then "\u" ++ hex_digits 4 cp ""
                        else "\U" ++ hex_digits 8 cp "")
                    ++ "' in position " ++ str_int (Z.of_nat position) ++ reason
              | S more =>
                  "'latin-1' codec can't encode characters in position "
                    ++ str_int (Z.of_nat position) ++ "-"
                    ++ str_int (Z.of_nat (position + S more)) ++ reason
              end)
  end.

(** [s.encode('latin-1', 'strict')]: [None] when it succeeds, and the
    [str(e)] of the [UnicodeEncodeError] when [s] has a character above
    U+00FF: the first run of such characters, by position. *)
Definition latin1_error (s : string) : option string :=
  latin1_scan 0 (code_points s).

(** [f.readlines()] on a file opened in text mode: the text is cut after
    each line break, and the breaks ["\r\n"] and ["\r"] are read as
    ["\n"]. *)
Fixpoint readlines (s : string) : list string :=
  match s with
  | EmptyString => []
  | String c s' =>
      if Ascii.eqb c lf then String lf EmptyString :: readlines s'
      else if Ascii.eqb c cr then
        String lf EmptyString
          :: match s' with
             | String d s'' => if Ascii.eqb d lf then readlines s'' else readlines s'
             | EmptyString => []
             end
      else match readlines s' with
           | [] => [String c EmptyString]
           | line :: lines => String c line :: lines
           end
  end.

End Py.

(** ** The fetch worker ([rpc_worker.py]) *)

Module Worker.

(** [CACHE_TTL = 60  # seconds] *)
Definition CACHE_TTL : Q := 60.

(** The dictionary [cache_data] that [write_to_cache] dumps as JSON.  The
    JSON text itself is not modelled: the file holds the document. *)
Record cache_data := {
  cd_url : string;
  cd_status : Z;
  cd_headers : list (string * string);
  cd_content_hex : string;
  cd_timestamp : Q
}.

(** One file of the cache directory: its modification time, stamped by the
    storage when the file is written, and the document in it. *)
Record cache_file := { mtime : Q; json : cache_data }.

(** What the upstream server answers to [urlopen] and [response.read()]:
    a response, an [urllib.error.HTTPError] (with its [code] and its
    [str(e)]), or any other exception (with its [str(e)]). *)
Inductive upstream :=
| UpResponse (status : Z) (headers : list (string * string)) (body : list byte)
| UpHTTPError (code : Z) (text : string)
| UpException (text : string).

(** The dictionary that [fetch_url] returns; [content] is the payload of
    the [Binary] wrapper, [error] is absent on the success paths. *)
Record fetch_result := {
  status : Z;
  headers : list (string * string);
  content : list byte;
  cached : bool;
  error : option string;
  worker : string
}.

(** The clock during one [fetch_url]: [time.time()] in [read_from_cache],
    [time.time()] in [write_to_cache], and the modification time the
    storage gives the written file. *)
Record clock := { t_lookup : Q; t_stamp : Q; t_mtime : Q }.

(** The world of a worker: the shared cache directory (path to file) and
    the URLs it went upstream for so far. *)
Record world := { dfs : gmap string cache_file; outbound : list string }.

Section Process.

(** [hashlib.md5(url.encode()).hexdigest()] *)
Variable md5_hexdigest : string -> string.

(** [os.environ] of the worker process. *)
Variable environ : gmap string string.

Definition CACHE_DIR : string := default "./cache_data" (environ !! "CACHE_DIR").

Definition get_cache_key (url : string) : string := md5_hexdigest url.

Definition get_cache_path (cache_key : string) : string :=
  Py.path_join CACHE_DIR (cache_key ++ ".json").

(** [read_from_cache]: the loaded document with its decoded content, or
    [None]; an expired file is removed. *)
Definition read_from_cache (url : string) (now : Q) (d : gmap string cache_file)
  : option (cache_data * list byte) * gmap string cache_file :=
  let cache_path := get_cache_path (get_cache_key url) in
  match d !! cache_path with
  | Some f =>
      let file_age := (now - mtime f)%Q in
      if Py.Qltb file_age CACHE_TTL then
        match Py.fromhex (cd_content_hex (json f)) with
        | Some bytes => (Some (json f, bytes), d)
        | None => (None, d)              (* except Exception: print *)
        end
      else (None, delete cache_path d)   (* os.remove(cache_path) *)
  | None => (None, d)
  end.

(** [write_to_cache]: the file is replaced by the new document. *)
Definition write_to_cache (url : string) (data : fetch_result) (clk : clock)
    (d : gmap string cache_file) : gmap string cache_file :=
  let cache_path := get_cache_path (get_cache_key url) in
  let cache_data := {| cd_url := url;
                       cd_status := status data;
                       cd_headers := headers data;
                       cd_content_hex := Py.hex (content data);
                       cd_timestamp := t_stamp clk |} in
  <[cache_path := {| mtime := t_mtime clk; json := cache_data |}]> d.

(** [fetch_url] *)
Definition fetch_url (url : string) (clk : clock) (net : upstream) (w : world)
  : fetch_result * world :=
  let worker_id := default "local" (environ !! "WORKER_ID") in
  match read_from_cache url (t_lookup clk) (dfs w) with
  | (Some (data, bytes), d) =>
      ({| status := cd_status data; headers := cd_headers data;
          content := bytes; cached := true; error := None;
          worker := worker_id |},
       {| dfs := d; outbound := outbound w |})
  | (None, d) =>
      let sent := (outbound w ++ [url])%list in
      match net with
      | UpResponse st hs body =>
          let result := {| status := st; headers := hs; content := body;
                           cached := false; error := None;
                           worker := worker_id |} in
          (result, {| dfs := write_to_cache url result clk d; outbound := sent |})
      | UpHTTPError code text =>
          ({| status := code; headers := []; content := Py.encode text;
              cached := false; error := Some text; worker := worker_id |},
           {| dfs := d; outbound := sent |})
      | UpException text =>
          ({| status := 500; headers := []; content := Py.encode text;
              cached := false; error := Some text; worker := worker_id |},
           {| dfs := d; outbound := sent |})
      end
  end.

(** A call that returns or raises [OSError] for a path. *)
Inductive outcome (A : Type) :=
| Returned (a : A)
| OSError (path : string).
Arguments Returned {A} a.
Arguments OSError {A} path.

(** The dictionary of [health_check]. *)
Record health := {
  h_status : string;
  h_worker_id : string;
  h_cache_type : string;
  h_cache_dir : string;
  h_cache_entries : nat;
  h_timestamp : Q
}.

(** The dictionary of [get_stats]. *)
Record stats := {
  s_worker_id : string;
  s_cache_type : string;
  s_cache_dir : string;
  s_cache_entries : nat;
  s_cache_files : list string
}.

(** [[f for f in os.listdir(CACHE_DIR) if f.endswith('.json')]] *)
Definition cache_files (d : gmap string cache_file) : list string :=
  filter (fun f => Py.endswith f ".json" = true) (Py.listdir CACHE_DIR d).

(** [health_check] *)
Definition health_check (now : Q) (w : world) : health :=
  let worker_id := default "local" (environ !! "WORKER_ID") in
  {| h_status := "ok";
     h_worker_id := worker_id;
     h_cache_type := "DFS (File-based)";
     h_cache_dir := CACHE_DIR;
     h_cache_entries := length (cache_files (dfs w));
     h_timestamp := now |}.

(** The loop of [clear_cache] over the names that [os.listdir] returned:
    the directory it leaves, and the path whose removal raised, if any. *)
Fixpoint remove_each (names : list string) (d : gmap string cache_file)
  : option string * gmap string cache_file :=
  match names with
  | [] => (None, d)
  | f :: rest =>
      if Py.endswith f ".json" then
        match Py.remove (Py.path_join CACHE_DIR f) d with
        | Some d' => remove_each rest d'
        | None => (Some (Py.path_join CACHE_DIR f), d)
        end
      else remove_each rest d
  end.

(** [clear_cache] *)
Definition clear_cache (w : world) : outcome bool * world :=
  match remove_each (Py.listdir CACHE_DIR (dfs w)) (dfs w) with
  | (None, d) => (Returned true, {| dfs := d; outbound := outbound w |})
  | (Some path, d) => (OSError path, {| dfs := d; outbound := outbound w |})
  end.

(** [get_stats] *)
Definition get_stats (w : world) : stats :=
  {| s_worker_id := default "local" (environ !! "WORKER_ID");
     s_cache_type := "DFS";
     s_cache_dir := CACHE_DIR;
     s_cache_entries := length (cache_files (dfs w));
     s_cache_files := take 10 (cache_files (dfs w)) |}.

End Process.

Arguments Returned {A} a.
Arguments OSError {A} path.

End Worker.

(** ** The proxy ([rpc_proxy_server.py]) *)

Module Proxy.

(** Exceptions that the modelled code can raise. *)
Inductive exn :=
| KeyError (key : string)
| IndexError
| RpcFailure (text : string)
| UnicodeEncodeError (text : string).

(** [str(e)] *)
Definition str_exn (e : exn) : string :=
  match e with
  | KeyError key => "'" ++ key ++ "'"
  | IndexError => "list index out of range"
  | RpcFailure text => text
  | UnicodeEncodeError text => text
  end.

Inductive result (A : Type) :=
| Ok (a : A)
| Raised (e : exn).
Arguments Ok {A} a.
Arguments Raised {A} e.

(** What the handler does on the client connection, in order, through
    [BaseHTTPRequestHandler]: the calls that succeeded. *)
Inductive wire_event :=
| send_response (code : Z)
| send_header (keyword value : string)
| end_headers
| wfile_write (data : list byte)
| send_error (code : Z) (message : string).

(** One line of the access log, by field. *)
Record access_record := {
  ar_timestamp : string;
  ar_client_ip : string;
  ar_method : string;
  ar_url : string;
  ar_domain : string;
  ar_status : Z;
  ar_worker : string;
  ar_cached : bool;
  ar_response_time : Q
}.

Definition newline : string := String (ascii_of_nat 10) EmptyString.

(** The f-string of [log_access]. *)
Definition log_line (r : access_record) : string :=
  ar_timestamp r ++ "|" ++ ar_client_ip r ++ "|" ++ ar_method r ++ "|"
    ++ ar_url r ++ "|" ++ ar_domain r ++ "|" ++ Py.str_int (ar_status r) ++ "|"
    ++ ar_worker r ++ "|" ++ Py.str_bool (ar_cached r) ++ "|"
    ++ Py.format_2f (ar_response_time r) ++ newline.

(** The value under ['content']: a [Binary] wrapper (it has [.data]) or a
    plain bytes object. *)
Inductive payload :=
| Binary (data : list byte)
| RawBytes (data : list byte).

Definition payload_bytes (c : payload) : list byte :=
  match c with Binary data => data | RawBytes data => data end.

(** The dictionary a worker replies with; a key may be missing. *)
Record rpc_reply := {
  r_status : option Z;
  r_headers : option (list (string * string));
  r_content : option payload;
  r_cached : option bool;
  r_worker : option string
}.

(** Outcome of [ServerProxy(worker_url).fetch_url(url)]: a reply, or an
    exception of the RPC layer (connection refused or reset, timeout,
    protocol error, unparsable response, fault), with its [str(e)]. *)
Inductive rpc_outcome :=
| Reply (r : rpc_reply)
| Fails (text : string).

(** Outcome of [ServerProxy(worker_url).health_check()]: a dictionary
    with or without the key ['status'], or an exception. *)
Inductive health_outcome :=
| HealthReply (status : option string)
| HealthFails.

(** The state of the proxy process.  List objects live in [heap]; the
    global [active_workers] is a reference to one of them. *)
Record world := {
  heap : gmap nat (list string);
  active_workers : nat;
  index : nat;                           (* load_balancer.index *)
  client : list wire_event;              (* written to the connection *)
  log_file : list string;                (* lines of access.log *)
  calls : list (string * string)         (* RPC calls issued: endpoint, method *)
}.

Definition with_heap (h : gmap nat (list string)) (w : world) : world :=
  {| heap := h; active_workers := active_workers w; index := index w;
     client := client w; log_file := log_file w; calls := calls w |}.

Definition with_active_workers (l : nat) (w : world) : world :=
  {| heap := heap w; active_workers := l; index := index w;
     client := client w; log_file := log_file w; calls := calls w |}.

Definition with_index (i : nat) (w : world) : world :=
  {| heap := heap w; active_workers := active_workers w; index := i;
     client := client w; log_file := log_file w; calls := calls w |}.

Definition with_client (c : list wire_event) (w : world) : world :=
  {| heap := heap w; active_workers := active_workers w; index := index w;
     client := c; log_file := log_file w; calls := calls w |}.

Definition with_log_file (l : list string) (w : world) : world :=
  {| heap := heap w; active_workers := active_workers w; index := index w;
     client := client w; log_file := l; calls := calls w |}.

Definition with_calls (c : list (string * string)) (w : world) : world :=
  {| heap := heap w; active_workers := active_workers w; index := index w;
     client := client w; log_file := log_file w; calls := c |}.

(** The list the global [active_workers] refers to. *)
Definition active_list (w : world) : list string :=
  default [] (heap w !! active_workers w).

(** *** Statements: state passing with exceptions *)

Definition M (A : Type) : Type := world -> result A * world.

#[global] Instance M_ret : MRet M := fun A a w => (Ok a, w).

#[global] Instance M_bind : MBind M := fun A B f m w =>
  match m w with
  | (Ok a, w') => f a w'
  | (Raised e, w') => (Raised e, w')
  end.

Definition raise {A} (e : exn) : M A := fun w => (Raised e, w).

(** [try: body  except Exception as e: handler(e)]; what [body] did
    before raising stays done. *)
Definition try_except {A} (body : M A) (handler : exn -> M A) : M A := fun w =>
  match body w with
  | (Ok a, w') => (Ok a, w')
  | (Raised e, w') => handler e w'
  end.

(** [for x in l: f(x)] *)
Fixpoint for_each {A} (f : A -> M unit) (l : list A) : M unit :=
  match l with
  | [] => mret tt
  | x :: l' => f x ;; for_each f l'
  end.

Definition emit (ev : wire_event) : M unit := fun w =>
  (Ok tt, with_client (client w ++ [ev])%list w).

(** [d[key]] on a reply. *)
Definition getitem {A} (key : string) (field : option A) : M A :=
  match field with
  | Some v => mret v
  | None => raise (KeyError key)
  end.

(** *** [LoadBalancer.get_worker] *)
Definition get_worker : M (option string) := fun w =>
  let active := active_list w in
  match active with
  | [] => (Ok None, w)
  | _ :: _ =>
      match active !! (index w mod length active)%nat with
      | Some worker => (Ok (Some worker), with_index (S (index w)) w)
      | None => (Raised IndexError, w)
      end
  end.

(** The request, the clock and the network during one request: the
    [request_version] that [parse_request] found; [time.time()] at the
    start, after the reply, and in the exception handler; the timestamp
    [log_access] takes; what each endpoint answers to [fetch_url]. *)
Record request_env := {
  request_version : string;
  t_start : Q;
  t_reply : Q;
  t_except : Q;
  log_stamp : string;
  rpc : string -> string -> rpc_outcome
}.

(** What encoding [line] for the connection raises: nothing when the
    request is an HTTP/0.9 request, for which the status line and the
    headers are not written, and else the error of [latin-1], strict. *)
Definition line_error (env : request_env) (line : string) : option string :=
  if String.eqb (request_version env) "HTTP/0.9" then None
  else Py.latin1_error line.

(** A call that encodes [line] before anything is put on the
    connection. *)
Definition encoded (env : request_env) (line : string) (ev : wire_event)
  : M unit :=
  match line_error env line with
  | None => emit ev
  | Some text => raise (UnicodeEncodeError text)
  end.

(** The line of [send_header]: ["%s: %s\r\n" % (keyword, value)]. *)
Definition header_line (keyword value : string) : string :=
  keyword ++ ": " ++ value ++ Py.crlf.

(** The status line of [send_error], through [send_response_only]:
    ["%s %d %s\r\n" % (self.protocol_version, code, message)]. *)
Definition status_line (code : Z) (message : string) : string :=
  "HTTP/1.0 " ++ Py.str_int code ++ " " ++ message ++ Py.crlf.

(** [self.send_response(code)]: the reason phrase comes from the table of
    the library, and the line is ASCII. *)
Definition do_send_response (code : Z) : M unit := emit (send_response code).

(** [self.send_header(keyword, value)] *)
Definition do_send_header (env : request_env) (keyword value : string) : M unit :=
  encoded env (header_line keyword value) (send_header keyword value).

(** [self.send_error(code, message)]: the status line carries [message];
    the headers and the body that follow cannot fail. *)
Definition do_send_error (env : request_env) (code : Z) (message : string)
  : M unit :=
  encoded env (status_line code message) (send_error code message).

Section Server.

(** [urlparse(url).netloc]; [None] when [urlparse] raises [ValueError]. *)
Variable urlparse_netloc : string -> option string.

(** The configured endpoints, [os.environ.get('WORKERS', ...).split(',')]. *)
Variable WORKERS : list string.

(** *** [check_workers] *)

(** One iteration of the loop over [WORKERS]; [alive] is the reference
    held by the local variable. *)
Definition probe_step (probe : nat -> string -> health_outcome)
    (alive : nat) (i : nat) (raw : string) (w : world) : world :=
  let worker_url := Py.strip raw in
  if String.eqb worker_url "" then w
  else
    let w1 := with_calls (calls w ++ [(worker_url, "health_check")])%list w in
    match probe i worker_url with
    | HealthReply (Some st) =>
        if String.eqb st "ok"
        then with_heap (alter (fun l => l ++ [worker_url])%list alive (heap w1)) w1
        else w1
    | HealthReply None => w1           (* KeyError, caught *)
    | HealthFails => w1                (* caught *)
    end.

(** The loop [for worker_url in WORKERS], observed: the worlds after each
    iteration, in order. *)
Fixpoint probe_loop_states (probe : nat -> string -> health_outcome)
    (alive : nat) (i : nat) (ws : list string) (w : world) : list world :=
  match ws with
  | [] => []
  | raw :: rest =>
      let w' := probe_step probe alive i raw w in
      w' :: probe_loop_states probe alive (S i) rest w'
  end.

(** The world when the loop is left. *)
Definition probe_loop (probe : nat -> string -> health_outcome)
    (alive : nat) (i : nat) (ws : list string) (w : world) : world :=
  List.last (probe_loop_states probe alive i ws w) w.

(** Every world [check_workers] goes through, in order: after
    [alive = []], where the local [alive] is bound to a new list object;
    after each iteration of the loop, which appends to that object; after
    [active_workers = alive], which makes the global refer to it. *)
Definition check_workers_states (probe : nat -> string -> health_outcome)
    (w : world) : list world :=
  let alive := fresh (dom (heap w)) in
  let w0 := with_heap (<[alive := []]> (heap w)) w in
  let during := probe_loop_states probe alive 0 WORKERS w0 in
  (w0 :: during ++ [with_active_workers alive (List.last during w0)])%list.

(** [check_workers]: the world in which the run ends, and [len(alive)]. *)
Definition check_workers (probe : nat -> string -> health_outcome)
    (w : world) : nat * world :=
  let alive := fresh (dom (heap w)) in
  let w2 := List.last (check_workers_states probe w) w in
  (length (default [] (heap w2 !! alive)), w2).

(** *** [log_access] *)
Definition log_access (stamp client_ip method url : string) (status : Z)
    (worker : string) (cached : bool) (response_time : Q) : M unit := fun w =>
  match urlparse_netloc url with
  | Some netloc =>
      let domain := if String.eqb netloc "" then "unknown" else netloc in
      let line := log_line {| ar_timestamp := stamp; ar_client_ip := client_ip;
                              ar_method := method; ar_url := url;
                              ar_domain := domain; ar_status := status;
                              ar_worker := worker; ar_cached := cached;
                              ar_response_time := response_time |} in
      (Ok tt, with_log_file (log_file w ++ [line])%list w)
  | None => (Ok tt, w)                 (* except Exception: print *)
  end.

(** *** [ProxyHandler.do_GET] *)

Definition hop_header (key : string) : bool :=
  bool_decide (Py.lower key ∈ ["transfer-encoding"; "connection"]).

(** [proxy.fetch_url(url)] on [ServerProxy(worker_url)]. *)
Definition call_fetch_url (env : request_env) (worker_url url : string)
  : M rpc_reply := fun w =>
  let w1 := with_calls (calls w ++ [(worker_url, "fetch_url")])%list w in
  match rpc env worker_url url with
  | Reply r => (Ok r, w1)
  | Fails text => (Raised (RpcFailure text), w1)
  end.

(** The target URL built from the request line. *)
Definition target_url (path : string) : string :=
  if Py.startswith path "http" then path else "http://example.com" ++ path.

Definition do_GET (env : request_env) (client_ip path : string) : M unit :=
  let start_time := t_start env in
  let url := target_url path in
  worker ← get_worker;
  match worker with
  | None | Some EmptyString =>
      do_send_error env 503 "No RPC workers available";;
      log_access (log_stamp env) client_ip "GET" url 503 "none" false 0
  | Some worker_url =>
      try_except
        (result ← call_fetch_url env worker_url url;
         let response_time := ((t_reply env - start_time) * 1000)%Q in
         st ← getitem "status" (r_status result);
         do_send_response st;;
         for_each (fun '(key, value) =>
                     if hop_header key then mret tt
                     else do_send_header env key value)
                  (default [] (r_headers result));;
         do_send_header env "X-Proxy" "RPC-Proxy";;
         do_send_header env "X-Worker" (default worker_url (r_worker result));;
         do_send_header env "X-Cached"
           (Py.str_bool (default false (r_cached result)));;
         do_send_header env "X-Response-Time"
           (Py.format_2f response_time ++ "ms");;
         emit end_headers;;
         content ← getitem "content" (r_content result);
         emit (wfile_write (payload_bytes content));;
         log_access (log_stamp env) client_ip "GET" url st
           (default worker_url (r_worker result))
           (default false (r_cached result)) response_time)
        (fun e =>
           let response_time := ((t_except env - start_time) * 1000)%Q in
           do_send_error env 502 ("RPC Error: " ++ str_exn e);;
           log_access (log_stamp env) client_ip "GET" url 502 worker_url
             false response_time)
  end.

(** *** [ProxyHandler.do_CONNECT] *)
Definition do_CONNECT (env : request_env) : M unit :=
  do_send_error env 501 "HTTPS tunneling not implemented".

(** *** [ThreadedHTTPServer.process_request_thread], for a GET request: an
    exception that leaves the handler is caught, and reported, by the
    thread of the request. *)
Definition process_request_thread (env : request_env) (client_ip path : string)
  : M unit :=
  try_except (do_GET env client_ip path) (fun _ => mret tt).

(** *** [worker_health_monitor]

    The loop never ends; these are its first rounds, one probe oracle for
    each round ([time.sleep] changes nothing of the state). *)
Definition worker_health_monitor
    (rounds : list (nat -> string -> health_outcome)) (w : world) : world :=
  foldl (fun v probe => (check_workers probe v).2) w rounds.

End Server.

End Proxy.

(** ** The log analytics ([analytics.py]) *)

Module Analytics.

(** A value of a pair: the count [1], an [int], or a response time, a
    [float]. *)
Inductive num :=
| Int (n : Z)
| Float (x : Q).

(** [a + b] *)
Definition add (a b : num) : num :=
  match a, b with
  | Int x, Int y => Int (x + y)
  | Int x, Float y => Float (inject_Z x + y)
  | Float x, Int y => Float (x + inject_Z y)
  | Float x, Float y => Float (x + y)
  end.

(** [sum(values)] *)
Definition sum (values : list num) : num := foldl add (Int 0) values.

Section Reading.

(** [float(s)] for the text of a finite number; [None] is the
    [ValueError]. *)
Variable float : string -> option Q.

(** [mapper]: the pairs of one line, or none when the line has fewer than
    nine fields, or more (the unpacking raises), or a response time that is
    not a number (the conversion raises). *)
Definition mapper (line : string) : list ((string * string) * num) :=
  let parts := Py.split "|" (Py.strip line) in
  if (length parts <? 9)%nat then []
  else
    match parts with
    | [timestamp; client_ip; method; url; domain; status; worker; cached;
       response_time] =>
        match float response_time with
        | Some seconds =>
            [(("domain", domain), Int 1);
             (("cache", cached), Int 1);
             (("worker", worker), Int 1);
             (("status", status), Int 1);
             (("response_time", "total"), Float seconds);
             (("response_time", "count"), Int 1);
             (("hour", String.substring 0 13 timestamp), Int 1)]
        | None => []
        end
    | _ => []
    end.

(** [reducer] *)
Definition reducer (key : string * string) (values : list num) : num :=
  if String.eqb key.1 "response_time" && String.eqb key.2 "total"
  then sum values
  else sum values.

(** [shuffle]: the values of each key, in the order of the pairs. *)
Definition shuffle (mapped_data : list ((string * string) * num))
  : gmap (string * string) (list num) :=
  foldl (fun grouped kv =>
           <[kv.1 := (default [] (grouped !! kv.1) ++ [kv.2])%list]> grouped)
        ∅ mapped_data.

(** [run_mapreduce] on the lines of the log file, or on [None] when there
    is no file. *)
Definition run_mapreduce (log : option (list string))
  : option (gmap (string * string) num) :=
  match log with
  | None => None
  | Some lines =>
      let mapped_data := mjoin (map mapper lines) in
      let shuffled := shuffle mapped_data in
      Some (map_imap (fun key values => Some (reducer key values)) shuffled)
  end.

End Reading.

End Analytics.

(** ** Definitions used by the statements and the examples *)

(** The upstream request raised. *)
Definition upstream_failed (net : Worker.upstream) : Prop :=
  match net with
  | Worker.UpResponse _ _ _ => False
  | _ => True
  end.

(** The MD5 digests of the URLs of the examples. *)
Definition md5_of_examples (url : string) : string :=
  if String.eqb url "http://example.com/" then "a6bf1757fff057f266b697df9cf176fd"
  else if String.eqb url "http://example.com/a" then "3e27a17e84f5f8486fbc14488e12e6ff"
  else "".

Definition env_of (worker_id : string) : gmap string string :=
  {[ "WORKER_ID" := worker_id; "CACHE_DIR" := "/dfs" ]}.

Definition example_page : list byte := Py.encode "<html>ok</html>".

Definition example_response : Worker.upstream :=
  Worker.UpResponse 200 [("Content-Type", "text/html")] example_page.

Definition example_clock (t : Q) : Worker.clock :=
  {| Worker.t_lookup := t; Worker.t_stamp := t; Worker.t_mtime := t |}.

Definition empty_dfs : Worker.world :=
  {| Worker.dfs := ∅; Worker.outbound := [] |}.

(** The directory after one worker fetched the example URL at time 100. *)
Definition dfs_after_first_fetch : Worker.world :=
  (Worker.fetch_url md5_of_examples (env_of "worker-1") "http://example.com/"
     (example_clock 100) example_response empty_dfs).2.

(** [k] calls of [get_worker] in a row, with what each returned. *)
Fixpoint get_worker_times (k : nat) : Proxy.M (list (option string)) :=
  match k with
  | O => mret []
  | S k' =>
      x ← Proxy.get_worker;
      xs ← get_worker_times k';
      mret (x :: xs)
  end.

(** The health call returned a dictionary whose ['status'] is ["ok"]. *)
Definition answers_ok (o : Proxy.health_outcome) : bool :=
  match o with
  | Proxy.HealthReply (Some st) => String.eqb st "ok"
  | _ => false
  end.

(** The endpoints of [WORKERS] that a probe round finds alive, in order;
    [i] is the position of the first of [ws] in [WORKERS]. *)
Fixpoint live_endpoints (probe : nat -> string -> Proxy.health_outcome)
    (i : nat) (ws : list string) : list string :=
  match ws with
  | [] => []
  | raw :: rest =>
      let u := Py.strip raw in
      if String.eqb u "" then live_endpoints probe (S i) rest
      else if answers_ok (probe i u) then u :: live_endpoints probe (S i) rest
      else live_endpoints probe (S i) rest
  end.

(** The endpoints a probe round calls, in order. *)
Definition probed_endpoints (ws : list string) : list string :=
  filter (fun u => u <> "") (Py.strip <$> ws).

(** The reply headers that [do_GET] forwards. *)
Definition forwarded_headers (hs : list (string * string)) : list (string * string) :=
  filter (fun kv => Proxy.hop_header kv.1 = false) hs.

(** What one call of [log_access] appends to the log. *)
Definition logged (urlparse_netloc : string -> option string)
    (stamp client_ip method url : string) (status : Z)
    (worker : string) (cached : bool) (response_time : Q) : list string :=
  match urlparse_netloc url with
  | Some netloc =>
      [Proxy.log_line
         {| Proxy.ar_timestamp := stamp; Proxy.ar_client_ip := client_ip;
            Proxy.ar_method := method; Proxy.ar_url := url;
            Proxy.ar_domain := if String.eqb netloc "" then "unknown" else netloc;
            Proxy.ar_status := status; Proxy.ar_worker := worker;
            Proxy.ar_cached := cached; Proxy.ar_response_time := response_time |}]
  | None => []
  end.

(** An instance of [urlparse(url).netloc] for the examples: the scheme ends
    at the first colon; when two slashes follow, the netloc runs to the next
    slash, question mark or hash; a netloc with one of the square brackets
    and not the other is rejected with [ValueError]. *)
Fixpoint after_colon (s : string) : string :=
  match s with
  | EmptyString => EmptyString
  | String c s' => if Ascii.eqb c ":" then s' else after_colon s'
  end.

Fixpoint until_delimiter (s : string) : string :=
  match s with
  | EmptyString => EmptyString
  | String c s' =>
      if Ascii.eqb c "/" || Ascii.eqb c "?" || Ascii.eqb c "#" then EmptyString
      else String c (until_delimiter s')
  end.

Fixpoint has_char (c : ascii) (s : string) : bool :=
  match s with
  | EmptyString => false
  | String c' s' => Ascii.eqb c c' || has_char c s'
  end.

Definition netloc_of_url (url : string) : option string :=
  let rest := after_colon url in
  if Py.startswith rest "//" then
    let netloc := until_delimiter (String.substring 2 (String.length rest - 2) rest) in
    if xorb (has_char "[" netloc) (has_char "]" netloc) then None else Some netloc
  else Some "".

(** The proxy when the module has been loaded: [active_workers = []],
    [load_balancer.index = 0]. *)
Definition initial_world : Proxy.world :=
  {| Proxy.heap := {[ 0%nat := [] ]}; Proxy.active_workers := 0;
     Proxy.index := 0; Proxy.client := []; Proxy.log_file := [];
     Proxy.calls := [] |}.

(** The default value of [WORKERS]. *)
Definition default_workers : list string :=
  ["http://localhost:8001"; "http://localhost:8002"; "http://localhost:8003"].

Definition all_healthy : nat -> string -> Proxy.health_outcome :=
  fun _ _ => Proxy.HealthReply (Some "ok").

(** The second endpoint is down. *)
Definition second_down : nat -> string -> Proxy.health_outcome :=
  fun i _ => if (i =? 1)%nat then Proxy.HealthFails else Proxy.HealthReply (Some "ok").

(** The proxy after a first probe round that found the three workers. *)
Definition three_workers_world : Proxy.world :=
  (Proxy.check_workers default_workers all_healthy initial_world).2.

Definition example_reply : Proxy.rpc_reply :=
  {| Proxy.r_status := Some 200%Z;
     Proxy.r_headers := Some [("Content-Type", "text/html");
                              ("Transfer-Encoding", "chunked");
                              ("CONNECTION", "keep-alive");
                              ("Content-Length", "15")];
     Proxy.r_content := Some (Proxy.Binary example_page);
     Proxy.r_cached := Some true;
     Proxy.r_worker := Some "worker-1" |}.

(** A request served 12.5 ms after it started; every worker replies. *)
Definition env_replying (r : Proxy.rpc_reply) : Proxy.request_env :=
  {| Proxy.request_version := "HTTP/1.1";
     Proxy.t_start := 1000; Proxy.t_reply := 80001 # 80; Proxy.t_except := 1001;
     Proxy.log_stamp := "2026-01-01T00:00:00.000000";
     Proxy.rpc := fun _ _ => Proxy.Reply r |}.

(** Every RPC call fails, 250 ms after the request started. *)
Definition env_failing : Proxy.request_env :=
  {| Proxy.request_version := "HTTP/1.1";
     Proxy.t_start := 1000; Proxy.t_reply := 1000; Proxy.t_except := 4001 # 4;
     Proxy.log_stamp := "2026-01-01T00:00:00.000000";
     Proxy.rpc := fun _ _ => Proxy.Fails "[Errno 111] Connection refused" |}.

(** One call of [fetch_url] as a worker process receives it: the process
    environment, the URL, and what the clock and the upstream answer. *)
Record fetch_call := {
  fc_environ : gmap string string;
  fc_url : string;
  fc_clock : Worker.clock;
  fc_net : Worker.upstream
}.

(** A run of calls, one after the other, on the shared directory. *)
Definition run_fetches (md5_hexdigest : string -> string)
    (calls : list fetch_call) (w : Worker.world) : Worker.world :=
  foldl (fun v c => (Worker.fetch_url md5_hexdigest (fc_environ c) (fc_url c)
                       (fc_clock c) (fc_net c) v).2) w calls.

(** Every file below [dir] lies in [dir] itself: [dir] has no subdirectory. *)
Definition plain_directory {A} (dir : string) (d : gmap string A) : Prop :=
  forall p rest, is_Some (d !! p) ->
    Py.strip_prefix (Py.dir_prefix dir) p = Some rest ->
    Py.first_component rest = rest.

(** [path] is an entry of [dir] whose name ends in [.json]. *)
Definition is_cache_file (dir path : string) : bool :=
  match Py.entry_name dir path with
  | Some name => Py.endswith name ".json"
  | None => false
  end.

(** One GET request as the handler receives it: the oracles of the request,
    the client address and the request target. *)
Record request := {
  rq_env : Proxy.request_env;
  rq_client_ip : string;
  rq_path : string
}.

(** Requests handled one after the other, each in its thread. *)
Definition handle_all (urlparse_netloc : string -> option string)
    (reqs : list request) : Proxy.M unit :=
  Proxy.for_each (fun r => Proxy.process_request_thread urlparse_netloc (rq_env r)
                             (rq_client_ip r) (rq_path r)) reqs.

(** The endpoints that the RPC calls after the first [n] went to. *)
Definition calls_after (n : nat) (w : Proxy.world) : list string :=
  (drop n (Proxy.calls w)).*1.

(** How many of the first [m] turns, counted from the counter [c], fall on
    position [i] of a list of [n] workers. *)
Definition turns_of (n c m i : nat) : nat :=
  length (filter (fun j => ((c + j) mod n)%nat = i) (seq 0 m)).

(** The file that the first fetch of the example URL stored. *)
Definition first_entry : Worker.cache_file :=
  {| Worker.mtime := 100;
     Worker.json :=
       {| Worker.cd_url := "http://example.com/"; Worker.cd_status := 200;
          Worker.cd_headers := [("Content-Type", "text/html")];
          Worker.cd_content_hex := Py.hex example_page;
          Worker.cd_timestamp := 100 |} |}.

Definition new_page : list byte := Py.encode "<html>new</html>".

(** A file written at time 100 whose [content_hex] is no hexadecimal text,
    and the directory that holds it for the example URL. *)
Definition undecodable_entry : Worker.cache_file :=
  {| Worker.mtime := 100;
     Worker.json :=
       {| Worker.cd_url := "http://example.com/"; Worker.cd_status := 200;
          Worker.cd_headers := [];
          Worker.cd_content_hex := "zz";
          Worker.cd_timestamp := 100 |} |}.

Definition undecodable_world : Worker.world :=
  {| Worker.dfs :=
       {[ "/dfs/a6bf1757fff057f266b697df9cf176fd.json" := undecodable_entry ]};
     Worker.outbound := [] |}.

(** A digest function under which the URLs of the examples collide. *)
Definition colliding_digest (url : string) : string :=
  "a6bf1757fff057f266b697df9cf176fd".

(** Two workers fetch the second example URL, the second of them from the
    cache. *)
Definition other_fetches : list fetch_call :=
  [ {| fc_environ := env_of "worker-2"; fc_url := "http://example.com/a";
       fc_clock := example_clock 110; fc_net := example_response |};
    {| fc_environ := env_of "worker-3"; fc_url := "http://example.com/a";
       fc_clock := example_clock 120;
       fc_net := Worker.UpException "unreachable" |} ].

(** Replies that lack a key. *)
Definition reply_without_status : Proxy.rpc_reply :=
  {| Proxy.r_status := None;
     Proxy.r_headers := Some [("Content-Type", "text/html")];
     Proxy.r_content := Some (Proxy.Binary example_page);
     Proxy.r_cached := Some false;
     Proxy.r_worker := Some "worker-1" |}.


(** The character U+0100, which [latin-1] lacks, in UTF-8, and a reply
    with a header that holds it. *)
Definition a_macron : string :=
  String (ascii_of_nat 196) (String (ascii_of_nat 128) EmptyString).


(** Every RPC call fails with a text that holds U+0100. *)
Definition env_failing_wide : Proxy.request_env :=
  {| Proxy.request_version := "HTTP/1.1";
     Proxy.t_start := 1000; Proxy.t_reply := 1000; Proxy.t_except := 4001 # 4;
     Proxy.log_stamp := "2026-01-01T00:00:00.000000";
     Proxy.rpc := fun _ _ => Proxy.Fails ("<Fault 1: '" ++ a_macron ++ "'>") |}.

(** Five requests; the RPC call of the second and of the fourth fails, the
    fourth with a text that the 502 answer cannot carry. *)
Definition five_requests : list request :=
  [ {| rq_env := env_replying example_reply; rq_client_ip := "10.0.0.7";
       rq_path := "http://example.com/" |};
    {| rq_env := env_failing; rq_client_ip := "10.0.0.8";
       rq_path := "http://example.com/a" |};
    {| rq_env := env_replying example_reply; rq_client_ip := "10.0.0.7";
       rq_path := "http://example.com/a" |};
    {| rq_env := env_failing_wide; rq_client_ip := "10.0.0.9";
       rq_path := "http://example.com/" |};
    {| rq_env := env_replying example_reply; rq_client_ip := "10.0.0.8";
       rq_path := "http://example.com/" |} ].

(** Every file of the storage is a cache file of [dir]: it lies in [dir]
    itself and its name ends in [.json]. *)
Definition only_cache_files {A} (dir : string) (d : gmap string A) : Prop :=
  forall p, is_Some (d !! p) ->
    exists name, p = Py.dir_prefix dir ++ name
                 /\ Py.first_component name = name
                 /\ name <> "" /\ Py.endswith name ".json" = true.

(** How often the character [sep] occurs in [s]. *)
Fixpoint count_char (sep : ascii) (s : string) : nat :=
  match s with
  | EmptyString => 0
  | String c s' => (if Ascii.eqb c sep then 1 else 0) + count_char sep s'
  end.

(** Every character of [s] satisfies [P]. *)
Fixpoint all_chars (P : ascii -> bool) (s : string) : bool :=
  match s with
  | EmptyString => true
  | String c s' => P c && all_chars P s'
  end.

(** The characters of a formatted number: digits, sign and point. *)
Definition numeric_char (c : ascii) : bool :=
  let n := nat_of_ascii c in
  ((48 <=? n)%nat && (n <=? 57)%nat) || Ascii.eqb c "-" || Ascii.eqb c ".".

(** [s] begins with a character that [strip] removes. *)
Definition starts_blank (s : string) : bool :=
  match s with
  | EmptyString => false
  | String c _ => Py.str_isspace c
  end.

(** The values of the pairs of [l] under [key], in order. *)
Definition values_of (key : string * string)
    (l : list ((string * string) * Analytics.num)) : list Analytics.num :=
  (filter (fun kv => kv.1 = key) l).*2.

(** The pairs that [mapper] emits for a line with these fields. *)
Definition pairs_of (r : Proxy.access_record) (seconds : Q)
  : list ((string * string) * Analytics.num) :=
  [(("domain", Proxy.ar_domain r), Analytics.Int 1);
   (("cache", Py.str_bool (Proxy.ar_cached r)), Analytics.Int 1);
   (("worker", Proxy.ar_worker r), Analytics.Int 1);
   (("status", Py.str_int (Proxy.ar_status r)), Analytics.Int 1);
   (("response_time", "total"), Analytics.Float seconds);
   (("response_time", "count"), Analytics.Int 1);
   (("hour", String.substring 0 13 (Proxy.ar_timestamp r)), Analytics.Int 1)].

(** The fields that the proxy does not format itself have no separator. *)
Definition pipe_free (r : Proxy.access_record) : Prop :=
  has_char "|" (Proxy.ar_timestamp r) = false
  /\ has_char "|" (Proxy.ar_client_ip r) = false
  /\ has_char "|" (Proxy.ar_method r) = false
  /\ has_char "|" (Proxy.ar_url r) = false
  /\ has_char "|" (Proxy.ar_domain r) = false
  /\ has_char "|" (Proxy.ar_worker r) = false.

(** The entry of the results for a key that [n] pairs carry, each with the
    value [1]: no entry when there is none. *)
Definition tally (n : nat) : option Analytics.num :=
  match n with
  | O => None
  | S _ => Some (Analytics.Int (Z.of_nat n))
  end.

(** The call behind [dfs_after_first_fetch]. *)
Definition first_call : fetch_call :=
  {| fc_environ := env_of "worker-1"; fc_url := "http://example.com/";
     fc_clock := example_clock 100; fc_net := example_response |}.

(** Two records of the access log. *)
Definition example_record : Proxy.access_record :=
  {| Proxy.ar_timestamp := "2026-01-01T00:00:00.000000";
     Proxy.ar_client_ip := "10.0.0.7"; Proxy.ar_method := "GET";
     Proxy.ar_url := "http://example.com/"; Proxy.ar_domain := "example.com";
     Proxy.ar_status := 200; Proxy.ar_worker := "worker-1";
     Proxy.ar_cached := true; Proxy.ar_response_time := (25 # 2)%Q |}.

Definition second_record : Proxy.access_record :=
  {| Proxy.ar_timestamp := "2026-01-01T01:30:00.000000";
     Proxy.ar_client_ip := "10.0.0.8"; Proxy.ar_method := "GET";
     Proxy.ar_url := "http://example.org/a"; Proxy.ar_domain := "example.org";
     Proxy.ar_status := 502; Proxy.ar_worker := "http://localhost:8002";
     Proxy.ar_cached := false; Proxy.ar_response_time := 250%Q |}.

(** [float] on the response times of the two records. *)
Definition float_of_examples (s : string) : option Q :=
  if String.eqb s "12.50" then Some (25 # 2)%Q
  else if String.eqb s "250.00" then Some 250%Q
  else None.

(** The header line of a pair can be encoded for the request. *)
Definition header_ok (env : Proxy.request_env) (kv : string * string) : Prop :=
  Proxy.line_error env (Proxy.header_line kv.1 kv.2) = None.

(** The headers that [do_GET] sends for a reply, in order: the forwarded
    ones, then its own. *)
Definition reply_headers_sent (worker_url : string) (r : Proxy.rpc_reply)
    (latency : Q) : list (string * string) :=
  (forwarded_headers (default [] (Proxy.r_headers r))
     ++ [("X-Proxy", "RPC-Proxy");
         ("X-Worker", default worker_url (Proxy.r_worker r));
         ("X-Cached", Py.str_bool (default false (Proxy.r_cached r)));
         ("X-Response-Time", (Py.format_2f latency ++ "ms")%string)])%list.

(** Headers sent one after the other: the ones sent, and the text of the
    [UnicodeEncodeError] that stopped the sequence, if any. *)
Fixpoint send_outcome (env : Proxy.request_env) (hs : list (string * string))
  : list (string * string) * option string :=
  match hs with
  | [] => ([], None)
  | kv :: rest =>
      match Proxy.line_error env (Proxy.header_line kv.1 kv.2) with
      | Some text => ([], Some text)
      | None => let out := send_outcome env rest in (kv :: out.1, out.2)
      end
  end.

(** A character of ASCII. *)
Definition ascii_char (c : ascii) : bool := (N_of_ascii c <? 128)%N.




(** [s] holds no line break of a text file. *)
Definition no_line_break (s : string) : bool :=
  negb (has_char Py.lf s) && negb (has_char Py.cr s).

(** The free fields of a record hold no line break. *)
Definition one_line (r : Proxy.access_record) : Prop :=
  no_line_break (Proxy.ar_timestamp r) = true
  /\ no_line_break (Proxy.ar_client_ip r) = true
  /\ no_line_break (Proxy.ar_method r) = true
  /\ no_line_break (Proxy.ar_url r) = true
  /\ no_line_break (Proxy.ar_domain r) = true
  /\ no_line_break (Proxy.ar_worker r) = true.

(** The text of the log file after the lines were appended to it. *)
Definition file_text (lines : list string) : string :=
  foldr String.append EmptyString lines.

(** * Properties *)

(** ** Python primitives *)

Example hex_ex : Py.hex [x00; xff; x10] = "00ff10".
Proof. reflexivity. Qed.

Example fromhex_ex1 : Py.fromhex " 0A ff " = Some [x0a; xff].
Proof. reflexivity. Qed.

Example fromhex_ex2 : Py.fromhex "0 0" = None.
Proof. reflexivity. Qed.

Example format_ex :
  (Py.format_2f 0, Py.format_2f (-1 # 1000), Py.format_2f (1 # 8),
   Py.format_2f (12345 # 10))
  = ("0.00", "-0.00", "0.12", "1234.50").
Proof. vm_compute. reflexivity. Qed.

Example strip_ex : Py.strip "  http://w:1 " = "http://w:1".
Proof. reflexivity. Qed.

Example path_join_ex :
  (Py.path_join "./cache_data" "x.json", Py.path_join "/dfs/" "x.json",
   Py.path_join "" "x.json")
  = ("./cache_data/x.json", "/dfs/x.json", "x.json").
Proof. reflexivity. Qed.

Lemma Qltb_lt (x y : Q) : Py.Qltb x y = true <-> (x < y)%Q.
Proof.
  unfold Py.Qltb. rewrite negb_true_iff. split.
  - intros H. apply Qnot_le_lt. intros Hle.
    apply Qle_bool_iff in Hle. congruence.
  - intros H. destruct (Qle_bool y x) eqn:E; [|reflexivity].
    apply Qle_bool_iff in E. exfalso. exact (Qlt_not_le _ _ H E).
Qed.

Lemma Qltb_ge (x y : Q) : Py.Qltb x y = false <-> (y <= x)%Q.
Proof.
  unfold Py.Qltb. rewrite negb_false_iff. apply Qle_bool_iff.
Qed.

Lemma fromhex_hex_byte (b : byte) (s : string) :
  Py.fromhex (Py.hex_byte b s) =
  match Py.fromhex s with Some bs => Some (b :: bs) | None => None end.
Proof. destruct b; reflexivity. Qed.

(** Decoding an encoded byte string gives it back. *)
Lemma fromhex_hex (bs : list byte) : Py.fromhex (Py.hex bs) = Some bs.
Proof.
  induction bs as [|b bs IH]; [reflexivity|].
  change (Py.hex (b :: bs)) with (Py.hex_byte b (Py.hex bs)).
  rewrite fromhex_hex_byte, IH. reflexivity.
Qed.

(** *** Strings *)

Lemma append_cons (c : ascii) (a b : string) : String c a ++ b = String c (a ++ b).
Proof. reflexivity. Qed.

Lemma append_assoc (a b c : string) : (a ++ b) ++ c = a ++ (b ++ c).
Proof.
  induction a as [|x a IH]; [reflexivity|].
  rewrite !append_cons. f_equal. exact IH.
Qed.

Lemma has_char_app (c : ascii) (a b : string) :
  has_char c (a ++ b) = has_char c a || has_char c b.
Proof.
  induction a as [|d a IH]; [reflexivity|].
  rewrite append_cons. simpl. rewrite IH, orb_assoc. reflexivity.
Qed.



Lemma all_chars_app (P : ascii -> bool) (a b : string) :
  all_chars P (a ++ b) = all_chars P a && all_chars P b.
Proof.
  induction a as [|d a IH]; [reflexivity|].
  rewrite append_cons. simpl. rewrite IH, andb_assoc. reflexivity.
Qed.

Lemma numeric_char_plain (c : ascii) :
  numeric_char c = true -> Py.str_isspace c = false /\ Ascii.eqb "|" c = false.
Proof.
  destruct c as [[] [] [] [] [] [] [] []]; vm_compute; intros H;
    (discriminate H || (split; reflexivity)).
Qed.

Lemma all_chars_no_pipe (s : string) :
  all_chars numeric_char s = true -> has_char "|" s = false.
Proof.
  induction s as [|c s IH]; [reflexivity|].
  cbn [all_chars has_char]. intros H. apply andb_true_iff in H.
  destruct H as [Hc Hs]. destruct (numeric_char_plain c Hc) as [_ Hp].
  rewrite Hp. exact (IH Hs).
Qed.

(** [split] gives one more piece than there are separators. *)
Lemma split_length (sep : ascii) (s : string) :
  length (Py.split sep s) = S (count_char sep s).
Proof.
  induction s as [|c s IH]; [reflexivity|].
  simpl. destruct (Ascii.eqb c sep); simpl; [rewrite IH; reflexivity|].
  destruct (Py.split sep s) as [|piece pieces]; [discriminate IH|].
  simpl in *. exact IH.
Qed.

Lemma split_no_sep (sep : ascii) (s : string) :
  has_char sep s = false -> Py.split sep s = [s].
Proof.
  induction s as [|c s IH]; [reflexivity|].
  simpl. rewrite (Ascii.eqb_sym sep c). intros H. apply orb_false_iff in H.
  destruct H as [-> Hs]. rewrite (IH Hs). reflexivity.
Qed.

Lemma split_app_sep (sep : ascii) (a b : string) :
  has_char sep a = false ->
  Py.split sep (a ++ String sep b) = a :: Py.split sep b.
Proof.
  induction a as [|c a IH].
  - intros _. simpl. rewrite Ascii.eqb_refl. reflexivity.
  - cbn [has_char]. rewrite (Ascii.eqb_sym sep c). intros H.
    apply orb_false_iff in H. destruct H as [Hc Ha].
    rewrite append_cons. cbn [Py.split]. rewrite Hc, (IH Ha). reflexivity.
Qed.

(** [strip] removes blanks only. *)
Lemma count_char_lstrip (sep : ascii) (s : string) :
  Py.str_isspace sep = false ->
  count_char sep (Py.lstrip s) = count_char sep s.
Proof.
  intros Hsep. induction s as [|c s IH]; [reflexivity|].
  simpl. destruct (Py.str_isspace c) eqn:Hc; [|reflexivity].
  rewrite IH. destruct (Ascii.eqb_spec c sep) as [->|_]; [congruence|reflexivity].
Qed.

Lemma count_char_rstrip (sep : ascii) (s : string) :
  Py.str_isspace sep = false ->
  count_char sep (Py.rstrip s) = count_char sep s.
Proof.
  intros Hsep. induction s as [|c s IH]; [reflexivity|].
  simpl. destruct (Py.rstrip s) as [|d r] eqn:Hr.
  - rewrite <- IH. destruct (Py.str_isspace c) eqn:Hc; [|reflexivity].
    destruct (Ascii.eqb_spec c sep) as [->|_]; [congruence|reflexivity].
  - rewrite <- IH. reflexivity.
Qed.

Lemma count_char_strip (sep : ascii) (s : string) :
  Py.str_isspace sep = false ->
  count_char sep (Py.strip s) = count_char sep s.
Proof.
  intros Hsep. unfold Py.strip.
  rewrite (count_char_rstrip _ _ Hsep). apply (count_char_lstrip _ _ Hsep).
Qed.

Lemma lstrip_clean (s : string) :
  starts_blank s = false -> Py.lstrip s = s.
Proof. destruct s as [|c s]; [reflexivity|]. simpl. intros ->. reflexivity. Qed.

Lemma rstrip_app (a b : string) :
  Py.rstrip b <> "" -> Py.rstrip (a ++ b) = a ++ Py.rstrip b.
Proof.
  intros Hb. induction a as [|c a IH]; [reflexivity|].
  rewrite !append_cons. simpl. rewrite IH.
  destruct (a ++ Py.rstrip b) as [|d r] eqn:E; [|reflexivity].
  destruct a; [|rewrite append_cons in E; discriminate E].
  simpl in E. contradiction.
Qed.

Lemma rstrip_newline (s : string) :
  all_chars numeric_char s = true -> Py.rstrip (s ++ Proxy.newline) = s.
Proof.
  induction s as [|c s IH]; [reflexivity|].
  cbn [all_chars]. intros H. apply andb_true_iff in H. destruct H as [Hc Hs].
  rewrite append_cons. cbn [Py.rstrip]. rewrite (IH Hs).
  destruct (numeric_char_plain c Hc) as [-> _]. destruct s; reflexivity.
Qed.

(** The numbers that the proxy formats consist of digits, sign and point. *)
Lemma digits_numeric (d : Decimal.uint) :
  all_chars numeric_char (NilEmpty.string_of_uint d) = true.
Proof. induction d; simpl; try rewrite IHd; reflexivity. Qed.

Lemma string_of_uint_numeric (d : Decimal.uint) :
  all_chars numeric_char (NilZero.string_of_uint d) = true.
Proof.
  destruct d; try reflexivity;
    change (NilZero.string_of_uint ?x) with (NilEmpty.string_of_uint x);
    apply digits_numeric.
Qed.

Lemma str_int_numeric (n : Z) : all_chars numeric_char (Py.str_int n) = true.
Proof.
  unfold Py.str_int. destruct (Z.to_int n) as [d|d]; simpl.
  - apply string_of_uint_numeric.
  - apply string_of_uint_numeric.
Qed.

Lemma format_2f_numeric (q : Q) : all_chars numeric_char (Py.format_2f q) = true.
Proof.
  unfold Py.format_2f, Py.two_digits. cbv zeta.
  rewrite !all_chars_app, !str_int_numeric.
  destruct (Py.Qltb q 0); destruct (_ <? 10)%Z; reflexivity.
Qed.

(** *** Encoding with [latin-1] *)

Lemma numeric_char_ascii (c : ascii) : numeric_char c = true -> ascii_char c = true.
Proof.
  destruct c as [[] [] [] [] [] [] [] []]; vm_compute; intros H;
    (discriminate H || reflexivity).
Qed.

Lemma all_chars_weaken (P Q : ascii -> bool) (s : string) :
  (forall c, P c = true -> Q c = true) ->
  all_chars P s = true -> all_chars Q s = true.
Proof.
  intros HPQ. induction s as [|c s IH]; [reflexivity|].
  cbn [all_chars]. intros H. apply andb_true_iff in H. destruct H as [Hc Hs].
  rewrite (HPQ c Hc), (IH Hs). reflexivity.
Qed.

(** A text of ASCII characters can be encoded. *)
Lemma ascii_code_points (s : string) :
  all_chars ascii_char s = true ->
  forall (cur : option N) (position : nat),
  match cur with Some v => (v < 256)%N | None => True end ->
  Py.latin1_scan position (Py.code_points_from cur s) = None.
Proof.
  induction s as [|c s IH]; intros Hs cur position Hcur.
  - destruct cur as [v|]; [|reflexivity].
    cbn [Py.code_points_from Py.latin1_scan].
    destruct (N.ltb_spec v 256); [reflexivity|lia].
  - cbn [all_chars] in Hs. apply andb_true_iff in Hs. destruct Hs as [Hc Hs].
    unfold ascii_char in Hc. apply N.ltb_lt in Hc.
    cbn [Py.code_points_from]. cbv zeta.
    destruct (N.leb_spec 128 (N_of_ascii c)); [lia|]. cbn [andb].
    destruct (N.ltb_spec (N_of_ascii c) 192); [|lia].
    destruct cur as [v|].
    + cbn [Py.latin1_scan]. destruct (N.ltb_spec v 256); [|lia].
      apply (IH Hs). lia.
    + apply (IH Hs). lia.
Qed.

Lemma latin1_ascii (s : string) :
  all_chars ascii_char s = true -> Py.latin1_error s = None.
Proof. intros Hs. apply (ascii_code_points s Hs None 0%nat). exact I. Qed.

Lemma hexdigit_ascii (n : N) : ascii_char (Py.hexdigit n) = true.
Proof.
  destruct n as [|p]; [reflexivity|].
  destruct p as [[[[p|p|]|[p|p|]|]|[[p|p|]|[p|p|]|]|]|[[[p|p|]|[p|p|]|]|[[p|p|]|[p|p|]|]|]|];
    reflexivity.
Qed.

Lemma hex_digits_ascii (width : nat) : forall (n : N) (rest : string),
  all_chars ascii_char rest = true ->
  all_chars ascii_char (Py.hex_digits width n rest) = true.
Proof.
  induction width as [|width IH]; intros n rest Hrest; [exact Hrest|].
  cbn [Py.hex_digits]. apply IH. cbn [all_chars].
  rewrite hexdigit_ascii, Hrest. reflexivity.
Qed.

Lemma str_int_ascii (n : Z) : all_chars ascii_char (Py.str_int n) = true.
Proof.
  apply (all_chars_weaken numeric_char); [exact numeric_char_ascii|].
  apply str_int_numeric.
Qed.

(** The text of the encoding error is ASCII. *)
Lemma latin1_scan_text (cps : list N) : forall (position : nat) (text : string),
  Py.latin1_scan position cps = Some text -> all_chars ascii_char text = true.
Proof.
  induction cps as [|cp rest IH]; intros position text H; [discriminate H|].
  cbn [Py.latin1_scan] in H. destruct (cp <? 256)%N; [exact (IH _ _ H)|].
  cbv zeta in H. injection H as <-.
  destruct (Py.unencodable_run rest) as [|more].
  - destruct (cp <? 65536)%N;
      rewrite !all_chars_app, str_int_ascii; cbn [all_chars];
      rewrite !hexdigit_ascii; reflexivity.
  - rewrite !all_chars_app, !str_int_ascii. reflexivity.
Qed.

Lemma latin1_error_text (s text : string) :
  Py.latin1_error s = Some text -> all_chars ascii_char text = true.
Proof. apply latin1_scan_text. Qed.

Lemma line_error_ascii env (line : string) :
  all_chars ascii_char line = true -> Proxy.line_error env line = None.
Proof.
  intros H. unfold Proxy.line_error.
  destruct (String.eqb _ _); [reflexivity|apply latin1_ascii, H].
Qed.

Lemma line_error_text env (line text : string) :
  Proxy.line_error env line = Some text -> all_chars ascii_char text = true.
Proof.
  unfold Proxy.line_error. destruct (String.eqb _ _); [discriminate|].
  apply latin1_error_text.
Qed.

(** The status line of an error whose message is ASCII can be encoded. *)
Lemma status_line_ascii env (code : Z) (message : string) :
  all_chars ascii_char message = true ->
  Proxy.line_error env (Proxy.status_line code message) = None.
Proof.
  intros Hm. apply line_error_ascii. unfold Proxy.status_line.
  rewrite !all_chars_app, str_int_ascii, Hm. reflexivity.
Qed.





Lemma send_outcome_stop env (hs : list (string * string)) :
  match (send_outcome env hs).2 with
  | None => (send_outcome env hs).1 = hs /\ Forall (header_ok env) hs
  | Some text =>
      exists kv rest,
        hs = ((send_outcome env hs).1 ++ kv :: rest)%list
        /\ Forall (header_ok env) (send_outcome env hs).1
        /\ Proxy.line_error env (Proxy.header_line kv.1 kv.2) = Some text
  end.
Proof.
  induction hs as [|kv hs IH]; [split; [reflexivity|constructor]|].
  cbn [send_outcome].
  destruct (Proxy.line_error env (Proxy.header_line kv.1 kv.2)) as [text|] eqn:Hkv.
  - exists kv, hs. split; [reflexivity|]. split; [constructor|exact Hkv].
  - cbn [fst snd]. destruct ((send_outcome env hs).2) as [text|].
    + destruct IH as (bad & rest & E & Hok & Hbad). exists bad, rest.
      split; [simpl; f_equal; exact E|]. split; [|exact Hbad].
      constructor; [exact Hkv|exact Hok].
    + destruct IH as [E Hok]. split; [f_equal; exact E|].
      constructor; [exact Hkv|exact Hok].
Qed.

(** *** Names compared without regard to case *)





(** ** The shared cache *)

Section CacheProperties.

Import Worker.

Variable md5_hexdigest : string -> string.

Local Abbreviation path_of env url :=
  (get_cache_path env (get_cache_key md5_hexdigest url)).

(** Processes with the same [CACHE_DIR] address the same file for a URL. *)
Lemma same_location (envA envB : gmap string string) (url : string) :
  CACHE_DIR envA = CACHE_DIR envB -> path_of envA url = path_of envB url.
Proof. unfold get_cache_path. intros ->. reflexivity. Qed.

Lemma read_absent env url now (d : gmap string cache_file) :
  d !! path_of env url = None ->
  read_from_cache md5_hexdigest env url now d = (None, d).
Proof. unfold read_from_cache. intros ->. reflexivity. Qed.

Lemma read_fresh env url now (d : gmap string cache_file) f :
  d !! path_of env url = Some f ->
  (now - mtime f < 60)%Q ->
  read_from_cache md5_hexdigest env url now d =
    (match Py.fromhex (cd_content_hex (json f)) with
     | Some bytes => Some (json f, bytes)
     | None => None
     end, d).
Proof.
  unfold read_from_cache. intros -> Hage.
  apply Qltb_lt in Hage. unfold CACHE_TTL. cbv zeta. rewrite Hage.
  destruct (Py.fromhex _); reflexivity.
Qed.

Lemma read_expired env url now (d : gmap string cache_file) f :
  d !! path_of env url = Some f ->
  (60 <= now - mtime f)%Q ->
  read_from_cache md5_hexdigest env url now d = (None, delete (path_of env url) d).
Proof.
  unfold read_from_cache. intros -> Hage.
  apply Qltb_ge in Hage. unfold CACHE_TTL. cbv zeta. rewrite Hage.
  reflexivity.
Qed.

(** A lookup leaves the directory as it is or removes the file of the URL;
    it removes it only when it is there and has expired. *)
Lemma read_shrinks env url now (d : gmap string cache_file) :
  let d' := (read_from_cache md5_hexdigest env url now d).2 in
  d' = d \/
  (d' = delete (path_of env url) d /\
   exists f, d !! path_of env url = Some f /\ (60 <= now - mtime f)%Q).
Proof.
  unfold read_from_cache.
  destruct (d !! path_of env url) as [f|] eqn:Hf; [|left; reflexivity].
  cbv zeta. destruct (Py.Qltb _ _) eqn:Hage.
  - destruct (Py.fromhex _); left; reflexivity.
  - right. split; [reflexivity|]. exists f. split; [reflexivity|].
    apply Qltb_ge in Hage. exact Hage.
Qed.

Lemma written_file env url data clk (d : gmap string cache_file) :
  write_to_cache md5_hexdigest env url data clk d !! path_of env url =
  Some {| mtime := t_mtime clk;
          json := {| cd_url := url; cd_status := status data;
                     cd_headers := headers data;
                     cd_content_hex := Py.hex (content data);
                     cd_timestamp := t_stamp clk |} |}.
Proof. unfold write_to_cache. apply lookup_insert_eq. Qed.

(** C2.  An entry that [write_to_cache] stored, with the modification time
    [T] it got, is returned by [read_from_cache] at time [now] exactly when
    [now - T < 60]; it comes back with the stored status and headers and
    the decoded content, and the directory is left as it is.  When
    [now - T >= 60] the lookup removes the file and returns nothing. *)
Theorem read_from_cache_ttl env url data clk (d0 d : gmap string cache_file)
    (now : Q) :
  d !! path_of env url =
    write_to_cache md5_hexdigest env url data clk d0 !! path_of env url ->
  let T := t_mtime clk in
  let got := read_from_cache md5_hexdigest env url now d in
  (is_Some got.1 <-> (now - T < 60)%Q)
  /\ ((now - T < 60)%Q ->
      exists doc, got = (Some (doc, content data), d)
                  /\ cd_url doc = url
                  /\ cd_status doc = status data
                  /\ cd_headers doc = headers data)
  /\ ((60 <= now - T)%Q -> got = (None, delete (path_of env url) d)).
Proof.
  intros Hd T got. rewrite written_file in Hd.
  assert (Hfresh : (now - T < 60)%Q ->
            got = (Some ({| cd_url := url; cd_status := status data;
                            cd_headers := headers data;
                            cd_content_hex := Py.hex (content data);
                            cd_timestamp := t_stamp clk |}, content data), d)).
  { intros Hage. subst got. rewrite (read_fresh _ _ _ _ _ Hd Hage).
    simpl. rewrite fromhex_hex. reflexivity. }
  assert (Hold : (60 <= now - T)%Q -> got = (None, delete (path_of env url) d)).
  { intros Hage. subst got. apply (read_expired _ _ _ _ _ Hd Hage). }
  split; [|split].
  - split.
    + intros Hsome. destruct (Qlt_le_dec (now - T) 60) as [Hlt|Hge]; [exact Hlt|].
      rewrite (Hold Hge) in Hsome. destruct Hsome as [x Hx]. discriminate.
    + intros Hage. rewrite (Hfresh Hage). eexists. reflexivity.
  - intros Hage. eexists. split; [exact (Hfresh Hage)|]. auto.
  - exact Hold.
Qed.

(** C1.  One worker's [fetch_url] got the page from upstream and stored it
    (its result says [cached = False]).  While the directory still holds
    that entry, a [fetch_url] of the same URL by a worker with the same
    [CACHE_DIR] (the same one or another), started less than 60 seconds
    after the file's modification time, returns the status, the headers and
    the content of the first result with [cached = True], whatever the
    upstream would answer; it sends no upstream request and leaves the
    directory as it is. *)
Theorem shared_cache_hit envA envB url clkA st hs body w rA wA :
  CACHE_DIR envA = CACHE_DIR envB ->
  fetch_url md5_hexdigest envA url clkA (UpResponse st hs body) w = (rA, wA) ->
  cached rA = false ->
  forall env clkB netB w1 rB wB,
    env = envA \/ env = envB ->
    dfs w1 !! path_of envA url = dfs wA !! path_of envA url ->
    (t_lookup clkB - t_mtime clkA < 60)%Q ->
    fetch_url md5_hexdigest env url clkB netB w1 = (rB, wB) ->
    (status rA = st /\ headers rA = hs /\ content rA = body)
    /\ status rB = status rA /\ headers rB = headers rA
    /\ content rB = content rA /\ cached rB = true
    /\ wB = w1.
Proof.
  intros Hdir HA HmissA env clkB netB w1 rB wB Henv Hkept Hage HB.
  assert (Hpath : path_of env url = path_of envA url).
  { destruct Henv as [->| ->]; [reflexivity|].
    symmetry. apply same_location. exact Hdir. }
  unfold fetch_url in HA.
  destruct (read_from_cache md5_hexdigest envA url (t_lookup clkA) (dfs w))
    as [[[docA bytesA]|] dA] eqn:HreadA.
  { inversion HA; subst. discriminate HmissA. }
  inversion HA; subst rA wA; clear HA. simpl in Hkept |- *.
  rewrite written_file in Hkept. simpl in Hkept.
  unfold fetch_url in HB. rewrite <- Hpath in Hkept.
  rewrite (read_fresh env url (t_lookup clkB) (dfs w1) _ Hkept Hage) in HB.
  simpl in HB. rewrite fromhex_hex in HB.
  inversion HB; subst rB wB; clear HB. simpl.
  destruct w1; simpl. auto 10.
Qed.

(** C4, as the code has it.  When [fetch_url] asked the upstream and the
    request failed, the result carries the code of the [HTTPError], or 500
    for any other failure, and an error text; nothing is written: every
    file of the directory afterwards was there before, unchanged, and the
    directory is what the initial lookup left, which is the directory
    before the call or, when the URL's entry had expired, that directory
    without the entry. *)
Theorem failed_fetch_stores_nothing env url clk net w r w' :
  fetch_url md5_hexdigest env url clk net w = (r, w') ->
  outbound w' = (outbound w ++ [url])%list ->
  upstream_failed net ->
  match net with
  | UpHTTPError code _ => status r = code
  | _ => status r = 500%Z
  end
  /\ is_Some (error r)
  /\ cached r = false
  /\ (forall p f, dfs w' !! p = Some f -> dfs w !! p = Some f)
  /\ (dfs w' = dfs w \/
      (dfs w' = delete (path_of env url) (dfs w) /\
       exists f, dfs w !! path_of env url = Some f
                 /\ (60 <= t_lookup clk - mtime f)%Q)).
Proof.
  intros Hfetch Hsent Hfail. unfold fetch_url in Hfetch.
  pose proof (read_shrinks env url (t_lookup clk) (dfs w)) as Hshrink.
  destruct (read_from_cache md5_hexdigest env url (t_lookup clk) (dfs w))
    as [[[doc bytes]|] d'] eqn:Hread.
  { inversion Hfetch; subst. simpl in Hsent.
    apply (f_equal length) in Hsent. rewrite length_app in Hsent.
    simpl in Hsent. lia. }
  simpl in Hshrink.
  assert (Hsub : forall p f, d' !! p = Some f -> dfs w !! p = Some f).
  { intros p f. destruct Hshrink as [->|[-> _]]; [auto|].
    intros H. apply lookup_delete_Some in H. tauto. }
  destruct net as [st hs body|code text|text]; [destruct Hfail| |];
    inversion Hfetch; subst r w'; simpl;
    (split; [reflexivity|]); (split; [eexists; reflexivity|]);
    (split; [reflexivity|]); (split; [exact Hsub|exact Hshrink]).
Qed.

(** A [fetch_url] of a URL stored under another path leaves the entry of
    this one as it is. *)
Lemma fetch_url_other_path env url url' clk net w :
  path_of env url' <> path_of env url ->
  dfs (fetch_url md5_hexdigest env url' clk net w).2 !! path_of env url
  = dfs w !! path_of env url.
Proof.
  intros Hp. unfold fetch_url.
  pose proof (read_shrinks env url' (t_lookup clk) (dfs w)) as Hshrink.
  destruct (read_from_cache md5_hexdigest env url' (t_lookup clk) (dfs w))
    as [[[doc bytes]|] d'] eqn:Hread; simpl in Hshrink.
  - simpl. destruct Hshrink as [->|[-> _]]; [reflexivity|].
    apply lookup_delete_ne. exact Hp.
  - assert (Hd : d' !! path_of env url = dfs w !! path_of env url).
    { destruct Hshrink as [->|[-> _]]; [reflexivity|].
      apply lookup_delete_ne. exact Hp. }
    destruct net; simpl; try exact Hd.
    unfold write_to_cache. rewrite lookup_insert_ne by exact Hp. exact Hd.
Qed.

End CacheProperties.

(** The boundary of the TTL: an entry written at 100 is served at 159.5 and
    gone at 160. *)
Example ttl_boundary :
  let read now := (Worker.read_from_cache md5_of_examples (env_of "worker-2")
                     "http://example.com/" now
                     (Worker.dfs dfs_after_first_fetch)).1 in
  (snd <$> read (319 # 2)%Q, read 160%Q) = (Some example_page, None).
Proof. reflexivity. Qed.

Lemma read_from_cache_ttl_witness :
  let env := env_of "worker-2" in
  let url := "http://example.com/" in
  let p := Worker.get_cache_path env (Worker.get_cache_key md5_of_examples url) in
  let d := Worker.dfs dfs_after_first_fetch in
  let data := {| Worker.status := 200;
                 Worker.headers := [("Content-Type", "text/html")];
                 Worker.content := example_page; Worker.cached := false;
                 Worker.error := None; Worker.worker := "worker-1" |} in
  let now := (319 # 2)%Q in
  let got := Worker.read_from_cache md5_of_examples env url now d in
  d !! p = Worker.write_to_cache md5_of_examples env url data (example_clock 100) ∅ !! p
  /\ (is_Some got.1 <-> (now - 100 < 60)%Q)
  /\ ((now - 100 < 60)%Q ->
      exists doc, got = (Some (doc, example_page), d)
                  /\ Worker.cd_url doc = url
                  /\ Worker.cd_status doc = 200%Z
                  /\ Worker.cd_headers doc = [("Content-Type", "text/html")])
  /\ ((60 <= now - 100)%Q -> got = (None, delete p d)).
Proof.
  cbv zeta. split; [reflexivity|].
  apply (read_from_cache_ttl md5_of_examples (env_of "worker-2")
           "http://example.com/"
           {| Worker.status := 200;
              Worker.headers := [("Content-Type", "text/html")];
              Worker.content := example_page; Worker.cached := false;
              Worker.error := None; Worker.worker := "worker-1" |}
           (example_clock 100) ∅
           (Worker.dfs dfs_after_first_fetch) (319 # 2)).
  reflexivity.
Defined.

Lemma shared_cache_hit_witness :
  let envA := env_of "worker-1" in
  let envB := env_of "worker-2" in
  let url := "http://example.com/" in
  let first := Worker.fetch_url md5_of_examples envA url (example_clock 100)
                 example_response empty_dfs in
  let second := Worker.fetch_url md5_of_examples envB url (example_clock 130)
                  (Worker.UpException "unreachable") first.2 in
  (Worker.CACHE_DIR envA = Worker.CACHE_DIR envB
   /\ Worker.cached first.1 = false
   /\ (130 - 100 < 60)%Q)
  /\ Worker.status second.1 = 200%Z
  /\ Worker.headers second.1 = [("Content-Type", "text/html")]
  /\ Worker.content second.1 = example_page
  /\ Worker.cached second.1 = true
  /\ Worker.worker second.1 = "worker-2"
  /\ second.2 = first.2.
Proof.
  intros envA envB url first second.
  split; [split; [reflexivity|split; reflexivity]|].
  pose proof (shared_cache_hit md5_of_examples envA envB url (example_clock 100)
                200%Z [("Content-Type", "text/html")] example_page empty_dfs
                first.1 first.2 eq_refl (surjective_pairing first) eq_refl
                envB (example_clock 130) (Worker.UpException "unreachable")
                first.2 second.1 second.2
                (or_intror eq_refl) eq_refl eq_refl (surjective_pairing second))
    as [[H1 [H2 H3]] [H4 [H5 [H6 [H7 H8]]]]].
  split; [exact (eq_trans H4 H1)|].
  split; [exact (eq_trans H5 H2)|].
  split; [exact (eq_trans H6 H3)|].
  split; [exact H7|].
  split; [reflexivity|exact H8].
Defined.

Lemma failed_fetch_stores_nothing_witness :
  let url := "http://example.com/a" in
  let net := Worker.UpHTTPError 404 "HTTP Error 404: Not Found" in
  let w := dfs_after_first_fetch in
  let out := Worker.fetch_url md5_of_examples (env_of "worker-2") url
               (example_clock 130) net w in
  (Worker.outbound out.2 = (Worker.outbound w ++ [url])%list /\ upstream_failed net)
  /\ Worker.status out.1 = 404%Z
  /\ is_Some (Worker.error out.1)
  /\ Worker.dfs out.2 = Worker.dfs w.
Proof.
  intros url net w out.
  split; [split; [reflexivity|exact I]|].
  pose proof (failed_fetch_stores_nothing md5_of_examples (env_of "worker-2")
                url (example_clock 130) net w out.1 out.2
                (surjective_pairing out) eq_refl I) as [H1 [H2 _]].
  split; [exact H1|]. split; [exact H2|]. reflexivity.
Defined.

(** C4, as stated, fails when the URL's entry has expired: the lookup that
    precedes the failed upstream request removes the file, so the content
    for the URL's key is not what it was before the call. *)
Lemma failed_fetch_removes_expired_entry :
  let url := "http://example.com/" in
  let net := Worker.UpHTTPError 404 "HTTP Error 404: Not Found" in
  let env := env_of "worker-2" in
  let p := Worker.get_cache_path env (Worker.get_cache_key md5_of_examples url) in
  let w := dfs_after_first_fetch in
  let out := Worker.fetch_url md5_of_examples env url (example_clock 200) net w in
  Worker.outbound out.2 = (Worker.outbound w ++ [url])%list
  /\ Worker.status out.1 = 404%Z
  /\ is_Some (Worker.dfs w !! p)
  /\ Worker.dfs out.2 !! p = None
  /\ ~ (Worker.dfs out.2 !! p = Worker.dfs w !! p).
Proof.
  cbv zeta.
  split; [reflexivity|]. split; [reflexivity|].
  split; [eexists; reflexivity|]. split; [reflexivity|].
  intros H. vm_compute in H. discriminate H.
Qed.

(** ** The load balancer *)

Section LoadBalancerProperties.

Import Proxy.

Lemma with_index_same (w : world) : with_index (index w) w = w.
Proof. destruct w; reflexivity. Qed.

Lemma get_worker_empty (w : world) :
  active_list w = [] -> get_worker w = (Ok None, w).
Proof. unfold get_worker. intros ->. reflexivity. Qed.

(** With a worker in the list the index is in range: the [IndexError]
    branch is never taken. *)
Lemma get_worker_nonempty (w : world) :
  active_list w <> [] ->
  exists worker,
    active_list w !! (index w mod length (active_list w))%nat = Some worker
    /\ get_worker w = (Ok (Some worker), with_index (S (index w)) w).
Proof.
  intros Hne. unfold get_worker.
  destruct (active_list w) as [|a l] eqn:Hl; [congruence|].
  assert (Hlt : (index w mod length (a :: l) < length (a :: l))%nat).
  { apply Nat.mod_upper_bound. simpl. lia. }
  destruct (lookup_lt_is_Some_2 _ _ Hlt) as [worker Hw].
  exists worker. rewrite Hw. auto.
Qed.

(** [get_worker] returns; it touches nothing but the counter. *)
Lemma get_worker_frame (w : world) :
  exists x i, get_worker w = (Ok x, with_index i w).
Proof.
  destruct (active_list w) as [|a l] eqn:Hl.
  - exists None, (index w). rewrite with_index_same.
    apply get_worker_empty. exact Hl.
  - destruct (get_worker_nonempty w) as [worker [_ Hg]]; [congruence|].
    eauto.
Qed.

Lemma get_worker_times_fixed_set (k : nat) : forall w : world,
  active_list w <> [] ->
  get_worker_times k w =
    (Ok (map (fun c => active_list w !! (c mod length (active_list w))%nat)
           (seq (index w) k)),
     with_index (index w + k) w).
Proof.
  induction k as [|k IH]; intros w Hne.
  - simpl. rewrite Nat.add_0_r, with_index_same. reflexivity.
  - destruct (get_worker_nonempty w Hne) as [worker [Hw Hg]].
    simpl. unfold mbind, M_bind at 1. rewrite Hg.
    unfold mbind, M_bind at 1.
    rewrite (IH (with_index (S (index w)) w)) by exact Hne.
    simpl. unfold mret, M_ret. rewrite Hw.
    change (active_list (with_index (S (index w)) w)) with (active_list w).
    replace (index w + S k)%nat with (S (index w) + k)%nat by lia.
    destruct w; reflexivity.
Qed.

Lemma get_worker_times_empty_set (k : nat) (w : world) :
  active_list w = [] -> get_worker_times k w = (Ok (replicate k None), w).
Proof.
  intros He. induction k as [|k IH]; [reflexivity|].
  simpl. unfold mbind, M_bind at 1. rewrite (get_worker_empty w He).
  unfold mbind, M_bind at 1. rewrite IH. reflexivity.
Qed.

End LoadBalancerProperties.

(** ** The request handler *)

Section HandlerProperties.

Import Proxy.

Variable urlparse_netloc : string -> option string.

Lemma bind_run {A B} (m : M A) (k : A -> M B) (w : world) :
  (m ≫= k) w = match m w with
               | (Ok a, w') => k a w'
               | (Raised e, w') => (Raised e, w')
               end.
Proof. reflexivity. Qed.

Lemma encoded_run env (line : string) (ev : wire_event) (w : world) :
  encoded env line ev w
  = match line_error env line with
    | None => (Ok tt, with_client (client w ++ [ev])%list w)
    | Some text => (Raised (UnicodeEncodeError text), w)
    end.
Proof. unfold encoded. destruct (line_error env line); reflexivity. Qed.

Lemma with_client_same (w : world) : with_client (client w) w = w.
Proof. destruct w; reflexivity. Qed.

(** The loop over the reply headers sends the ones that are kept, in
    order, as far as their lines can be encoded. *)
Lemma forward_headers env (hs : list (string * string)) : forall w : world,
  for_each (fun '(key, value) =>
              if hop_header key then mret tt else do_send_header env key value)
    hs w
  = let out := send_outcome env (forwarded_headers hs) in
    (match out.2 with
     | None => Ok tt
     | Some text => Raised (UnicodeEncodeError text)
     end,
     with_client (client w ++ map (fun kv => send_header kv.1 kv.2) out.1)%list w).
Proof.
  induction hs as [|[key value] hs IH]; intros w.
  - cbn. rewrite app_nil_r, with_client_same. reflexivity.
  - cbn [for_each]. rewrite bind_run. unfold forwarded_headers.
    rewrite filter_cons. cbn [fst].
    destruct (hop_header key) eqn:Hhop.
    + destruct (decide (true = false)) as [?|_]; [discriminate|].
      unfold mret, M_ret at 1. apply IH.
    + destruct (decide (false = false)) as [_|?]; [|congruence].
      unfold do_send_header. rewrite encoded_run. cbn [send_outcome fst snd].
      destruct (line_error env (header_line key value)) as [text|].
      * cbn. rewrite app_nil_r, with_client_same. reflexivity.
      * rewrite IH. cbv zeta. cbn [fst snd map client with_client].
        fold (forwarded_headers hs). rewrite <- app_assoc. reflexivity.
Qed.

Lemma send_outcome_app env (l1 l2 : list (string * string)) :
  send_outcome env (l1 ++ l2)
  = match (send_outcome env l1).2 with
    | Some text => send_outcome env l1
    | None => (((send_outcome env l1).1 ++ (send_outcome env l2).1)%list,
               (send_outcome env l2).2)
    end.
Proof.
  induction l1 as [|kv l1 IH].
  - cbn. destruct (send_outcome env l2); reflexivity.
  - cbn [app send_outcome].
    destruct (line_error env (header_line kv.1 kv.2)); [reflexivity|].
    rewrite IH. destruct (send_outcome env l1) as [sent [text|]]; reflexivity.
Qed.

(** The headers of an answer: the loop, then the four headers of the
    proxy, then what follows when every line could be encoded. *)
Lemma header_block env (hs : list (string * string))
    (a1 b1 a2 b2 a3 b3 a4 b4 : string) (K : M unit) (v : world) :
  (for_each (fun '(key, value) =>
               if hop_header key then mret tt else do_send_header env key value) hs;;
   do_send_header env a1 b1;; do_send_header env a2 b2;; do_send_header env a3 b3;;
   do_send_header env a4 b4;; K) v
  = let out := send_outcome env (forwarded_headers hs
                                   ++ [(a1, b1); (a2, b2); (a3, b3); (a4, b4)])%list in
    let v' := with_client
                (client v ++ map (fun kv => send_header kv.1 kv.2) out.1)%list v in
    match out.2 with
    | None => K v'
    | Some text => (Raised (UnicodeEncodeError text), v')
    end.
Proof.
  rewrite bind_run, forward_headers, send_outcome_app. cbv zeta.
  destruct (send_outcome env (forwarded_headers hs)) as [sent [text|]];
    cbn [fst snd]; [reflexivity|].
  cbn [send_outcome fst snd].
  rewrite bind_run. unfold do_send_header at 1. rewrite encoded_run.
  destruct (line_error env (header_line a1 b1)) as [text|];
    [cbn [fst snd]; rewrite app_nil_r; reflexivity|].
  rewrite bind_run. unfold do_send_header at 1. rewrite encoded_run.
  destruct (line_error env (header_line a2 b2)) as [text|];
    [cbn [fst snd with_client client]; rewrite map_app, <- app_assoc; reflexivity|].
  rewrite bind_run. unfold do_send_header at 1. rewrite encoded_run.
  destruct (line_error env (header_line a3 b3)) as [text|];
    [cbn [fst snd with_client client]; rewrite map_app, <- !app_assoc; reflexivity|].
  rewrite bind_run. unfold do_send_header at 1. rewrite encoded_run.
  destruct (line_error env (header_line a4 b4)) as [text|];
    [cbn [fst snd with_client client]; rewrite map_app, <- !app_assoc; reflexivity|].
  cbn [fst snd with_client client heap active_workers index log_file calls].
  rewrite map_app, <- !app_assoc. reflexivity.
Qed.

Lemma log_access_run stamp client_ip method url status worker cached rt (w : world) :
  log_access urlparse_netloc stamp client_ip method url status worker cached rt w
  = (Ok tt, with_log_file
              (log_file w ++ logged urlparse_netloc stamp client_ip method url
                               status worker cached rt)%list
              w).
Proof.
  unfold log_access, logged. destruct (urlparse_netloc url).
  - reflexivity.
  - rewrite app_nil_r. destruct w; reflexivity.
Qed.

(** The exception handler of [do_GET] on an exception whose text is
    ASCII. *)
Lemma handler_run env client_ip url worker_url (message : string) (v : world) :
  all_chars ascii_char message = true ->
  (do_send_error env 502 ("RPC Error: " ++ message);;
   log_access urlparse_netloc (log_stamp env) client_ip "GET" url 502 worker_url
     false ((t_except env - t_start env) * 1000)%Q) v
  = log_access urlparse_netloc (log_stamp env) client_ip "GET" url 502 worker_url
      false ((t_except env - t_start env) * 1000)%Q
      (with_client (client v ++ [send_error 502 ("RPC Error: " ++ message)])%list v).
Proof.
  intros Hm. rewrite bind_run. unfold do_send_error. rewrite encoded_run.
  rewrite status_line_ascii; [reflexivity|].
  rewrite all_chars_app, Hm. reflexivity.
Qed.

(** No worker: the 503 answer, then one call of [log_access]. *)
Lemma do_GET_no_worker env client_ip path (w : world) :
  active_list w = [] ->
  do_GET urlparse_netloc env client_ip path w =
    log_access urlparse_netloc (log_stamp env) client_ip "GET" (target_url path)
      503 "none" false 0
      (with_client (client w ++ [send_error 503 "No RPC workers available"])%list w).
Proof.
  intros He. unfold do_GET. rewrite bind_run, (get_worker_empty w He).
  rewrite bind_run. unfold do_send_error.
  rewrite encoded_run, status_line_ascii by reflexivity. reflexivity.
Qed.

(** A worker was selected and the RPC call raised with a text that the
    status line can carry: the 502 answer, then one call of
    [log_access]. *)
Lemma do_GET_rpc_fails env client_ip path (w w1 : world) worker_url text :
  get_worker w = (Ok (Some worker_url), w1) ->
  worker_url <> "" ->
  rpc env worker_url (target_url path) = Fails text ->
  line_error env (status_line 502 ("RPC Error: " ++ text)) = None ->
  do_GET urlparse_netloc env client_ip path w =
    log_access urlparse_netloc (log_stamp env) client_ip "GET" (target_url path)
      502 worker_url false ((t_except env - t_start env) * 1000)%Q
      (with_client (client w1 ++ [send_error 502 ("RPC Error: " ++ text)])%list
         (with_calls (calls w1 ++ [(worker_url, "fetch_url")])%list w1)).
Proof.
  intros Hg Hne Hrpc Henc. unfold do_GET. rewrite bind_run, Hg.
  destruct worker_url as [|a s]; [congruence|].
  unfold try_except. rewrite bind_run. unfold call_fetch_url. rewrite Hrpc.
  cbv zeta. cbn [str_exn]. rewrite bind_run. unfold do_send_error.
  rewrite encoded_run, Henc. reflexivity.
Qed.

(** The same, with a text that [latin-1] cannot encode: [send_error]
    raises in the handler, nothing is sent and [log_access] is not
    reached. *)
Lemma do_GET_rpc_fails_unsent env client_ip path (w w1 : world) worker_url text
    reason :
  get_worker w = (Ok (Some worker_url), w1) ->
  worker_url <> "" ->
  rpc env worker_url (target_url path) = Fails text ->
  line_error env (status_line 502 ("RPC Error: " ++ text)) = Some reason ->
  do_GET urlparse_netloc env client_ip path w =
    (Raised (UnicodeEncodeError reason),
     with_calls (calls w1 ++ [(worker_url, "fetch_url")])%list w1).
Proof.
  intros Hg Hne Hrpc Henc. unfold do_GET. rewrite bind_run, Hg.
  destruct worker_url as [|a s]; [congruence|].
  unfold try_except. rewrite bind_run. unfold call_fetch_url. rewrite Hrpc.
  cbv zeta. cbn [str_exn]. rewrite bind_run. unfold do_send_error.
  rewrite encoded_run, Henc. reflexivity.
Qed.

(** A worker was selected and replied with a status: the status line, the
    headers as far as their lines can be encoded, and then the body, or
    the 502 answer when a header line or the content is missing. *)
Lemma do_GET_with_status env client_ip path (w w1 : world) worker_url r st :
  get_worker w = (Ok (Some worker_url), w1) ->
  worker_url <> "" ->
  rpc env worker_url (target_url path) = Reply r ->
  r_status r = Some st ->
  let latency := ((t_reply env - t_start env) * 1000)%Q in
  let elapsed := ((t_except env - t_start env) * 1000)%Q in
  let out := send_outcome env (reply_headers_sent worker_url r latency) in
  let begun := (send_response st :: map (fun kv => send_header kv.1 kv.2) out.1) in
  let called := with_calls (calls w1 ++ [(worker_url, "fetch_url")])%list w1 in
  do_GET urlparse_netloc env client_ip path w =
    match out.2, r_content r with
    | Some text, _ =>
        log_access urlparse_netloc (log_stamp env) client_ip "GET" (target_url path)
          502 worker_url false elapsed
          (with_client
             (client w1 ++ begun ++ [send_error 502 ("RPC Error: " ++ text)])%list
             called)
    | None, None =>
        log_access urlparse_netloc (log_stamp env) client_ip "GET" (target_url path)
          502 worker_url false elapsed
          (with_client
             (client w1 ++ begun
                ++ [end_headers; send_error 502 "RPC Error: 'content'"])%list
             called)
    | None, Some c =>
        log_access urlparse_netloc (log_stamp env) client_ip "GET" (target_url path)
          st (default worker_url (r_worker r)) (default false (r_cached r)) latency
          (with_client
             (client w1 ++ begun ++ [end_headers; wfile_write (payload_bytes c)])%list
             called)
    end.
Proof.
  intros Hg Hne Hrpc Hst latency elapsed out begun called.
  unfold do_GET. rewrite bind_run, Hg.
  destruct worker_url as [|a s]; [congruence|].
  unfold try_except. rewrite bind_run. unfold call_fetch_url. rewrite Hrpc.
  cbv beta iota zeta. rewrite Hst. rewrite bind_run. cbn [getitem].
  unfold mret, M_ret at 1.
  rewrite bind_run. unfold do_send_response, emit at 1.
  rewrite header_block. cbv zeta.
  fold latency. fold (reply_headers_sent (String a s) r latency). fold out.
  pose proof (send_outcome_stop env (reply_headers_sent (String a s) r latency))
    as Hstop.
  fold out in Hstop.
  destruct (out.2) as [text|].
  - destruct Hstop as (kv & rest & _ & _ & Htext).
    cbn [str_exn]. rewrite handler_run by exact (line_error_text _ _ _ Htext).
    cbn [client with_client]. rewrite <- !app_assoc. reflexivity.
  - rewrite bind_run. unfold emit at 1.
    destruct (r_content r) as [c|].
    + unfold getitem. rewrite bind_run. unfold mret, M_ret at 1.
      rewrite bind_run. unfold emit at 1. rewrite !log_access_run.
      cbn [client with_client heap active_workers index log_file calls].
      rewrite <- !app_assoc. reflexivity.
    + unfold getitem. rewrite bind_run. unfold raise. cbn [str_exn].
      rewrite handler_run by reflexivity.
      cbn [client with_client heap active_workers index log_file calls].
      rewrite <- !app_assoc. reflexivity.
Qed.

End HandlerProperties.

Section RequestOutcomes.

Import Proxy.

Variable urlparse_netloc : string -> option string.

Lemma get_worker_world (w w1 : world) x :
  get_worker w = (x, w1) -> exists i, w1 = with_index i w.
Proof.
  intros H. destruct (get_worker_frame w) as (y & i & Hg).
  rewrite Hg in H. inversion H. eauto.
Qed.


(** The reply has no ['status']: the [KeyError] is caught before anything
    was sent. *)
Lemma do_GET_reply_without_status env client_ip path (w w1 : world) worker_url r :
  get_worker w = (Ok (Some worker_url), w1) ->
  worker_url <> "" ->
  rpc env worker_url (target_url path) = Reply r ->
  r_status r = None ->
  do_GET urlparse_netloc env client_ip path w =
    log_access urlparse_netloc (log_stamp env) client_ip "GET" (target_url path)
      502 worker_url false ((t_except env - t_start env) * 1000)%Q
      (with_client (client w1 ++ [send_error 502 "RPC Error: 'status'"])%list
         (with_calls (calls w1 ++ [(worker_url, "fetch_url")])%list w1)).
Proof.
  intros Hg Hne Hrpc Hst. unfold do_GET. rewrite bind_run, Hg.
  destruct worker_url as [|a s]; [congruence|].
  unfold try_except. rewrite bind_run. unfold call_fetch_url. rewrite Hrpc.
  cbv beta iota zeta. rewrite Hst. rewrite bind_run. cbn [getitem].
  unfold raise. cbn [str_exn].
  rewrite (handler_run urlparse_netloc) by reflexivity. reflexivity.
Qed.


(** The reply has a status and a header line that cannot be encoded:
    [send_header] raises, the headers before it stay in the answer, and
    the 502 answer follows them; the end of the headers of the reply and
    its content are not sent. *)
Lemma do_GET_header_fails env client_ip path (w w1 : world) worker_url r st
    sent text :
  get_worker w = (Ok (Some worker_url), w1) ->
  worker_url <> "" ->
  rpc env worker_url (target_url path) = Reply r ->
  r_status r = Some st ->
  let latency := ((t_reply env - t_start env) * 1000)%Q in
  send_outcome env (reply_headers_sent worker_url r latency) = (sent, Some text) ->
  do_GET urlparse_netloc env client_ip path w =
    log_access urlparse_netloc (log_stamp env) client_ip "GET" (target_url path)
      502 worker_url false ((t_except env - t_start env) * 1000)%Q
      (with_client
         (client w1 ++ send_response st
            :: map (fun kv => send_header kv.1 kv.2) sent
            ++ [send_error 502 ("RPC Error: " ++ text)])%list
         (with_calls (calls w1 ++ [(worker_url, "fetch_url")])%list w1)).
Proof.
  intros Hg Hne Hrpc Hst latency Hout.
  rewrite (do_GET_with_status _ _ _ _ _ _ _ _ _ Hg Hne Hrpc Hst). cbv zeta.
  fold latency. rewrite Hout. reflexivity.
Qed.

(** An empty string in the list counts as no worker. *)
Lemma do_GET_blank_worker env client_ip path (w w1 : world) :
  get_worker w = (Ok (Some ""), w1) ->
  do_GET urlparse_netloc env client_ip path w =
    log_access urlparse_netloc (log_stamp env) client_ip "GET" (target_url path)
      503 "none" false 0
      (with_client (client w1 ++ [send_error 503 "No RPC workers available"])%list w1).
Proof.
  intros Hg. unfold do_GET. rewrite bind_run, Hg.
  rewrite bind_run. unfold do_send_error.
  rewrite encoded_run, status_line_ascii by reflexivity. reflexivity.
Qed.

(** Whatever happens, [do_GET] changes no list object and not the global;
    it either returns, and has called [log_access] once, or it raises the
    [UnicodeEncodeError] of the 502 answer, and has not called it; when a
    worker was selected it has made one RPC call, to that worker. *)
Lemma do_GET_outcome env client_ip path (w : world) :
  let out := do_GET urlparse_netloc env client_ip path w in
  (heap out.2 = heap w /\ active_workers out.2 = active_workers w)
  /\ ((out.1 = Ok tt
       /\ exists status worker cached response_time,
            log_file out.2 =
              (log_file w ++ logged urlparse_netloc (log_stamp env) client_ip "GET"
                               (target_url path) status worker cached
                               response_time)%list)
      \/ (exists text, out.1 = Raised (UnicodeEncodeError text)
                       /\ log_file out.2 = log_file w))
  /\ (active_list w = [] -> calls out.2 = calls w /\ index out.2 = index w)
  /\ (forall worker_url w1,
        get_worker w = (Ok (Some worker_url), w1) -> worker_url <> "" ->
        calls out.2 = (calls w ++ [(worker_url, "fetch_url")])%list
        /\ index out.2 = index w1).
Proof.
  intros out. unfold out.
  destruct (active_list w) as [|a l] eqn:Hl.
  { rewrite (do_GET_no_worker _ _ _ _ _ Hl), log_access_run.
    split; [auto|]. split; [left; split; [reflexivity|do 4 eexists; reflexivity]|].
    split; [auto|]. intros u w1 Hg. rewrite (get_worker_empty w Hl) in Hg.
    discriminate Hg. }
  destruct (get_worker_nonempty w) as [worker_url [_ Hg]]; [congruence|].
  destruct (String.eqb_spec worker_url "") as [Hblank|Hurl].
  { subst worker_url. rewrite (do_GET_blank_worker _ _ _ _ _ Hg), log_access_run.
    split; [auto|].
    split; [left; split; [reflexivity|do 4 eexists; reflexivity]|].
    split; [discriminate|]. intros u w1 Hg' Hu. rewrite Hg in Hg'.
    injection Hg' as <- <-. congruence. }
  assert (Hcases :
    exists res events lines,
      do_GET urlparse_netloc env client_ip path w
      = (res, with_log_file (log_file w ++ lines)%list
                (with_client (client w ++ events)%list
                   (with_calls (calls w ++ [(worker_url, "fetch_url")])%list
                      (with_index (S (index w)) w))))
      /\ ((res = Ok tt
           /\ exists status worker cached response_time,
                lines = logged urlparse_netloc (log_stamp env) client_ip "GET"
                          (target_url path) status worker cached response_time)
          \/ (exists text, res = Raised (UnicodeEncodeError text) /\ lines = []))).
  { destruct (rpc env worker_url (target_url path)) as [r|text] eqn:Hrpc.
    - destruct (r_status r) as [st|] eqn:Hst.
      + rewrite (do_GET_with_status _ _ _ _ _ _ _ _ _ Hg Hurl Hrpc Hst). cbv zeta.
        destruct (send_outcome _) as [sent [text|]]; cbn [snd];
          [|destruct (r_content r)]; rewrite log_access_run;
          do 3 eexists; (split; [reflexivity|]); left;
          (split; [reflexivity|do 4 eexists; reflexivity]).
      + rewrite (do_GET_reply_without_status _ _ _ _ _ _ _ Hg Hurl Hrpc Hst),
          log_access_run.
        do 3 eexists. split; [reflexivity|]. left.
        split; [reflexivity|do 4 eexists; reflexivity].
    - destruct (line_error env (status_line 502 ("RPC Error: " ++ text)))
        as [reason|] eqn:Henc.
      + rewrite (do_GET_rpc_fails_unsent _ _ _ _ _ _ _ _ _ Hg Hurl Hrpc Henc).
        exists (Raised (UnicodeEncodeError reason)), [], [].
        split; [rewrite !app_nil_r; reflexivity|].
        right. exists reason. split; reflexivity.
      + rewrite (do_GET_rpc_fails _ _ _ _ _ _ _ _ Hg Hurl Hrpc Henc),
          log_access_run.
        do 3 eexists. split; [reflexivity|]. left.
        split; [reflexivity|do 4 eexists; reflexivity]. }
  destruct Hcases as (res & events & lines & -> & Hres).
  split; [auto|]. split; [|split; [discriminate|]].
  - destruct Hres as [(-> & st & wk & c & rt & ->)|(text & -> & ->)].
    + left. split; [reflexivity|]. do 4 eexists. reflexivity.
    + right. exists text. split; [reflexivity|]. apply app_nil_r.
  - intros u w1 Hg' Hu. rewrite Hg in Hg'. injection Hg' as <- <-. auto.
Qed.

(** On a URL that [urlparse] accepts, a request whose handler returns
    leaves exactly one more line in the access log. *)
Lemma do_GET_one_line env client_ip path (w : world) netloc :
  urlparse_netloc (target_url path) = Some netloc ->
  (do_GET urlparse_netloc env client_ip path w).1 = Ok tt ->
  exists line,
    log_file (do_GET urlparse_netloc env client_ip path w).2 = (log_file w ++ [line])%list.
Proof.
  intros Hurl Hret.
  destruct (do_GET_outcome env client_ip path w)
    as (_ & [(_ & st & wk & c & rt & Hlog)|(text & Hraise & _)] & _).
  - rewrite Hlog. unfold logged. rewrite Hurl. eexists. reflexivity.
  - rewrite Hret in Hraise. discriminate Hraise.
Qed.

(** With no worker, on a URL that [urlparse] accepts: the 503 answer, no
    RPC call, and the one record with worker [none], not cached, zero
    latency. *)
Lemma no_worker_outcome env client_ip path (w : world) netloc :
  active_list w = [] ->
  urlparse_netloc (target_url path) = Some netloc ->
  do_GET urlparse_netloc env client_ip path w =
    (Ok tt,
     with_log_file
       (log_file w ++
        [log_line {| ar_timestamp := log_stamp env; ar_client_ip := client_ip;
                     ar_method := "GET"; ar_url := target_url path;
                     ar_domain := if String.eqb netloc "" then "unknown" else netloc;
                     ar_status := 503; ar_worker := "none"; ar_cached := false;
                     ar_response_time := 0 |}])%list
       (with_client (client w ++ [send_error 503 "No RPC workers available"])%list w)).
Proof.
  intros He Hurl. rewrite (do_GET_no_worker _ _ _ _ _ He), log_access_run.
  unfold logged. rewrite Hurl. reflexivity.
Qed.

(** With a worker whose RPC call raises with a text that the status line
    can carry, on a URL that [urlparse] accepts: the 502 answer and the
    one record with the endpoint that was tried and the time elapsed when
    the exception was caught. *)
Lemma rpc_failure_outcome env client_ip path (w w1 : world) worker_url text netloc :
  get_worker w = (Ok (Some worker_url), w1) ->
  worker_url <> "" ->
  rpc env worker_url (target_url path) = Fails text ->
  line_error env (status_line 502 ("RPC Error: " ++ text)) = None ->
  urlparse_netloc (target_url path) = Some netloc ->
  do_GET urlparse_netloc env client_ip path w =
    (Ok tt,
     with_log_file
       (log_file w1 ++
        [log_line {| ar_timestamp := log_stamp env; ar_client_ip := client_ip;
                     ar_method := "GET"; ar_url := target_url path;
                     ar_domain := if String.eqb netloc "" then "unknown" else netloc;
                     ar_status := 502; ar_worker := worker_url; ar_cached := false;
                     ar_response_time := ((t_except env - t_start env) * 1000)%Q |}])%list
       (with_client (client w1 ++ [send_error 502 ("RPC Error: " ++ text)])%list
          (with_calls (calls w1 ++ [(worker_url, "fetch_url")])%list w1))).
Proof.
  intros Hg Hne Hrpc Henc Hurl.
  rewrite (do_GET_rpc_fails _ _ _ _ _ _ _ _ Hg Hne Hrpc Henc), log_access_run.
  unfold logged. rewrite Hurl. reflexivity.
Qed.

End RequestOutcomes.

Section RoutingProperties.

Import Proxy.

(** C3.  Under an active list of length [n > 0] a call of [get_worker] with
    the counter at [c] returns the worker at position [c mod n] and leaves
    the counter at [c + 1]; so [k] calls in a row return the workers at
    positions [c mod n], [(c+1) mod n], ... and leave the counter at
    [c + k].  Under an empty list the call returns [None], and [do_GET],
    its caller, answers 503 at once: no RPC call, no second selection. *)
Theorem round_robin (w : world) :
  (active_list w <> [] ->
   let n := length (active_list w) in
   (exists worker,
       active_list w !! (index w mod n)%nat = Some worker
       /\ get_worker w = (Ok (Some worker), with_index (index w + 1) w))
   /\ forall k,
       get_worker_times k w =
         (Ok (map (fun c => active_list w !! (c mod n)%nat) (seq (index w) k)),
          with_index (index w + k) w))
  /\ (active_list w = [] ->
      get_worker w = (Ok None, w)
      /\ forall urlparse_netloc env client_ip path,
          let out := do_GET urlparse_netloc env client_ip path w in
          out.1 = Ok tt
          /\ client out.2 = (client w ++ [send_error 503 "No RPC workers available"])%list
          /\ calls out.2 = calls w
          /\ index out.2 = index w).
Proof.
  split.
  - intros Hne n. split.
    + destruct (get_worker_nonempty w Hne) as [worker [Hw Hg]].
      exists worker. split; [exact Hw|].
      rewrite Hg. replace (index w + 1)%nat with (S (index w)) by lia. reflexivity.
    + intros k. apply get_worker_times_fixed_set. exact Hne.
  - intros He. split; [apply get_worker_empty; exact He|].
    intros urlparse_netloc env client_ip path out. subst out.
    rewrite (do_GET_no_worker _ _ _ _ _ He), log_access_run.
    repeat split.
Qed.



(** C9, at the failing input.  When [urlparse] rejects the target URL, the
    access log is what it was after [do_GET]: no record for the request,
    whatever its outcome.  [do_GET] returns normally, unless the text of
    an RPC failure cannot be encoded for the 502 answer. *)
Theorem rejected_url_is_not_logged urlparse_netloc env client_ip path (w : world) :
  urlparse_netloc (target_url path) = None ->
  ((do_GET urlparse_netloc env client_ip path w).1 = Ok tt
   \/ exists text,
        (do_GET urlparse_netloc env client_ip path w).1
        = Raised (UnicodeEncodeError text))
  /\ log_file (do_GET urlparse_netloc env client_ip path w).2 = log_file w.
Proof.
  intros Hurl.
  destruct (do_GET_outcome urlparse_netloc env client_ip path w)
    as (_ & [(Hret & st & wk & c & rt & Hlog)|(text & Hraise & Hlog)] & _).
  - split; [left; exact Hret|]. rewrite Hlog. unfold logged. rewrite Hurl.
    apply app_nil_r.
  - split; [right; exists text; exact Hraise|exact Hlog].
Qed.

(** C5, at the failing input.  With no active worker and a target URL that
    [urlparse] rejects, the client gets the 503 answer, no RPC call is
    made, and nothing is appended to the access log. *)
Theorem no_worker_rejected_url urlparse_netloc env client_ip (w : world) :
  urlparse_netloc "http://[" = None ->
  active_list w = [] ->
  do_GET urlparse_netloc env client_ip "http://[" w =
    (Ok tt, with_client (client w ++ [send_error 503 "No RPC workers available"])%list w)
  /\ calls (do_GET urlparse_netloc env client_ip "http://[" w).2 = calls w
  /\ log_file (do_GET urlparse_netloc env client_ip "http://[" w).2 = log_file w.
Proof.
  intros Hurl He.
  rewrite (do_GET_no_worker _ _ _ _ _ He), log_access_run.
  unfold logged. change (target_url "http://[") with "http://[". rewrite Hurl.
  simpl. rewrite app_nil_r. repeat split.
Qed.

(** C6, at the failing input.  With a worker selected, an RPC call that
    raises and a target URL that [urlparse] rejects, the client gets the
    502 answer (nothing, when the text of the failure cannot be encoded
    for it) and nothing is appended to the access log. *)
Theorem rpc_failure_rejected_url urlparse_netloc env client_ip (w w1 : world)
    worker_url text :
  urlparse_netloc "http://[" = None ->
  get_worker w = (Ok (Some worker_url), w1) ->
  worker_url <> "" ->
  rpc env worker_url "http://[" = Fails text ->
  let out := do_GET urlparse_netloc env client_ip "http://[" w in
  client out.2 =
    (client w ++ match line_error env (status_line 502 ("RPC Error: " ++ text)) with
                 | None => [send_error 502 ("RPC Error: " ++ text)]
                 | Some _ => []
                 end)%list
  /\ calls out.2 = (calls w ++ [(worker_url, "fetch_url")])%list
  /\ log_file out.2 = log_file w.
Proof.
  intros Hurl Hg Hne Hrpc out. subst out.
  destruct (get_worker_world _ _ _ Hg) as [i ->].
  destruct (line_error env (status_line 502 ("RPC Error: " ++ text)))
    as [reason|] eqn:Henc.
  - rewrite (do_GET_rpc_fails_unsent _ _ _ "http://[" _ _ _ _ _ Hg Hne Hrpc Henc).
    simpl. rewrite app_nil_r. repeat split.
  - rewrite (do_GET_rpc_fails _ _ _ "http://[" _ _ _ _ Hg Hne Hrpc Henc),
      log_access_run.
    unfold logged. change (target_url "http://[") with "http://[". rewrite Hurl.
    simpl. rewrite app_nil_r. repeat split.
Qed.

End RoutingProperties.

(** ** The health monitor *)

Section HealthMonitorProperties.

Import Proxy.

Variable probe : nat -> string -> health_outcome.

Lemma answers_ok_spec (o : health_outcome) :
  answers_ok o = true <-> o = HealthReply (Some "ok").
Proof.
  destruct o as [[st|]|]; simpl; split; try discriminate.
  - intros H. apply String.eqb_eq in H. subst. reflexivity.
  - intros H. inversion H. reflexivity.
Qed.

Lemma live_endpoints_elem (ws : list string) : forall (i : nat) (u : string),
  u ∈ live_endpoints probe i ws <->
  exists j raw, ws !! j = Some raw /\ Py.strip raw = u /\ u <> ""
                /\ probe (i + j)%nat u = HealthReply (Some "ok").
Proof.
  induction ws as [|raw rest IH]; intros i u.
  - simpl. split.
    + intros H. inversion H.
    + intros (j & r & H & _). discriminate.
  - assert (Hrest : u ∈ live_endpoints probe (S i) rest <->
              exists j raw', (raw :: rest) !! S j = Some raw' /\ Py.strip raw' = u
                             /\ u <> "" /\ probe (i + S j)%nat u = HealthReply (Some "ok")).
    { rewrite IH. split; intros (j & r & H1 & H2 & H3 & H4); exists j, r;
        (split; [exact H1|]); (split; [exact H2|]); (split; [exact H3|]).
      - replace (i + S j)%nat with (S i + j)%nat by lia. exact H4.
      - replace (S i + j)%nat with (i + S j)%nat by lia. exact H4. }
    assert (Hhead : (Py.strip raw = u /\ u <> ""
                     /\ probe i u = HealthReply (Some "ok")) <->
              exists raw', (raw :: rest) !! 0%nat = Some raw' /\ Py.strip raw' = u
                           /\ u <> "" /\ probe (i + 0)%nat u = HealthReply (Some "ok")).
    { rewrite Nat.add_0_r. simpl. split.
      - intros H. exists raw. tauto.
      - intros (r & H1 & H). inversion H1. subst. exact H. }
    assert (Hsplit : (exists j raw', (raw :: rest) !! j = Some raw' /\ Py.strip raw' = u
                        /\ u <> "" /\ probe (i + j)%nat u = HealthReply (Some "ok")) <->
              (Py.strip raw = u /\ u <> "" /\ probe i u = HealthReply (Some "ok"))
              \/ u ∈ live_endpoints probe (S i) rest).
    { rewrite Hhead, Hrest. split.
      - intros ([|j] & r & H); [left|right]; eauto.
      - intros [(r & H)|(j & r & H)]; eauto. }
    rewrite Hsplit. simpl.
    destruct (String.eqb_spec (Py.strip raw) "") as [Hblank|Hurl].
    + split; [auto|]. intros [(H1 & H2 & _)|H]; [congruence|exact H].
    + destruct (answers_ok (probe i (Py.strip raw))) eqn:Hok.
      * apply answers_ok_spec in Hok. rewrite elem_of_cons. split.
        -- intros [->|H]; [left|right]; auto.
        -- intros [(H1 & _)|H]; [left|right]; auto.
      * split; [auto|]. intros [(H1 & H2 & H3)|H]; [|exact H].
        subst u. apply answers_ok_spec in H3. congruence.
Qed.

Lemma live_endpoints_cons i raw rest :
  live_endpoints probe i (raw :: rest) =
    (live_endpoints probe i [raw] ++ live_endpoints probe (S i) rest)%list.
Proof.
  simpl. destruct (String.eqb (Py.strip raw) ""); [reflexivity|].
  destruct (answers_ok _); reflexivity.
Qed.

Lemma probed_endpoints_cons raw rest :
  probed_endpoints (raw :: rest) =
    (probed_endpoints [raw] ++ probed_endpoints rest)%list.
Proof.
  unfold probed_endpoints. simpl. rewrite !filter_cons.
  destruct (decide (Py.strip raw <> "")); reflexivity.
Qed.

(** One iteration: it touches the list object of [alive] and the record of
    calls, nothing else. *)
Lemma probe_step_frame alive i raw (v : world) :
  let v' := probe_step probe alive i raw v in
  (forall l, l <> alive -> heap v' !! l = heap v !! l)
  /\ active_workers v' = active_workers v
  /\ index v' = index v /\ client v' = client v /\ log_file v' = log_file v
  /\ calls v' = (calls v ++ map (fun u => (u, "health_check"))
                              (probed_endpoints [raw]))%list.
Proof.
  unfold probe_step, probed_endpoints. simpl. rewrite filter_cons.
  destruct (String.eqb_spec (Py.strip raw) "") as [Hblank|Hurl].
  - destruct (decide (Py.strip raw <> "")); [congruence|].
    simpl. rewrite app_nil_r. auto 10.
  - destruct (decide (Py.strip raw <> "")); [|tauto].
    destruct (probe i (Py.strip raw)) as [[st|]|]; simpl; auto 10.
    destruct (String.eqb st "ok"); simpl; auto 10.
    split; [|auto 10]. intros l Hl. apply lookup_alter_ne. congruence.
Qed.

Lemma probe_step_alive alive i raw (v : world) acc :
  heap v !! alive = Some acc ->
  heap (probe_step probe alive i raw v) !! alive =
    Some (acc ++ live_endpoints probe i [raw])%list.
Proof.
  intros Hacc. unfold probe_step. simpl.
  destruct (String.eqb (Py.strip raw) "").
  { rewrite app_nil_r. exact Hacc. }
  destruct (probe i (Py.strip raw)) as [[st|]|]; simpl;
    try (rewrite app_nil_r; exact Hacc).
  destruct (String.eqb st "ok"); simpl.
  - rewrite lookup_alter_eq, Hacc. reflexivity.
  - rewrite app_nil_r. exact Hacc.
Qed.

Lemma last_cons_default {A} (l : list A) (x d : A) :
  List.last (x :: l) d = List.last l x.
Proof.
  revert x d. induction l as [|y l IH]; intros x d; [reflexivity|].
  change (List.last (x :: y :: l) d) with (List.last (y :: l) d).
  rewrite (IH y d), (IH y x). reflexivity.
Qed.

Lemma probe_loop_cons alive i raw rest (v : world) :
  probe_loop probe alive i (raw :: rest) v
  = probe_loop probe alive (S i) rest (probe_step probe alive i raw v).
Proof. unfold probe_loop. cbn [probe_loop_states]. apply last_cons_default. Qed.

(** The loop appends the live endpoints to the list object of [alive]. *)
Lemma probe_loop_spec alive (ws : list string) : forall (i : nat) (v : world) acc,
  heap v !! alive = Some acc ->
  let vf := probe_loop probe alive i ws v in
  heap vf !! alive = Some (acc ++ live_endpoints probe i ws)%list
  /\ (forall l, l <> alive -> heap vf !! l = heap v !! l)
  /\ active_workers vf = active_workers v
  /\ index vf = index v /\ client vf = client v /\ log_file vf = log_file v
  /\ calls vf = (calls v ++ map (fun u => (u, "health_check"))
                              (probed_endpoints ws))%list.
Proof.
  induction ws as [|raw rest IH]; intros i v acc Hacc.
  - unfold probe_loop. simpl. rewrite !app_nil_r. auto 10.
  - rewrite probe_loop_cons. cbv zeta.
    pose proof (probe_step_alive alive i raw v acc Hacc) as Halive.
    destruct (probe_step_frame alive i raw v) as (F1 & F2 & F3 & F4 & F5 & F6).
    destruct (IH (S i) _ _ Halive) as (G0 & G1 & G2 & G3 & G4 & G5 & G6).
    rewrite live_endpoints_cons, probed_endpoints_cons, map_app, !app_assoc.
    split; [exact G0|].
    split; [intros l Hl; rewrite (G1 l Hl); exact (F1 l Hl)|].
    split; [congruence|]. split; [congruence|]. split; [congruence|].
    split; [congruence|]. rewrite G6, F6. reflexivity.
Qed.

(** During the loop the global and every other list object stay as they
    were. *)
Lemma probe_loop_states_frame alive (ws : list string) :
  forall (i : nat) (v s : world),
  s ∈ probe_loop_states probe alive i ws v ->
  (forall l, l <> alive -> heap s !! l = heap v !! l)
  /\ active_workers s = active_workers v.
Proof.
  induction ws as [|raw rest IH]; intros i v s Hs.
  - inversion Hs.
  - simpl in Hs. apply elem_of_cons in Hs.
    destruct (probe_step_frame alive i raw v) as (F1 & F2 & _).
    destruct Hs as [->|Hs]; [auto|].
    destruct (IH _ _ _ Hs) as [G1 G2].
    split; [|congruence]. intros l Hl. rewrite (G1 l Hl). exact (F1 l Hl).
Qed.

End HealthMonitorProperties.

Section ProbeRound.

Import Proxy.

Variable WORKERS : list string.
Variable probe : nat -> string -> health_outcome.

(** The list object that [alive] is bound to is a new one. *)
Lemma alive_is_new (w : world) : heap w !! fresh (dom (heap w)) = None.
Proof. apply not_elem_of_dom. apply is_fresh. Qed.

Lemma check_workers_loop (w : world) :
  let alive := fresh (dom (heap w)) in
  let w1 := probe_loop probe alive 0 WORKERS
              (with_heap (<[alive := []]> (heap w)) w) in
  (check_workers WORKERS probe w).2 = with_active_workers alive w1
  /\ heap w1 !! alive = Some (live_endpoints probe 0 WORKERS)
  /\ (forall l, l <> alive -> heap w1 !! l = heap w !! l)
  /\ active_workers w1 = active_workers w
  /\ index w1 = index w /\ client w1 = client w /\ log_file w1 = log_file w
  /\ calls w1 = (calls w ++ map (fun u => (u, "health_check"))
                              (probed_endpoints WORKERS))%list.
Proof.
  intros alive w1. split.
  { unfold check_workers, check_workers_states. cbn [snd]. fold alive.
    rewrite app_comm_cons. apply last_last. }
  destruct (probe_loop_spec probe alive WORKERS 0
              (with_heap (<[alive := []]> (heap w)) w) [])
    as (G0 & G1 & G2 & G3 & G4 & G5 & G6).
  { simpl. apply lookup_insert_eq. }
  fold w1 in G0, G1, G2, G3, G4, G5, G6. simpl in *.
  split; [exact G0|].
  split; [|auto 10].
  intros l Hl. rewrite (G1 l Hl). apply lookup_insert_ne. congruence.
Qed.

(** A probe round leaves the round-robin counter alone. *)
Lemma check_workers_index (w : world) :
  index (check_workers WORKERS probe w).2 = index w.
Proof.
  destruct (check_workers_loop w) as (E & _ & _ & _ & Hi & _).
  rewrite E. exact Hi.
Qed.

Lemma check_workers_active (w : world) :
  active_list (check_workers WORKERS probe w).2 = live_endpoints probe 0 WORKERS.
Proof.
  destruct (check_workers_loop w) as (E & Hlive & _).
  rewrite E. unfold active_list. simpl. rewrite Hlive. reflexivity.
Qed.

(** C8.  After a probe round the active list holds, in the order of
    [WORKERS], the endpoints whose health call returned a dictionary with
    status ["ok"], and no other; each configured endpoint is called once;
    the count returned is the length of the list.  The list is built in an
    object of its own and the global is assigned once, at the end: the
    round ends in the last of the worlds it goes through; in each world
    before that one the global refers to the list it referred to before
    the round; and in every world of the round, the last included, each
    list object that existed before the round, the previous active list
    among them, is as it was.  A reader of the global sees the previous
    list, whole, or the new one. *)
Theorem probe_round (w : world) :
  is_Some (heap w !! active_workers w) ->
  let out := check_workers WORKERS probe w in
  let live := active_list out.2 in
  (forall u, u ∈ live <->
             exists i raw, WORKERS !! i = Some raw /\ Py.strip raw = u /\ u <> ""
                           /\ probe i u = HealthReply (Some "ok"))
  /\ calls out.2 = (calls w ++ map (fun u => (u, "health_check"))
                                 (probed_endpoints WORKERS))%list
  /\ out.1 = length live
  /\ (exists before,
        check_workers_states WORKERS probe w = (before ++ [out.2])%list
        /\ forall s, s ∈ before ->
             active_workers s = active_workers w /\ active_list s = active_list w)
  /\ (forall s l, s ∈ check_workers_states WORKERS probe w ->
        is_Some (heap w !! l) -> heap s !! l = heap w !! l)
  /\ active_workers out.2 <> active_workers w
  /\ heap out.2 !! active_workers w = heap w !! active_workers w
  /\ is_Some (heap out.2 !! active_workers out.2)
  /\ index out.2 = index w.
Proof.
  intros Hglobal out live.
  pose proof (check_workers_active w) as Hactive. fold out in Hactive. fold live in Hactive.
  destruct (check_workers_loop w) as (E & Hlive & Hothers & Hg & Hi & Hc & Hl & Hcalls).
  fold out in E.
  set (alive := fresh (dom (heap w))) in *.
  set (w0 := with_heap (<[alive := []]> (heap w)) w) in *.
  assert (Hold : forall l, is_Some (heap w !! l) -> l <> alive).
  { intros l Hsome Heq. rewrite Heq in Hsome. unfold alive in Hsome.
    rewrite alive_is_new in Hsome. destruct Hsome as [x Hx]. discriminate. }
  assert (Hdistinct : active_workers w <> alive) by exact (Hold _ Hglobal).
  assert (Hstates : check_workers_states WORKERS probe w
                    = ((w0 :: probe_loop_states probe alive 0 WORKERS w0)
                         ++ [out.2])%list).
  { rewrite E. reflexivity. }
  assert (Hduring : forall s l, s ∈ w0 :: probe_loop_states probe alive 0 WORKERS w0 ->
            is_Some (heap w !! l) ->
            heap s !! l = heap w !! l /\ active_workers s = active_workers w).
  { intros s l Hs Hsome. pose proof (Hold l Hsome) as Hne.
    apply elem_of_cons in Hs. destruct Hs as [->|Hs].
    - split; [|reflexivity]. unfold w0. simpl. apply lookup_insert_ne. congruence.
    - apply probe_loop_states_frame in Hs. destruct Hs as [F1 F2].
      split; [|exact F2]. rewrite (F1 _ Hne). unfold w0. simpl.
      apply lookup_insert_ne. congruence. }
  split; [|split; [|split; [|split; [|split; [|split; [|split; [|split]]]]]]].
  - intros u. rewrite Hactive. apply (live_endpoints_elem probe WORKERS 0 u).
  - rewrite E. exact Hcalls.
  - change (out.1) with (length (default [] (heap out.2 !! alive))).
    unfold live, active_list. rewrite E. reflexivity.
  - exists (w0 :: probe_loop_states probe alive 0 WORKERS w0).
    split; [exact Hstates|].
    intros s Hs. destruct (Hduring s _ Hs Hglobal) as [F1 F2].
    split; [exact F2|]. unfold active_list. rewrite F2, F1. reflexivity.
  - intros s l Hs Hsome. rewrite Hstates in Hs. apply elem_of_app in Hs.
    destruct Hs as [Hs|Hs].
    + exact (proj1 (Hduring s l Hs Hsome)).
    + apply list_elem_of_singleton in Hs. subst s. rewrite E. simpl.
      apply Hothers. exact (Hold l Hsome).
  - rewrite E. simpl. congruence.
  - rewrite E. simpl. apply Hothers. exact Hdistinct.
  - rewrite E. simpl. rewrite Hlive. eexists. reflexivity.
  - rewrite E. exact Hi.
Qed.

End ProbeRound.

Section EmptyWindow.

Import Proxy.

(** [do_GET] changes no list object, not the global, and the counter only
    through [get_worker]. *)
Lemma do_GET_frame urlparse_netloc env client_ip path (w : world) :
  let w' := (do_GET urlparse_netloc env client_ip path w).2 in
  heap w' = heap w /\ active_workers w' = active_workers w.
Proof. exact (proj1 (do_GET_outcome urlparse_netloc env client_ip path w)). Qed.

(** C10.  Under an empty active list [get_worker] returns [None] and leaves
    the world, the counter included, as it was, however many times it is
    called; a request handled then leaves the counter as it was too; so
    does the probe round that brings workers back, and the first selection
    afterwards is at position [c mod n] for the counter [c] from before the
    window. *)
Theorem empty_set_keeps_index (w : world) :
  active_list w = [] ->
  get_worker w = (Ok None, w)
  /\ (forall k, get_worker_times k w = (Ok (replicate k None), w))
  /\ (forall urlparse_netloc env client_ip path,
        index (do_GET urlparse_netloc env client_ip path w).2 = index w)
  /\ (forall WORKERS probe,
        let w2 := (check_workers WORKERS probe w).2 in
        active_list w2 <> [] ->
        exists worker,
          active_list w2 !! (index w mod length (active_list w2))%nat = Some worker
          /\ get_worker w2 = (Ok (Some worker), with_index (S (index w)) w2)).
Proof.
  intros He. split; [apply get_worker_empty; exact He|].
  split; [intros k; apply get_worker_times_empty_set; exact He|].
  split.
  - intros urlparse_netloc env client_ip path.
    rewrite (do_GET_no_worker _ _ _ _ _ He), log_access_run. reflexivity.
  - intros WORKERS probe w2 Hne.
    destruct (get_worker_nonempty w2 Hne) as [worker [Hw Hg]].
    unfold w2 in Hw, Hg. rewrite check_workers_index in Hw, Hg.
    exists worker. split; [exact Hw|exact Hg].
Qed.

End EmptyWindow.

(** ** The statements at concrete inputs *)

Example three_workers_active :
  Proxy.active_list three_workers_world = default_workers.
Proof. vm_compute. reflexivity. Qed.

Example netloc_examples :
  (netloc_of_url "http://example.com/a", netloc_of_url "http://[",
   netloc_of_url "http:/x")
  = (Some "example.com", None, Some "").
Proof. reflexivity. Qed.

Lemma round_robin_witness :
  (Proxy.active_list three_workers_world <> []
   /\ get_worker_times 4 three_workers_world =
        (Proxy.Ok [Some "http://localhost:8001"; Some "http://localhost:8002";
                   Some "http://localhost:8003"; Some "http://localhost:8001"],
         Proxy.with_index 4 three_workers_world))
  /\ (Proxy.active_list initial_world = []
      /\ Proxy.get_worker initial_world = (Proxy.Ok None, initial_world)).
Proof.
  split.
  - assert (Hne : Proxy.active_list three_workers_world <> []).
    { rewrite three_workers_active. discriminate. }
    split; [exact Hne|].
    destruct (round_robin three_workers_world) as [Hrr _].
    destruct (Hrr Hne) as [_ Hseq].
    rewrite (Hseq 4%nat). rewrite three_workers_active. reflexivity.
  - split; [reflexivity|].
    destruct (round_robin initial_world) as [_ Hempty].
    destruct (Hempty eq_refl) as [Hnone _]. exact Hnone.
Defined.

Example served_request :
  let out := Proxy.do_GET netloc_of_url (env_replying example_reply) "10.0.0.7"
               "http://example.com/a" three_workers_world in
  Proxy.client out.2 =
    [Proxy.send_response 200;
     Proxy.send_header "Content-Type" "text/html";
     Proxy.send_header "Content-Length" "15";
     Proxy.send_header "X-Proxy" "RPC-Proxy";
     Proxy.send_header "X-Worker" "worker-1";
     Proxy.send_header "X-Cached" "True";
     Proxy.send_header "X-Response-Time" "12.50ms";
     Proxy.end_headers;
     Proxy.wfile_write example_page]
  /\ Proxy.log_file out.2 =
       ["2026-01-01T00:00:00.000000|10.0.0.7|GET|http://example.com/a|example.com|200|worker-1|True|12.50"
          ++ Proxy.newline]
  /\ Proxy.index out.2 = 1%nat.
Proof. vm_compute. repeat split. Qed.

(** The text of an RPC failure that [latin-1] cannot encode: [send_error]
    raises in the exception handler, nothing is sent to the client and
    nothing is logged. *)
Example unencodable_failure :
  let out := Proxy.do_GET netloc_of_url env_failing_wide "10.0.0.7"
               "http://example.com/a" three_workers_world in
  out.1 = Proxy.Raised
            (Proxy.UnicodeEncodeError
               ("'latin-1' codec can't encode character '\" ++ "u0100' in position 35: ordinal not in range(256)"))
  /\ Proxy.client out.2 = []
  /\ Proxy.log_file out.2 = []
  /\ Proxy.calls out.2
     = (Proxy.calls three_workers_world ++ [("http://localhost:8001", "fetch_url")])%list.
Proof. vm_compute. repeat split. Qed.



Lemma rejected_url_is_not_logged_witness :
  let out := Proxy.do_GET netloc_of_url (env_replying example_reply) "10.0.0.7"
               "http://[" three_workers_world in
  netloc_of_url (Proxy.target_url "http://[") = None
  /\ (out.1 = Proxy.Ok tt
      \/ exists text, out.1 = Proxy.Raised (Proxy.UnicodeEncodeError text))
  /\ Proxy.log_file out.2 = Proxy.log_file three_workers_world.
Proof.
  intros out. split; [reflexivity|].
  exact (rejected_url_is_not_logged netloc_of_url (env_replying example_reply)
           "10.0.0.7" "http://[" three_workers_world eq_refl).
Defined.

Lemma no_worker_rejected_url_witness :
  let out := Proxy.do_GET netloc_of_url env_failing "10.0.0.7" "http://["
               initial_world in
  (netloc_of_url "http://[" = None /\ Proxy.active_list initial_world = [])
  /\ out = (Proxy.Ok tt,
            Proxy.with_client [Proxy.send_error 503 "No RPC workers available"]
              initial_world)
  /\ Proxy.calls out.2 = []
  /\ Proxy.log_file out.2 = [].
Proof.
  intros out. split; [split; reflexivity|].
  exact (no_worker_rejected_url netloc_of_url env_failing "10.0.0.7"
           initial_world eq_refl eq_refl).
Defined.

Lemma rpc_failure_rejected_url_witness :
  let w := three_workers_world in
  let worker_url := "http://localhost:8001" in
  let out := Proxy.do_GET netloc_of_url env_failing "10.0.0.7" "http://[" w in
  (netloc_of_url "http://[" = None
   /\ Proxy.get_worker w = (Proxy.Ok (Some worker_url), Proxy.with_index 1 w)
   /\ worker_url <> ""
   /\ Proxy.rpc env_failing worker_url "http://["
      = Proxy.Fails "[Errno 111] Connection refused")
  /\ Proxy.client out.2 =
       (Proxy.client w ++
        [Proxy.send_error 502 "RPC Error: [Errno 111] Connection refused"])%list
  /\ Proxy.calls out.2 = (Proxy.calls w ++ [(worker_url, "fetch_url")])%list
  /\ Proxy.log_file out.2 = Proxy.log_file w.
Proof.
  intros w worker_url out.
  assert (Hg : Proxy.get_worker w = (Proxy.Ok (Some worker_url), Proxy.with_index 1 w)).
  { vm_compute. reflexivity. }
  assert (Hne : worker_url <> "") by discriminate.
  split; [split; [|split; [exact Hg|split; [exact Hne|]]]; reflexivity|].
  exact (rpc_failure_rejected_url netloc_of_url env_failing "10.0.0.7" w
           (Proxy.with_index 1 w) worker_url "[Errno 111] Connection refused"
           eq_refl Hg Hne eq_refl).
Defined.

Example probe_round_example :
  let out := Proxy.check_workers
               ["http://localhost:8001"; " http://localhost:8002 "; "";
                "http://localhost:8003"]
               second_down three_workers_world in
  out.1 = 2%nat
  /\ Proxy.active_list out.2 = ["http://localhost:8001"; "http://localhost:8003"]
  /\ Proxy.index out.2 = 0%nat.
Proof. vm_compute. repeat split. Qed.

Lemma probe_round_witness :
  let out := Proxy.check_workers default_workers second_down initial_world in
  let live := Proxy.active_list out.2 in
  is_Some (Proxy.heap initial_world !! Proxy.active_workers initial_world)
  /\ (forall u, u ∈ live <->
                exists i raw, default_workers !! i = Some raw /\ Py.strip raw = u
                              /\ u <> ""
                              /\ second_down i u = Proxy.HealthReply (Some "ok"))
  /\ Proxy.calls out.2 =
       (Proxy.calls initial_world ++
        map (fun u => (u, "health_check")) (probed_endpoints default_workers))%list
  /\ out.1 = length live
  /\ (exists before,
        Proxy.check_workers_states default_workers second_down initial_world
        = (before ++ [out.2])%list
        /\ forall s, s ∈ before ->
             Proxy.active_workers s = Proxy.active_workers initial_world
             /\ Proxy.active_list s = Proxy.active_list initial_world)
  /\ (forall s l,
        s ∈ Proxy.check_workers_states default_workers second_down initial_world ->
        is_Some (Proxy.heap initial_world !! l) ->
        Proxy.heap s !! l = Proxy.heap initial_world !! l)
  /\ Proxy.active_workers out.2 <> Proxy.active_workers initial_world
  /\ Proxy.heap out.2 !! Proxy.active_workers initial_world
     = Proxy.heap initial_world !! Proxy.active_workers initial_world
  /\ is_Some (Proxy.heap out.2 !! Proxy.active_workers out.2)
  /\ Proxy.index out.2 = Proxy.index initial_world.
Proof.
  intros out live.
  assert (Hglobal : is_Some (Proxy.heap initial_world
                               !! Proxy.active_workers initial_world)).
  { exists []. reflexivity. }
  split; [exact Hglobal|].
  exact (probe_round default_workers second_down initial_world Hglobal).
Defined.

Lemma empty_set_keeps_index_witness :
  Proxy.active_list initial_world = []
  /\ Proxy.get_worker initial_world = (Proxy.Ok None, initial_world)
  /\ (forall k, get_worker_times k initial_world
                = (Proxy.Ok (replicate k None), initial_world))
  /\ (forall urlparse_netloc env client_ip path,
        Proxy.index (Proxy.do_GET urlparse_netloc env client_ip path initial_world).2
        = Proxy.index initial_world)
  /\ (forall WORKERS probe,
        let w2 := (Proxy.check_workers WORKERS probe initial_world).2 in
        Proxy.active_list w2 <> [] ->
        exists worker,
          Proxy.active_list w2
            !! (Proxy.index initial_world mod length (Proxy.active_list w2))%nat
          = Some worker
          /\ Proxy.get_worker w2 =
             (Proxy.Ok (Some worker),
              Proxy.with_index (S (Proxy.index initial_world)) w2)).
Proof.
  split; [reflexivity|].
  exact (empty_set_keeps_index initial_world eq_refl).
Defined.

(** ** More on [fetch_url] and the cache *)

Section FetchProperties.

Import Worker.

Variable md5_hexdigest : string -> string.

Local Abbreviation path_at env url :=
  (get_cache_path env (get_cache_key md5_hexdigest url)).

(** X1.  The result of [fetch_url] tells what it did.  Its [worker] is the
    [WORKER_ID] of the process, or [local].  With [cached = True] no
    upstream request was sent, the directory is as before and there is no
    [error]; with [cached = False] exactly one upstream request was sent,
    for this URL, and [error] is present exactly when that request failed. *)
Theorem fetch_result_shape env url clk net (w : world) :
  let out := fetch_url md5_hexdigest env url clk net w in
  worker out.1 = default "local" (env !! "WORKER_ID")
  /\ (if cached out.1
      then out.2 = w /\ error out.1 = None
      else outbound out.2 = (outbound w ++ [url])%list
           /\ (is_Some (error out.1) <-> upstream_failed net)).
Proof.
  unfold fetch_url.
  pose proof (read_shrinks md5_hexdigest env url (t_lookup clk) (dfs w)) as Hs.
  unfold read_from_cache in *.
  destruct (dfs w !! path_at env url) as [f|] eqn:Hf; cbv zeta in *.
  - destruct (Py.Qltb (t_lookup clk - mtime f) CACHE_TTL) eqn:Hage.
    + destruct (Py.fromhex (cd_content_hex (json f))) as [bytes|].
      * simpl. split; [reflexivity|]. split; [destruct w; reflexivity|reflexivity].
      * destruct net; simpl; (split; [reflexivity|]); (split; [reflexivity|]);
          split; try tauto; try (intros [x Hx]; discriminate); eauto.
    + destruct net; simpl; (split; [reflexivity|]); (split; [reflexivity|]);
        split; try tauto; try (intros [x Hx]; discriminate); eauto.
  - destruct net; simpl; (split; [reflexivity|]); (split; [reflexivity|]);
      split; try tauto; try (intros [x Hx]; discriminate); eauto.
Qed.

(** X2.  An expired entry is replaced by the next successful fetch: the
    fetch returns the upstream response with [cached = False], the file
    then holds the new response under the new modification time, and a
    fetch started less than 60 seconds after that time is served the new
    content from the cache. *)
Theorem expired_entry_is_refreshed env url clk st hs body (w : world) f
    clk2 net2 :
  dfs w !! path_at env url = Some f ->
  (60 <= t_lookup clk - mtime f)%Q ->
  (t_lookup clk2 - t_mtime clk < 60)%Q ->
  let out := fetch_url md5_hexdigest env url clk (UpResponse st hs body) w in
  let out2 := fetch_url md5_hexdigest env url clk2 net2 out.2 in
  (status out.1 = st /\ headers out.1 = hs /\ content out.1 = body
   /\ cached out.1 = false)
  /\ (mtime <$> dfs out.2 !! path_at env url) = Some (t_mtime clk)
  /\ (status out2.1 = st /\ headers out2.1 = hs /\ content out2.1 = body
      /\ cached out2.1 = true)
  /\ outbound out2.2 = (outbound w ++ [url])%list.
Proof.
  intros Hf Hold Hnew out out2.
  assert (Hout : out = ({| status := st; headers := hs; content := body;
                           cached := false; error := None;
                           worker := default "local" (env !! "WORKER_ID") |},
                        {| dfs := write_to_cache md5_hexdigest env url
                                    {| status := st; headers := hs; content := body;
                                       cached := false; error := None;
                                       worker := default "local" (env !! "WORKER_ID") |}
                                    clk (delete (path_at env url) (dfs w));
                           outbound := (outbound w ++ [url])%list |})).
  { unfold out, fetch_url.
    rewrite (read_expired md5_hexdigest env url _ _ f Hf Hold). reflexivity. }
  split; [rewrite Hout; auto|].
  assert (Hfile := written_file md5_hexdigest env url
                     {| status := st; headers := hs; content := body;
                        cached := false; error := None;
                        worker := default "local" (env !! "WORKER_ID") |}
                     clk (delete (path_at env url) (dfs w))).
  split; [rewrite Hout; simpl; rewrite Hfile; reflexivity|].
  unfold out2, fetch_url. rewrite Hout. simpl.
  rewrite (read_fresh md5_hexdigest env url (t_lookup clk2) _ _ Hfile Hnew).
  simpl. rewrite fromhex_hex. simpl. auto 10.
Qed.

(** X3.  A file whose [content_hex] does not decode is never served: the
    lookup fails, the fetch goes upstream, and a successful fetch writes a
    good entry over the file while a failed one leaves the file as it is. *)
Theorem undecodable_entry_is_a_miss env url clk net (w : world) f :
  dfs w !! path_at env url = Some f ->
  (t_lookup clk - mtime f < 60)%Q ->
  Py.fromhex (cd_content_hex (json f)) = None ->
  let out := fetch_url md5_hexdigest env url clk net w in
  cached out.1 = false
  /\ outbound out.2 = (outbound w ++ [url])%list
  /\ match net with
     | UpResponse st hs body =>
         content out.1 = body
         /\ (cd_content_hex ∘ json <$> dfs out.2 !! path_at env url)
            = Some (Py.hex body)
     | _ => dfs out.2 = dfs w
     end.
Proof.
  intros Hf Hage Hbad out. unfold out, fetch_url.
  rewrite (read_fresh md5_hexdigest env url _ _ f Hf Hage), Hbad.
  destruct net as [st hs body|code text|text]; simpl; (split; [reflexivity|]);
    (split; [reflexivity|]); try reflexivity.
  split; [reflexivity|].
  rewrite (written_file md5_hexdigest env url). reflexivity.
Qed.

(** X4.  The cache is addressed by the key alone: the [url] stored in the
    document is not compared.  When two URLs have the same digest, a fetch
    of the second, started within the TTL of the entry that a fetch of the
    first stored, is answered from that entry. *)
Theorem same_key_same_entry env url1 url2 clk st hs body (w : world) clk2 net2 :
  md5_hexdigest url1 = md5_hexdigest url2 ->
  let out := fetch_url md5_hexdigest env url1 clk (UpResponse st hs body) w in
  cached out.1 = false ->
  (t_lookup clk2 - t_mtime clk < 60)%Q ->
  let out2 := fetch_url md5_hexdigest env url2 clk2 net2 out.2 in
  cached out2.1 = true /\ status out2.1 = st /\ headers out2.1 = hs
  /\ content out2.1 = body
  /\ (cd_url ∘ json <$> dfs out2.2 !! path_at env url2) = Some url1.
Proof.
  intros Hkey out Hmiss Hage out2.
  assert (Hpath : path_at env url2 = path_at env url1).
  { unfold get_cache_key. rewrite Hkey. reflexivity. }
  unfold out2, fetch_url. unfold out, fetch_url in Hmiss |- *.
  destruct (read_from_cache md5_hexdigest env url1 (t_lookup clk) (dfs w))
    as [[[doc bytes]|] d'] eqn:Hread; [discriminate Hmiss|].
  simpl.
  assert (Hfile := written_file md5_hexdigest env url1
                     {| status := st; headers := hs; content := body;
                        cached := false; error := None;
                        worker := default "local" (env !! "WORKER_ID") |}
                     clk d').
  rewrite <- Hpath in Hfile.
  rewrite (read_fresh md5_hexdigest env url2 (t_lookup clk2) _ _ Hfile Hage).
  simpl. rewrite fromhex_hex. simpl. rewrite Hfile. auto 10.
Qed.

(** X5.  A lookup that hits leaves the directory as it is, so repeating
    it gives the same entry; after a lookup that misses, every later lookup
    of the URL, at whatever time, misses too, until something is written. *)
Theorem read_from_cache_settles env url now now' (d : gmap string cache_file) :
  let first := read_from_cache md5_hexdigest env url now d in
  match first.1 with
  | Some entry => first.2 = d
  | None => (read_from_cache md5_hexdigest env url now' first.2).1 = None
  end.
Proof.
  unfold read_from_cache.
  destruct (d !! path_at env url) as [f|] eqn:Hf; cbv zeta.
  - destruct (Py.Qltb (now - mtime f) CACHE_TTL) eqn:Hage.
    + destruct (Py.fromhex (cd_content_hex (json f))) as [bytes|] eqn:Hhex; simpl.
      * reflexivity.
      * rewrite Hf. cbv zeta. rewrite Hhex.
        destruct (Py.Qltb (now' - mtime f) CACHE_TTL); reflexivity.
    + simpl. rewrite lookup_delete_eq. reflexivity.
  - simpl. rewrite Hf. reflexivity.
Qed.

(** A [fetch_url] changes no file but the one of its URL. *)
Lemma fetch_url_keeps_path env url clk net (w : world) (p : string) :
  path_at env url <> p ->
  dfs (fetch_url md5_hexdigest env url clk net w).2 !! p = dfs w !! p.
Proof.
  intros Hp. unfold fetch_url.
  pose proof (read_shrinks md5_hexdigest env url (t_lookup clk) (dfs w)) as Hshrink.
  destruct (read_from_cache md5_hexdigest env url (t_lookup clk) (dfs w))
    as [[[doc bytes]|] d'] eqn:Hread; simpl in Hshrink.
  - simpl. destruct Hshrink as [->|[-> _]]; [reflexivity|].
    apply lookup_delete_ne. exact Hp.
  - assert (Hd : d' !! p = dfs w !! p).
    { destruct Hshrink as [->|[-> _]]; [reflexivity|].
      apply lookup_delete_ne. exact Hp. }
    destruct net; simpl; try exact Hd.
    unfold write_to_cache. rewrite lookup_insert_ne by exact Hp. exact Hd.
Qed.

Lemma run_fetches_keeps_path (p : string) (calls : list fetch_call) :
  forall w : world,
  Forall (fun c => path_at (fc_environ c) (fc_url c) <> p) calls ->
  dfs (run_fetches md5_hexdigest calls w) !! p = dfs w !! p.
Proof.
  induction calls as [|c calls IH]; intros w Hall; [reflexivity|].
  apply Forall_cons in Hall. destruct Hall as [Hc Hrest].
  unfold run_fetches in *. simpl. rewrite (IH _ Hrest).
  apply fetch_url_keeps_path. exact Hc.
Qed.

(** X6.  A stored entry outlives the traffic for other URLs: after any run
    of [fetch_url] calls, by any workers, whose cache paths are not the
    path of this URL, a fetch of this URL started within the TTL of the
    entry is still served from it, unchanged. *)
Theorem entry_survives_other_fetches env url clk st hs body (w : world)
    (calls : list fetch_call) clk2 net2 :
  let out := fetch_url md5_hexdigest env url clk (UpResponse st hs body) w in
  cached out.1 = false ->
  Forall (fun c => path_at (fc_environ c) (fc_url c) <> path_at env url) calls ->
  (t_lookup clk2 - t_mtime clk < 60)%Q ->
  let w2 := run_fetches md5_hexdigest calls out.2 in
  let out2 := fetch_url md5_hexdigest env url clk2 net2 w2 in
  cached out2.1 = true /\ status out2.1 = st /\ headers out2.1 = hs
  /\ content out2.1 = body /\ out2.2 = w2.
Proof.
  intros out Hmiss Hother Hage w2 out2.
  assert (Hfile : dfs w2 !! path_at env url =
            Some {| mtime := t_mtime clk;
                    json := {| cd_url := url; cd_status := st; cd_headers := hs;
                               cd_content_hex := Py.hex body;
                               cd_timestamp := t_stamp clk |} |}).
  { unfold w2. rewrite (run_fetches_keeps_path _ _ _ Hother).
    unfold out, fetch_url in Hmiss |- *.
    destruct (read_from_cache md5_hexdigest env url (t_lookup clk) (dfs w))
      as [[[doc bytes]|] d'] eqn:Hread; [discriminate Hmiss|].
    simpl. apply (written_file md5_hexdigest env url). }
  unfold out2, fetch_url.
  rewrite (read_fresh md5_hexdigest env url (t_lookup clk2) _ _ Hfile Hage).
  simpl. rewrite fromhex_hex. simpl. destruct w2; auto 10.
Qed.

End FetchProperties.

(** ** Strings and paths *)

Lemma strip_prefix_app (pre s : string) : Py.strip_prefix pre (pre ++ s) = Some s.
Proof.
  induction pre as [|c pre IH]; [destruct s; reflexivity|].
  rewrite append_cons. simpl. rewrite Ascii.eqb_refl. exact IH.
Qed.

Lemma strip_prefix_Some (pre : string) : forall s rest,
  Py.strip_prefix pre s = Some rest -> s = pre ++ rest.
Proof.
  induction pre as [|c pre IH]; intros s rest H.
  - destruct s; simpl in H; inversion H; reflexivity.
  - destruct s as [|d s]; simpl in H; [discriminate|].
    destruct (Ascii.eqb_spec c d) as [->|]; [|discriminate].
    rewrite append_cons. f_equal. apply IH. exact H.
Qed.

Lemma first_component_idem (s : string) :
  Py.first_component (Py.first_component s) = Py.first_component s.
Proof.
  induction s as [|c s IH]; simpl; [reflexivity|].
  destruct (Ascii.eqb c "/") eqn:E; simpl; [reflexivity|].
  rewrite E, IH. reflexivity.
Qed.

Lemma first_component_app (a b : string) :
  Py.first_component a = a ->
  Py.first_component (a ++ b) = a ++ Py.first_component b.
Proof.
  induction a as [|c a IH]; [reflexivity|].
  rewrite !append_cons. simpl.
  destruct (Ascii.eqb c "/"); [discriminate|].
  intros H. inversion H as [Ha]. rewrite Ha. rewrite (IH Ha). reflexivity.
Qed.

Lemma endswith_app (a suffix : string) : Py.endswith (a ++ suffix) suffix = true.
Proof.
  induction a as [|c a IH].
  - change ("" ++ suffix) with suffix.
    destruct suffix; cbn [Py.endswith]; rewrite String.eqb_refl; reflexivity.
  - rewrite append_cons. cbn [Py.endswith]. rewrite IH. apply orb_true_r.
Qed.

(** A name that is a first component and is not empty does not start with
    the separator. *)
Lemma first_component_no_root (s : string) :
  Py.first_component s = s -> s <> "" -> Py.startswith s "/" = false.
Proof.
  destruct s as [|c s]; [congruence|]. intros H _.
  unfold Py.startswith. cbn [String.prefix].
  destruct (Ascii.ascii_dec "/" c) as [<-|_]; [|reflexivity].
  discriminate H.
Qed.

Lemma path_join_dir (dir name : string) :
  dir <> "" -> Py.startswith name "/" = false ->
  Py.path_join dir name = Py.dir_prefix dir ++ name.
Proof.
  intros Hdir Hname. unfold Py.path_join, Py.dir_prefix. rewrite Hname.
  destruct dir as [|c dir]; [congruence|]. cbn [String.length Nat.eqb].
  destruct (String.eqb _ "/"); [reflexivity|].
  rewrite append_assoc. reflexivity.
Qed.

(** ** The directory, [health_check], [clear_cache], [get_stats] *)

Section DirectoryProperties.

Context {A : Type}.

Lemma listdir_elem (dir : string) (d : gmap string A) (name : string) :
  name ∈ Py.listdir dir d <->
  exists p, is_Some (d !! p) /\ Py.entry_name dir p = Some name.
Proof.
  unfold Py.listdir. rewrite elem_of_remove_dups, list_elem_of_omap. split.
  - intros (p & Hp & He). exists p. split; [|exact He].
    apply list_elem_of_fmap in Hp. destruct Hp as ([p' x] & -> & Hin).
    apply elem_of_map_to_list in Hin. eauto.
  - intros (p & [x Hx] & He). exists p. split; [|exact He].
    apply list_elem_of_fmap. exists (p, x). split; [reflexivity|].
    apply elem_of_map_to_list. exact Hx.
Qed.

Lemma listdir_NoDup (dir : string) (d : gmap string A) : NoDup (Py.listdir dir d).
Proof. apply NoDup_remove_dups. Qed.

(** An entry name is a single component and is not empty. *)
Lemma entry_name_component (dir p name : string) :
  Py.entry_name dir p = Some name ->
  Py.first_component name = name /\ name <> "".
Proof.
  unfold Py.entry_name.
  destruct (Py.strip_prefix (Py.dir_prefix dir) p) as [rest|]; [|discriminate].
  cbv zeta. destruct (String.eqb_spec (Py.first_component rest) "") as [|Hne];
    [discriminate|].
  intros H. inversion H. subst name. split; [apply first_component_idem|exact Hne].
Qed.

(** In a plain directory the path of an entry is the directory and the
    name. *)
Lemma entry_name_plain (dir : string) (d : gmap string A) (p name : string) :
  plain_directory dir d -> is_Some (d !! p) ->
  Py.entry_name dir p = Some name ->
  p = Py.dir_prefix dir ++ name.
Proof.
  intros Hplain Hp. unfold Py.entry_name.
  destruct (Py.strip_prefix (Py.dir_prefix dir) p) as [rest|] eqn:Hrest;
    [|discriminate].
  cbv zeta. destruct (String.eqb (Py.first_component rest) ""); [discriminate|].
  intros H. inversion H. rewrite (Hplain p rest Hp Hrest).
  apply strip_prefix_Some. exact Hrest.
Qed.

Lemma entry_name_child (dir name : string) :
  Py.first_component name = name -> name <> "" ->
  Py.entry_name dir (Py.dir_prefix dir ++ name) = Some name.
Proof.
  intros Hc Hne. unfold Py.entry_name. rewrite strip_prefix_app. cbv zeta.
  rewrite Hc. destruct (String.eqb_spec name ""); [congruence|reflexivity].
Qed.

End DirectoryProperties.

Section AdminProperties.

Import Worker.

Variable environ : gmap string string.

Local Abbreviation dir := (CACHE_DIR environ).
Local Abbreviation child name := (Py.dir_prefix (CACHE_DIR environ) ++ name).

Hypothesis dir_set : CACHE_DIR environ <> "".

Lemma join_child (name : string) :
  Py.first_component name = name -> name <> "" ->
  Py.path_join dir name = child name.
Proof.
  intros Hc Hne. apply path_join_dir; [exact dir_set|].
  apply first_component_no_root; assumption.
Qed.

(** The loop of [clear_cache], when every name to remove is a file. *)
Lemma remove_each_files (names : list string) :
  forall d : gmap string cache_file,
  NoDup names ->
  (forall n, n ∈ names -> Py.first_component n = n /\ n <> "") ->
  (forall n, n ∈ names -> Py.endswith n ".json" = true -> is_Some (d !! child n)) ->
  exists d',
    remove_each environ names d = (None, d')
    /\ forall p, d' !! p =
         if decide (p ∈ (fun n => child n)
                          <$> filter (fun n => Py.endswith n ".json" = true) names)
         then None else d !! p.
Proof.
  induction names as [|f rest IH]; intros d Hnodup Hnames Hfiles.
  { exists d. split; [reflexivity|]. intros p. simpl.
    destruct (decide (p ∈ [])) as [Hin|_]; [inversion Hin|reflexivity]. }
  apply NoDup_cons in Hnodup. destruct Hnodup as [Hf Hnodup].
  assert (Hrest_names : forall n, n ∈ rest -> Py.first_component n = n /\ n <> "").
  { intros n Hn. apply Hnames. apply elem_of_cons. auto. }
  cbn [remove_each]. rewrite filter_cons.
  destruct (Py.endswith f ".json") eqn:Hjson.
  - destruct (Hnames f) as [Hc Hne]; [apply elem_of_cons; auto|].
    rewrite (join_child f Hc Hne). unfold Py.remove.
    destruct (Hfiles f) as [x Hx]; [apply elem_of_cons; auto|exact Hjson|].
    rewrite Hx.
    destruct (IH (delete (child f) d) Hnodup Hrest_names) as (d' & Hrun & Hd').
    { intros n Hn Hj. rewrite lookup_delete_ne.
      - apply Hfiles; [apply elem_of_cons; auto|exact Hj].
      - intros Heq. apply (inj (String.append _)) in Heq. congruence. }
    exists d'. split; [exact Hrun|]. intros p. rewrite Hd'.
    destruct (decide (true = true)) as [_|?]; [|congruence].
    rewrite fmap_cons.
    destruct (decide (p = child f)) as [->|Hp].
    + destruct (decide (child f ∈ child f :: _)) as [_|Hn];
        [|exfalso; apply Hn; apply elem_of_cons; auto].
      destruct (decide (child f ∈ _)); [reflexivity|apply lookup_delete_eq].
    + rewrite lookup_delete_ne by congruence.
      destruct (decide (p ∈ _)) as [Hin|Hout];
        destruct (decide (p ∈ child f :: _)) as [Hin'|Hout']; try reflexivity.
      * exfalso. apply Hout'. apply elem_of_cons. auto.
      * exfalso. apply elem_of_cons in Hin'. destruct Hin'; [congruence|tauto].
  - destruct (decide (false = true)) as [?|_]; [discriminate|].
    apply IH; [exact Hnodup|exact Hrest_names|].
    intros n Hn Hj. apply Hfiles; [apply elem_of_cons; auto|exact Hj].
Qed.

(** What [clear_cache] leaves of a plain directory. *)
Lemma clear_cache_run (w : world) :
  plain_directory dir (dfs w) ->
  exists d',
    clear_cache environ w = (Returned true, {| dfs := d'; outbound := outbound w |})
    /\ forall p, d' !! p = if is_cache_file dir p then None else dfs w !! p.
Proof.
  intros Hplain. unfold clear_cache.
  destruct (remove_each_files (Py.listdir dir (dfs w)) (dfs w)) as (d' & Hrun & Hd').
  - apply listdir_NoDup.
  - intros n Hn. apply listdir_elem in Hn. destruct Hn as (p & _ & He).
    apply (entry_name_component _ _ _ He).
  - intros n Hn _. apply listdir_elem in Hn. destruct Hn as (p & Hp & He).
    rewrite <- (entry_name_plain _ _ _ _ Hplain Hp He). exact Hp.
  - rewrite Hrun. exists d'. split; [reflexivity|]. intros p. rewrite Hd'.
    unfold is_cache_file.
    destruct (decide (p ∈ _)) as [Hin|Hout].
    + apply list_elem_of_fmap in Hin. destruct Hin as (n & -> & Hn).
      apply list_elem_of_filter in Hn. destruct Hn as [Hjson Hn].
      apply listdir_elem in Hn. destruct Hn as (p & _ & He).
      destruct (entry_name_component _ _ _ He) as [Hc Hne].
      rewrite (entry_name_child dir n Hc Hne), Hjson. reflexivity.
    + destruct (Py.entry_name dir p) as [n|] eqn:He; [|reflexivity].
      destruct (Py.endswith n ".json") eqn:Hjson; [|reflexivity].
      destruct (dfs w !! p) as [x|] eqn:Hx; [|reflexivity].
      exfalso. apply Hout. apply list_elem_of_fmap. exists n. split.
      * apply (entry_name_plain dir (dfs w) p n Hplain); [eauto|exact He].
      * apply list_elem_of_filter. split; [exact Hjson|].
        apply listdir_elem. exists p. split; [eauto|exact He].
Qed.

End AdminProperties.

Section CacheDirectory.

Import Worker.

Variable md5_hexdigest : string -> string.

(** The name of the file of a URL whose digest has no separator. *)
Lemma cache_file_name (url : string) :
  Py.first_component (md5_hexdigest url) = md5_hexdigest url ->
  let name := md5_hexdigest url ++ ".json" in
  Py.first_component name = name /\ name <> "" /\ Py.endswith name ".json" = true.
Proof.
  intros Hkey name. split; [|split].
  - unfold name. rewrite (first_component_app _ _ Hkey). reflexivity.
  - unfold name. destruct (md5_hexdigest url); discriminate.
  - apply endswith_app.
Qed.

Lemma cache_path_child env (url : string) :
  CACHE_DIR env <> "" ->
  Py.first_component (md5_hexdigest url) = md5_hexdigest url ->
  get_cache_path env (get_cache_key md5_hexdigest url)
  = Py.dir_prefix (CACHE_DIR env) ++ (md5_hexdigest url ++ ".json")
  /\ is_cache_file (CACHE_DIR env)
       (get_cache_path env (get_cache_key md5_hexdigest url)) = true.
Proof.
  intros Hdir Hkey. destruct (cache_file_name url Hkey) as (Hc & Hne & Hjson).
  unfold get_cache_path, get_cache_key.
  rewrite (join_child env Hdir _ Hc Hne). split; [reflexivity|].
  unfold is_cache_file. rewrite (entry_name_child _ _ Hc Hne). exact Hjson.
Qed.

(** The list of cache files depends on which paths hold a file only, up to
    the order of the listing. *)
Lemma cache_files_same_paths env (d1 d2 : gmap string cache_file) :
  (forall p, is_Some (d2 !! p) <-> is_Some (d1 !! p)) ->
  cache_files env d2 ≡ₚ cache_files env d1.
Proof.
  intros Hsame. unfold cache_files. apply filter_Permutation.
  apply NoDup_Permutation; try apply listdir_NoDup.
  intros n. rewrite !listdir_elem. split; intros (p & Hp & He); exists p;
    (split; [apply Hsame; exact Hp|exact He]).
Qed.

Lemma cache_files_new_path env (d1 d2 : gmap string cache_file) (name : string) :
  plain_directory (CACHE_DIR env) d1 ->
  Py.first_component name = name -> name <> "" ->
  Py.endswith name ".json" = true ->
  d1 !! (Py.dir_prefix (CACHE_DIR env) ++ name) = None ->
  (forall p, is_Some (d2 !! p) <->
             p = Py.dir_prefix (CACHE_DIR env) ++ name \/ is_Some (d1 !! p)) ->
  cache_files env d2 ≡ₚ name :: cache_files env d1.
Proof.
  intros Hplain Hc Hne Hjson Hnew Hpaths. unfold cache_files.
  assert (Hfresh : name ∉ Py.listdir (CACHE_DIR env) d1).
  { intros Hin. apply listdir_elem in Hin. destruct Hin as (p & Hp & He).
    rewrite (entry_name_plain _ _ _ _ Hplain Hp He) in Hp.
    rewrite Hnew in Hp. destruct Hp as [x Hx]. discriminate. }
  assert (Hperm : Py.listdir (CACHE_DIR env) d2
                  ≡ₚ name :: Py.listdir (CACHE_DIR env) d1).
  { apply NoDup_Permutation.
    - apply listdir_NoDup.
    - apply NoDup_cons. split; [exact Hfresh|apply listdir_NoDup].
    - intros n. rewrite elem_of_cons, !listdir_elem. split.
      + intros (p & Hp & He). apply Hpaths in Hp. destruct Hp as [->|Hp].
        * left. rewrite (entry_name_child _ _ Hc Hne) in He. congruence.
        * right. eauto.
      + intros [->|(p & Hp & He)].
        * exists (Py.dir_prefix (CACHE_DIR env) ++ name). split.
          -- apply Hpaths. auto.
          -- apply entry_name_child; assumption.
        * exists p. split; [apply Hpaths; auto|exact He]. }
  rewrite Hperm, filter_cons.
  destruct (decide (Py.endswith name ".json" = true)); [reflexivity|congruence].
Qed.

(** After a fetch that got a response, the paths that hold a file are the
    ones from before and the path of the URL. *)
Lemma fetch_response_paths env url clk st hs body (w : world) (p : string) :
  let path := get_cache_path env (get_cache_key md5_hexdigest url) in
  is_Some (dfs (fetch_url md5_hexdigest env url clk (UpResponse st hs body) w).2 !! p)
  <-> p = path \/ is_Some (dfs w !! p).
Proof.
  intros path. destruct (decide (p = path)) as [->|Hp].
  - split; [auto|]. intros _. unfold fetch_url, read_from_cache. fold path.
    destruct (dfs w !! path) as [f|] eqn:Hf; cbv zeta.
    + destruct (Py.Qltb _ _).
      * destruct (Py.fromhex _); simpl.
        -- rewrite Hf. eauto.
        -- unfold write_to_cache. fold path. rewrite lookup_insert_eq. eauto.
      * simpl. unfold write_to_cache. fold path. rewrite lookup_insert_eq. eauto.
    + simpl. unfold write_to_cache. fold path. rewrite lookup_insert_eq. eauto.
  - rewrite (fetch_url_keeps_path md5_hexdigest env url clk _ w p)
      by (intros E; apply Hp; symmetry; exact E).
    split; [auto|]. intros [E|H]; [contradiction|exact H].
Qed.

(** X7.  [clear_cache] on a directory without subdirectories returns
    [True]; it removes every file of [CACHE_DIR] whose name ends in
    [.json] and leaves every other file of the storage as it is.
    Afterwards [health_check] counts no entry and [get_stats] lists none. *)
Theorem clear_cache_removes_cache_files env (w : world) :
  CACHE_DIR env <> "" ->
  plain_directory (CACHE_DIR env) (dfs w) ->
  let out := clear_cache env w in
  out.1 = Returned true
  /\ outbound out.2 = outbound w
  /\ (forall p, dfs out.2 !! p =
                if is_cache_file (CACHE_DIR env) p then None else dfs w !! p)
  /\ (forall now, h_cache_entries (health_check env now out.2) = 0%nat)
  /\ s_cache_files (get_stats env out.2) = [].
Proof.
  intros Hdir Hplain out.
  destruct (clear_cache_run env Hdir w Hplain) as (d' & Hrun & Hd').
  unfold out. rewrite Hrun. simpl.
  assert (Hnone : cache_files env d' = []).
  { apply elem_of_nil_inv. intros n Hn. unfold cache_files in Hn.
    apply list_elem_of_filter in Hn. destruct Hn as [Hjson Hn].
    apply listdir_elem in Hn. destruct Hn as (p & Hp & He).
    rewrite Hd' in Hp. unfold is_cache_file in Hp. rewrite He, Hjson in Hp.
    destruct Hp as [x Hx]. discriminate. }
  split; [reflexivity|]. split; [reflexivity|]. split; [exact Hd'|].
  unfold health_check, get_stats. simpl. rewrite Hnone. split; reflexivity.
Qed.

(** X8.  [clear_cache] by one worker empties the cache of every worker
    that shares its [CACHE_DIR]: the next [fetch_url] of any URL (whose
    digest has no separator, as a hex digest has none), by any of them, is
    a miss and goes upstream. *)
Theorem clear_cache_reaches_every_worker envA envB url clk net (w : world) :
  CACHE_DIR envA = CACHE_DIR envB ->
  CACHE_DIR envA <> "" ->
  plain_directory (CACHE_DIR envA) (dfs w) ->
  Py.first_component (md5_hexdigest url) = md5_hexdigest url ->
  let cleared := (clear_cache envA w).2 in
  let out := fetch_url md5_hexdigest envB url clk net cleared in
  cached out.1 = false
  /\ outbound out.2 = (outbound w ++ [url])%list.
Proof.
  intros Hshare Hdir Hplain Hkey cleared out.
  destruct (clear_cache_run envA Hdir w Hplain) as (d' & Hrun & Hd').
  assert (Hgone : dfs cleared
                    !! get_cache_path envB (get_cache_key md5_hexdigest url) = None).
  { unfold cleared. rewrite Hrun. simpl. rewrite Hd'.
    rewrite <- (same_location md5_hexdigest envA envB url Hshare).
    destruct (cache_path_child envA url Hdir Hkey) as [_ ->]. reflexivity. }
  unfold out, fetch_url.
  rewrite (read_absent md5_hexdigest envB url _ _ Hgone).
  unfold cleared. rewrite Hrun.
  destruct net; simpl; auto.
Qed.

(** X9.  [health_check] counts one entry for each URL stored, however often
    it was fetched: a fetch that got a response adds one to the count when
    the URL had no file, and leaves the count as it was when it had one,
    fresh, expired or undecodable. *)
Theorem fetch_counts_each_url_once env url clk st hs body (w : world) now :
  CACHE_DIR env <> "" ->
  plain_directory (CACHE_DIR env) (dfs w) ->
  Py.first_component (md5_hexdigest url) = md5_hexdigest url ->
  let path := get_cache_path env (get_cache_key md5_hexdigest url) in
  let out := fetch_url md5_hexdigest env url clk (UpResponse st hs body) w in
  h_cache_entries (health_check env now out.2) =
    match dfs w !! path with
    | Some _ => h_cache_entries (health_check env now w)
    | None => S (h_cache_entries (health_check env now w))
    end.
Proof.
  intros Hdir Hplain Hkey path out.
  destruct (cache_file_name url Hkey) as (Hc & Hne & Hjson).
  destruct (cache_path_child env url Hdir Hkey) as [Hpath _]. fold path in Hpath.
  unfold health_check. simpl.
  pose proof (fun p => fetch_response_paths env url clk st hs body w p) as Hpaths.
  fold path in Hpaths. fold out in Hpaths.
  destruct (dfs w !! path) as [f|] eqn:Hf.
  - apply Permutation_length, cache_files_same_paths. intros p. rewrite Hpaths.
    split; [|auto]. intros [->|H]; [rewrite Hf; eauto|exact H].
  - assert (Hperm : cache_files env (dfs out.2)
                    ≡ₚ (md5_hexdigest url ++ ".json") :: cache_files env (dfs w)).
    { apply (cache_files_new_path env (dfs w) (dfs out.2) _ Hplain Hc Hne Hjson).
      - rewrite <- Hpath. exact Hf.
      - intros p. rewrite Hpaths, Hpath. reflexivity. }
    apply Permutation_length in Hperm. exact Hperm.
Qed.

(** X10.  [get_stats] and [health_check] report the same count; the sample
    of [get_stats] is the first names of the listing, ten at most, each the
    name, ending in [.json], of an entry of [CACHE_DIR]. *)
Theorem get_stats_sample env (w : world) now :
  let s := get_stats env w in
  s_cache_entries s = h_cache_entries (health_check env now w)
  /\ length (s_cache_files s) = Nat.min 10 (s_cache_entries s)
  /\ s_cache_files s `prefix_of` cache_files env (dfs w)
  /\ forall name, name ∈ s_cache_files s ->
       Py.endswith name ".json" = true
       /\ exists p, is_Some (dfs w !! p)
                    /\ Py.entry_name (CACHE_DIR env) p = Some name.
Proof.
  intros s. unfold s, get_stats, health_check.
  cbn [s_cache_entries s_cache_files h_cache_entries].
  split; [reflexivity|]. split; [apply length_take|].
  split; [apply prefix_take|].
  intros name Hin.
  assert (Hall : name ∈ cache_files env (dfs w)).
  { apply elem_of_take in Hin. destruct Hin as (i & Hi & _).
    apply list_elem_of_lookup. eauto. }
  unfold cache_files in Hall. apply list_elem_of_filter in Hall.
  destruct Hall as [Hjson Hn]. split; [exact Hjson|].
  apply listdir_elem. exact Hn.
Qed.

End CacheDirectory.

(** ** Requests in sequence *)

Section TurnArithmetic.

Variable n : nat.
Hypothesis n_pos : (0 < n)%nat.

Lemma mod_below_twice (x : nat) :
  (x < 2 * n)%nat -> (x mod n)%nat = if (x <? n)%nat then x else (x - n)%nat.
Proof.
  intros Hx. destruct (Nat.ltb_spec x n) as [Hlt|Hge].
  - apply Nat.mod_small. exact Hlt.
  - symmetry. apply (Nat.mod_unique x n 1); lia.
Qed.

Lemma div_succ (a : nat) :
  ((a + 1) / n)%nat
  = (a / n + if (a mod n =? n - 1)%nat then 1 else 0)%nat.
Proof.
  pose proof (Nat.div_mod_eq a n) as Ha.
  pose proof (Nat.mod_upper_bound a n ltac:(lia)) as Hr.
  destruct (Nat.eqb_spec (a mod n) (n - 1)) as [He|Hne].
  - symmetry. apply (Nat.div_unique (a + 1) n _ 0); nia.
  - symmetry. apply (Nat.div_unique (a + 1) n _ (a mod n + 1)); nia.
Qed.

(** The first turn that falls on position [i], counted from counter [c]. *)
Lemma turn_condition (c m i : nat) :
  (i < n)%nat ->
  ((c + m) mod n)%nat = i <-> (m mod n)%nat = ((i + n - c mod n) mod n)%nat.
Proof.
  intros Hi.
  pose proof (Nat.mod_upper_bound c n ltac:(lia)) as Hc.
  pose proof (Nat.mod_upper_bound m n ltac:(lia)) as Hm.
  rewrite (Nat.Div0.add_mod c m n).
  rewrite (mod_below_twice (c mod n + m mod n)) by lia.
  rewrite (mod_below_twice (i + n - c mod n)) by lia.
  destruct (Nat.ltb_spec (c mod n + m mod n) n);
    destruct (Nat.ltb_spec (i + n - c mod n) n); lia.
Qed.

Lemma turns_of_closed (c m i : nat) :
  (i < n)%nat ->
  turns_of n c m i = ((m + (n - 1 - (i + n - c mod n) mod n)) / n)%nat.
Proof.
  intros Hi. unfold turns_of.
  set (k := ((i + n - c mod n) mod n)%nat).
  assert (Hk : (k < n)%nat) by (apply Nat.mod_upper_bound; lia).
  induction m as [|m IH].
  - simpl. symmetry. apply Nat.div_small. lia.
  - rewrite seq_S, filter_app, length_app, IH, Nat.add_0_l, filter_cons, filter_nil.
    replace (S m + (n - 1 - k))%nat with ((m + (n - 1 - k)) + 1)%nat by lia.
    rewrite div_succ. f_equal.
    pose proof (turn_condition c m i Hi) as Hturn. fold k in Hturn.
    pose proof (Nat.mod_upper_bound m n ltac:(lia)) as Hm.
    assert (Hmod : ((m + (n - 1 - k)) mod n)%nat = (n - 1)%nat <-> (m mod n)%nat = k).
    { rewrite (Nat.Div0.add_mod m (n - 1 - k) n).
      rewrite (Nat.mod_small (n - 1 - k) n) by lia.
      rewrite (mod_below_twice (m mod n + (n - 1 - k))) by lia.
      destruct (Nat.ltb_spec (m mod n + (n - 1 - k)) n); lia. }
    destruct (decide ((c + m) mod n = i)%nat) as [Hyes|Hno];
      destruct (Nat.eqb_spec ((m + (n - 1 - k)) mod n) (n - 1)) as [He|Hne];
      try reflexivity; exfalso; tauto.
Qed.

End TurnArithmetic.

Section Dispatch.

Import Proxy.

Variable urlparse_netloc : string -> option string.

(** A request that found a worker has made one RPC call, to that worker,
    and has left the list objects and the global alone, whether its
    handler returned or raised. *)
Lemma do_GET_dispatch env client_ip path (w w1 : world) worker_url :
  get_worker w = (Ok (Some worker_url), w1) ->
  worker_url <> "" ->
  let out := do_GET urlparse_netloc env client_ip path w in
  calls out.2 = (calls w ++ [(worker_url, "fetch_url")])%list
  /\ index out.2 = index w1
  /\ heap out.2 = heap w /\ active_workers out.2 = active_workers w.
Proof.
  intros Hg Hne out.
  destruct (do_GET_outcome urlparse_netloc env client_ip path w)
    as ((H1 & H2) & _ & _ & Hcalls).
  destruct (Hcalls worker_url w1 Hg Hne) as [H3 H4]. auto.
Qed.

Lemma active_list_only (w w' : world) :
  heap w' = heap w -> active_workers w' = active_workers w ->
  active_list w' = active_list w.
Proof. unfold active_list. intros -> ->. reflexivity. Qed.

(** The thread of a request ends normally in the world its handler
    left. *)
Lemma process_request_thread_run env client_ip path (w : world) :
  process_request_thread urlparse_netloc env client_ip path w
  = (Ok tt, (do_GET urlparse_netloc env client_ip path w).2).
Proof.
  unfold process_request_thread, try_except.
  destruct (do_GET urlparse_netloc env client_ip path w) as [[[]|e] w1]; reflexivity.
Qed.

Lemma handle_all_cons (r : request) (reqs : list request) (w : world) :
  handle_all urlparse_netloc (r :: reqs) w =
  handle_all urlparse_netloc reqs
    (do_GET urlparse_netloc (rq_env r) (rq_client_ip r) (rq_path r) w).2.
Proof.
  unfold handle_all. cbn [for_each]. rewrite bind_run, process_request_thread_run.
  reflexivity.
Qed.

Lemma handle_all_dispatch (reqs : list request) : forall w : world,
  active_list w <> [] ->
  Forall (fun u => u <> "") (active_list w) ->
  let ws := active_list w in
  let out := handle_all urlparse_netloc reqs w in
  out.1 = Ok tt
  /\ calls out.2 =
       (calls w ++ map (fun c => (default "" (ws !! (c mod length ws)%nat), "fetch_url"))
                     (seq (index w) (length reqs)))%list
  /\ index out.2 = (index w + length reqs)%nat
  /\ heap out.2 = heap w /\ active_workers out.2 = active_workers w.
Proof.
  induction reqs as [|r reqs IH]; intros w Hne Hall ws out.
  - unfold out. simpl. rewrite app_nil_r, Nat.add_0_r. auto.
  - destruct (get_worker_nonempty w Hne) as [u [Hu Hg]].
    assert (Hblank : u <> "").
    { apply (proj1 (Forall_forall _ _) Hall). apply list_elem_of_lookup. eauto. }
    destruct (do_GET_dispatch (rq_env r) (rq_client_ip r) (rq_path r) w _ u Hg Hblank)
      as (H2 & H3 & H4 & H5).
    set (w1 := (do_GET urlparse_netloc (rq_env r) (rq_client_ip r) (rq_path r) w).2)
      in *.
    assert (Hws : active_list w1 = ws) by (apply active_list_only; assumption).
    destruct (IH w1) as (G1 & G2 & G3 & G4 & G5).
    { rewrite Hws. exact Hne. }
    { rewrite Hws. exact Hall. }
    assert (Hstep : out = handle_all urlparse_netloc reqs w1).
    { unfold out. rewrite handle_all_cons. reflexivity. }
    rewrite Hstep. simpl in H3.
    rewrite Hws in G2. rewrite G2, G3, G4, G5, H2, H3, H4, H5.
    split; [exact G1|]. split.
    + rewrite <- app_assoc. simpl. unfold ws. rewrite Hu. reflexivity.
    + split; [simpl; lia|auto].
Qed.

(** X11.  Requests handled in sequence, each in its thread, under a fixed
    active list (not empty, no blank entry) take the workers in turn: each
    request makes exactly one RPC call, the request number [j] to the
    worker at position [(c + j) mod n] for the counter [c] at the start,
    whatever the earlier calls returned or raised: a failed call is not
    retried on another worker, and the worker that failed keeps its turn.
    A handler that raises is caught by the thread of its request, and the
    run goes on with the next request. *)
Theorem requests_take_turns (reqs : list request) (w : world) :
  active_list w <> [] ->
  Forall (fun u => u <> "") (active_list w) ->
  let ws := active_list w in
  let out := handle_all urlparse_netloc reqs w in
  out.1 = Ok tt
  /\ calls out.2 =
       (calls w ++ map (fun c => (default "" (ws !! (c mod length ws)%nat), "fetch_url"))
                     (seq (index w) (length reqs)))%list
  /\ index out.2 = (index w + length reqs)%nat
  /\ active_list out.2 = ws.
Proof.
  intros Hne Hall ws out.
  destruct (handle_all_dispatch reqs w Hne Hall) as (H1 & H2 & H3 & H4 & H5).
  split; [exact H1|]. split; [exact H2|]. split; [exact H3|].
  apply active_list_only; assumption.
Qed.

Lemma length_filter_map {B C} (P : C -> Prop) `{forall x, Decision (P x)}
    (f : B -> C) (l : list B) :
  length (filter P (map f l)) = length (filter (fun x => P (f x)) l).
Proof.
  induction l as [|x l IH]; [reflexivity|].
  simpl. rewrite !filter_cons. destruct (decide (P (f x))); simpl; rewrite IH;
    reflexivity.
Qed.

Lemma length_filter_ext {B} (P Q : B -> Prop) `{forall x, Decision (P x)}
    `{forall x, Decision (Q x)} (l : list B) :
  (forall x, x ∈ l -> P x <-> Q x) ->
  length (filter P l) = length (filter Q l).
Proof.
  induction l as [|x l IH]; intros Hext; [reflexivity|].
  rewrite !filter_cons.
  assert (Hx : P x <-> Q x) by (apply Hext; apply elem_of_cons; auto).
  assert (Hl : length (filter P l) = length (filter Q l)).
  { apply IH. intros y Hy. apply Hext. apply elem_of_cons. auto. }
  destruct (decide (P x)), (decide (Q x)); simpl; try rewrite Hl; try reflexivity;
    tauto.
Qed.

(** X12.  The turns are shared fairly.  Under a fixed active list of [n]
    distinct workers, after [m] requests counted from the counter [c], the
    worker at position [i] has received [(m + n - 1 - k) / n] of the [m]
    calls, where [k = (i + n - c mod n) mod n] is the number of requests
    before its first turn: the numbers of two workers differ by one at
    most, and from [c = 0] the worker at position [i] gets the requests
    [i], [i + n], [i + 2n], ... *)
Theorem round_robin_is_fair (reqs : list request) (w : world) (i : nat) (u : string) :
  NoDup (active_list w) ->
  Forall (fun u => u <> "") (active_list w) ->
  active_list w !! i = Some u ->
  let n := length (active_list w) in
  let m := length reqs in
  let out := handle_all urlparse_netloc reqs w in
  length (filter (fun e => e = u) (calls_after (length (calls w)) out.2))
  = ((m + (n - 1 - (i + n - index w mod n) mod n)) / n)%nat.
Proof.
  intros Hnodup Hall Hi n m out.
  assert (Hne : active_list w <> []) by (intros E; rewrite E in Hi; discriminate).
  assert (Hin : (i < n)%nat) by (apply lookup_lt_is_Some_1; eauto).
  destruct (handle_all_dispatch reqs w Hne Hall) as (_ & Hcalls & _).
  fold out in Hcalls. unfold calls_after. rewrite Hcalls, drop_app_length.
  rewrite <- (turns_of_closed n ltac:(lia) (index w) m i Hin).
  unfold turns_of. fold n m.
  replace (seq (index w) m) with (map (Nat.add (index w)) (seq 0 m))
    by (rewrite <- (Nat.add_0_r (index w)) at 2; apply (fmap_add_seq (index w) 0 m)).
  rewrite map_map.
  change (fmap fst (map ?f ?l)) with (map fst (map f l)). rewrite map_map.
  rewrite length_filter_map.
  apply length_filter_ext. intros j _. simpl.
  assert (Hj : ((index w + j) mod n < n)%nat) by (apply Nat.mod_upper_bound; lia).
  destruct (lookup_lt_is_Some_2 (active_list w) _ Hj) as [v Hv].
  rewrite Hv. simpl. split.
  - intros ->. apply (NoDup_lookup _ _ _ _ Hnodup Hv Hi).
  - intros E. rewrite E in Hv. congruence.
Qed.

End Dispatch.

Section IncompleteReplies.

Import Proxy.

Variable urlparse_netloc : string -> option string.

(** X13.  A reply without ['status'] is answered with 502 before anything
    else is sent: the client gets the 502 error alone, with the text of the
    [KeyError], and the request is logged, through [log_access], with
    status 502, the endpoint that was called, not cached, and the time
    elapsed when the exception was caught. *)
Theorem reply_without_status_gives_502 env client_ip path (w w1 : world)
    worker_url r :
  get_worker w = (Ok (Some worker_url), w1) ->
  worker_url <> "" ->
  rpc env worker_url (target_url path) = Reply r ->
  r_status r = None ->
  let out := do_GET urlparse_netloc env client_ip path w in
  out.1 = Ok tt
  /\ client out.2 = (client w ++ [send_error 502 "RPC Error: 'status'"])%list
  /\ calls out.2 = (calls w ++ [(worker_url, "fetch_url")])%list
  /\ log_file out.2 =
       (log_file w ++ logged urlparse_netloc (log_stamp env) client_ip "GET"
                        (target_url path) 502 worker_url false
                        ((t_except env - t_start env) * 1000)%Q)%list.
Proof.
  intros Hg Hne Hrpc Hst out. unfold out.
  rewrite (do_GET_reply_without_status _ _ _ _ _ _ _ _ Hg Hne Hrpc Hst),
    log_access_run.
  destruct (get_worker_world _ _ _ Hg) as [i ->]. auto.
Qed.


End IncompleteReplies.

Section Monitor.

Import Proxy.

Variable WORKERS : list string.

Lemma check_workers_frame probe (w : world) :
  let w' := (check_workers WORKERS probe w).2 in
  client w' = client w /\ log_file w' = log_file w
  /\ calls w' = (calls w ++ map (fun u => (u, "health_check"))
                              (probed_endpoints WORKERS))%list
  /\ is_Some (heap w' !! active_workers w').
Proof.
  destruct (check_workers_loop WORKERS probe w)
    as (E & Hlive & _ & _ & _ & Hc & Hl & Hcalls).
  cbv zeta. rewrite E. simpl. rewrite Hlive. eauto.
Qed.

Lemma live_endpoints_not_blank probe (i : nat) (ws : list string) :
  Forall (fun u => u <> "") (live_endpoints probe i ws).
Proof.
  apply Forall_forall. intros u Hu. apply live_endpoints_elem in Hu.
  destruct Hu as (j & raw & _ & _ & Hne & _). exact Hne.
Qed.

Lemma monitor_snoc (rounds : list (nat -> string -> health_outcome)) probe
    (w : world) :
  worker_health_monitor WORKERS (rounds ++ [probe]) w
  = (check_workers WORKERS probe (worker_health_monitor WORKERS rounds w)).2.
Proof. unfold worker_health_monitor. rewrite foldl_app. reflexivity. Qed.

(** X15.  The health monitor keeps no history.  After any number of rounds
    the active list is what the last round found, whatever the rounds
    before it found: an endpoint that failed before is back as soon as it
    answers, one that answered before is out as soon as it fails once.  The
    rounds leave the round-robin counter, the connection and the access log
    alone, and each round calls every configured endpoint once. *)
Theorem monitor_keeps_last_round
    (rounds : list (nat -> string -> health_outcome)) probe (w : world) :
  let w' := worker_health_monitor WORKERS (rounds ++ [probe]) w in
  active_list w' = live_endpoints probe 0 WORKERS
  /\ index w' = index w /\ client w' = client w /\ log_file w' = log_file w
  /\ calls w' =
       (calls w ++ mjoin (replicate (S (length rounds))
                            (map (fun u => (u, "health_check"))
                               (probed_endpoints WORKERS))))%list
  /\ is_Some (heap w' !! active_workers w').
Proof.
  cbv zeta. rewrite monitor_snoc.
  set (v := worker_health_monitor WORKERS rounds w).
  assert (Hv : index v = index w /\ client v = client w /\ log_file v = log_file w
               /\ calls v = (calls w ++ mjoin (replicate (length rounds)
                                      (map (fun u => (u, "health_check"))
                                         (probed_endpoints WORKERS))))%list).
  { unfold v. clear v. induction rounds as [|pr rounds IH] using rev_ind.
    - unfold worker_health_monitor. simpl. rewrite app_nil_r. auto.
    - rewrite monitor_snoc.
      destruct IH as (I1 & I2 & I3 & I4).
      destruct (check_workers_frame pr (worker_health_monitor WORKERS rounds w))
        as (F1 & F2 & F3 & _).
      rewrite check_workers_index, F1, F2, F3, I4, length_app.
      cbn [length]. rewrite Nat.add_1_r, replicate_S_end, join_app.
      cbn [mjoin list_join]. rewrite app_nil_r, app_assoc. auto. }
  destruct Hv as (I1 & I2 & I3 & I4).
  destruct (check_workers_frame probe v) as (F1 & F2 & F3 & F4).
  rewrite check_workers_active, check_workers_index, F1, F2, F3, I4.
  split; [reflexivity|]. split; [exact I1|]. split; [exact I2|].
  split; [exact I3|]. split; [|exact F4].
  rewrite <- app_assoc. f_equal.
  rewrite replicate_S_end, join_app. cbn [mjoin list_join].
  rewrite app_nil_r. reflexivity.
Qed.

(** X16.  The request that follows a probe round goes to an endpoint of
    that round's live list, that is to a configured endpoint that has just
    answered ["ok"]; when the round found none, the request is answered
    with 503 and no RPC call is made. *)
Theorem request_after_probe_round urlparse_netloc probe env client_ip path
    (w : world) :
  let w1 := (check_workers WORKERS probe w).2 in
  let out := do_GET urlparse_netloc env client_ip path w1 in
  match live_endpoints probe 0 WORKERS with
  | [] =>
      client out.2 = (client w ++ [send_error 503 "No RPC workers available"])%list
      /\ calls out.2 = calls w1
  | _ :: _ =>
      exists u i raw,
        WORKERS !! i = Some raw /\ Py.strip raw = u /\ u <> ""
        /\ probe i u = HealthReply (Some "ok")
        /\ calls out.2 = (calls w1 ++ [(u, "fetch_url")])%list
  end.
Proof.
  intros w1 out.
  pose proof (check_workers_active WORKERS probe w) as Hactive.
  destruct (check_workers_frame probe w) as (F1 & _).
  change ((check_workers WORKERS probe w).2) with w1 in Hactive, F1.
  clearbody w1.
  destruct (live_endpoints probe 0 WORKERS) as [|a l] eqn:Hlive.
  - unfold out. rewrite (do_GET_no_worker _ _ _ _ _ Hactive), log_access_run.
    simpl. rewrite F1. auto.
  - destruct (get_worker_nonempty w1) as [u [Hu Hg]]; [rewrite Hactive; discriminate|].
    assert (Hin : u ∈ live_endpoints probe 0 WORKERS).
    { rewrite Hlive, <- Hactive. apply list_elem_of_lookup. eauto. }
    apply live_endpoints_elem in Hin. destruct Hin as (i & raw & H1 & H2 & H3 & H4).
    exists u, i, raw. split; [exact H1|]. split; [exact H2|]. split; [exact H3|].
    split; [exact H4|].
    destruct (do_GET_dispatch urlparse_netloc env client_ip path w1 _ u Hg H3)
      as (Hcalls & _).
    exact Hcalls.
Qed.

End Monitor.

(** ** The storage that the workers build *)

Section StorageInvariant.

Import Worker.

Variable md5_hexdigest : string -> string.

Lemma only_cache_files_plain {A} (dir : string) (d : gmap string A) :
  only_cache_files dir d -> plain_directory dir d.
Proof.
  intros Hd p rest Hp Hs. destruct (Hd p Hp) as (name & -> & Hc & _).
  rewrite strip_prefix_app in Hs. injection Hs as <-. exact Hc.
Qed.

Lemma fetch_url_paths env url clk net (w : world) (p : string) :
  is_Some (dfs (fetch_url md5_hexdigest env url clk net w).2 !! p) ->
  p = get_cache_path env (get_cache_key md5_hexdigest url) \/ is_Some (dfs w !! p).
Proof.
  intros Hp.
  destruct (decide (get_cache_path env (get_cache_key md5_hexdigest url) = p))
    as [E|E]; [left; symmetry; exact E|right].
  rewrite <- (fetch_url_keeps_path md5_hexdigest env url clk net w p E). exact Hp.
Qed.

(** The workers of one [CACHE_DIR] write cache files only, in the directory
    itself. *)
Lemma run_fetches_only_cache_files (dir : string) (calls : list fetch_call) :
  dir <> "" ->
  Forall (fun c => CACHE_DIR (fc_environ c) = dir
                   /\ Py.first_component (md5_hexdigest (fc_url c))
                      = md5_hexdigest (fc_url c)) calls ->
  forall w : world,
  only_cache_files dir (dfs w) ->
  only_cache_files dir (dfs (run_fetches md5_hexdigest calls w)).
Proof.
  intros Hdir Hall. induction Hall as [|c calls [Hc Hkey] _ IH]; intros w Hw.
  - exact Hw.
  - unfold run_fetches in *. simpl. apply IH. intros p Hp.
    apply fetch_url_paths in Hp. destruct Hp as [->|Hp]; [|exact (Hw p Hp)].
    assert (Hdir' : CACHE_DIR (fc_environ c) <> "") by (rewrite Hc; exact Hdir).
    destruct (cache_path_child md5_hexdigest (fc_environ c) (fc_url c) Hdir' Hkey)
      as [-> _].
    destruct (cache_file_name md5_hexdigest (fc_url c) Hkey) as (H1 & H2 & H3).
    rewrite Hc. eauto.
Qed.

(** X17.  The workers never put anything but cache files into the shared
    directory, so [clear_cache] cannot fail on what they stored: after any
    run of [fetch_url] calls by workers of one [CACHE_DIR], started on an
    empty storage, [clear_cache] by any of them returns [True] and leaves
    the storage empty. *)
Theorem clear_cache_after_any_run env (calls : list fetch_call) :
  CACHE_DIR env <> "" ->
  Forall (fun c => CACHE_DIR (fc_environ c) = CACHE_DIR env
                   /\ Py.first_component (md5_hexdigest (fc_url c))
                      = md5_hexdigest (fc_url c)) calls ->
  let w := run_fetches md5_hexdigest calls {| dfs := ∅; outbound := [] |} in
  clear_cache env w = (Returned true, {| dfs := ∅; outbound := outbound w |}).
Proof.
  intros Hdir Hall w.
  assert (Hw : only_cache_files (CACHE_DIR env) (dfs w)).
  { apply (run_fetches_only_cache_files _ _ Hdir Hall). intros p [x Hx].
    simpl in Hx. rewrite lookup_empty in Hx. discriminate. }
  destruct (clear_cache_run env Hdir w (only_cache_files_plain _ _ Hw))
    as (d' & -> & Hd').
  f_equal. f_equal. apply map_empty. intros p. rewrite Hd'.
  destruct (dfs w !! p) as [f|] eqn:Hp.
  - destruct (Hw p (ex_intro _ f Hp)) as (name & -> & Hc & Hne & Hjson).
    unfold is_cache_file. rewrite (entry_name_child _ _ Hc Hne), Hjson. reflexivity.
  - destruct (is_cache_file (CACHE_DIR env) p); reflexivity.
Qed.

End StorageInvariant.

(** ** The log analytics *)

Lemma has_char_false_count (c : ascii) (s : string) :
  has_char c s = false -> count_char c s = 0%nat.
Proof.
  induction s as [|d s IH]; [reflexivity|].
  cbn [has_char count_char]. rewrite (Ascii.eqb_sym c d). intros H.
  apply orb_false_iff in H. destruct H as [-> Hs]. rewrite (IH Hs). reflexivity.
Qed.

Lemma append_nil_l (s : string) : "" ++ s = s.
Proof. reflexivity. Qed.

(** The line of a record without its end of line. *)
Lemma strip_log_line (r : Proxy.access_record) :
  starts_blank (Proxy.ar_timestamp r) = false ->
  Py.strip (Proxy.log_line r)
  = Proxy.ar_timestamp r ++ String "|" (Proxy.ar_client_ip r ++ String "|"
      (Proxy.ar_method r ++ String "|" (Proxy.ar_url r ++ String "|"
      (Proxy.ar_domain r ++ String "|" (Py.str_int (Proxy.ar_status r) ++ String "|"
      (Proxy.ar_worker r ++ String "|" (Py.str_bool (Proxy.ar_cached r) ++ String "|"
      (Py.format_2f (Proxy.ar_response_time r))))))))).
Proof.
  intros Hts. unfold Py.strip, Proxy.log_line.
  rewrite !append_cons, !append_nil_l.
  rewrite lstrip_clean.
  2:{ destruct (Proxy.ar_timestamp r); [reflexivity|exact Hts]. }
  assert (Hlast : Py.rstrip (Py.format_2f (Proxy.ar_response_time r) ++ Proxy.newline)
                  = Py.format_2f (Proxy.ar_response_time r))
    by apply rstrip_newline, format_2f_numeric.
  assert (Hne : forall c s, Py.rstrip s <> "" -> Py.rstrip (String c s) <> "").
  { intros c s Hs. cbn [Py.rstrip]. destruct (Py.rstrip s); [contradiction|discriminate]. }
  assert (Hfmt : Py.rstrip (Py.format_2f (Proxy.ar_response_time r) ++ Proxy.newline) <> "").
  { rewrite Hlast. unfold Py.format_2f. cbv zeta.
    destruct (Py.Qltb _ _); destruct (Py.str_int _); discriminate. }
  assert (Hstep : forall a c s t, Py.rstrip s = t -> t <> "" ->
            Py.rstrip (a ++ String c s) = a ++ String c t
            /\ a ++ String c t <> "").
  { intros a c s t Hs Ht. split.
    - rewrite rstrip_app by (apply Hne; rewrite Hs; exact Ht).
      cbn [Py.rstrip]. rewrite Hs. destruct t; [contradiction|reflexivity].
    - destruct a; discriminate. }
  rewrite Hlast in Hfmt.
  destruct (Hstep (Py.str_bool (Proxy.ar_cached r)) "|"%char _ _ Hlast Hfmt) as [H8 N8].
  destruct (Hstep (Proxy.ar_worker r) "|"%char _ _ H8 N8) as [H7 N7].
  destruct (Hstep (Py.str_int (Proxy.ar_status r)) "|"%char _ _ H7 N7) as [H6 N6].
  destruct (Hstep (Proxy.ar_domain r) "|"%char _ _ H6 N6) as [H5 N5].
  destruct (Hstep (Proxy.ar_url r) "|"%char _ _ H5 N5) as [H4 N4].
  destruct (Hstep (Proxy.ar_method r) "|"%char _ _ H4 N4) as [H3 N3].
  destruct (Hstep (Proxy.ar_client_ip r) "|"%char _ _ H3 N3) as [H2 N2].
  destruct (Hstep (Proxy.ar_timestamp r) "|"%char _ _ H2 N2) as [H1 _].
  exact H1.
Qed.

Lemma str_bool_no_pipe (b : bool) : has_char "|" (Py.str_bool b) = false.
Proof. destruct b; reflexivity. Qed.

Section MapperProperties.

Import Analytics.

Variable float : string -> option Q.

Lemma mapper_arity (line : string) :
  length (Py.split "|" (Py.strip line)) <> 9%nat -> mapper float line = [].
Proof.
  intros H. unfold mapper. cbv zeta.
  destruct (length _ <? 9)%nat; [reflexivity|].
  destruct (Py.split "|" (Py.strip line))
    as [|a [|b [|c [|d [|e [|f [|g [|h [|i [|j rest]]]]]]]]]]; try reflexivity.
  simpl in H. lia.
Qed.

(** X18.  [mapper] reads a line only when it has exactly eight separators:
    a line with fewer is given up by the length test, a line with more by
    the unpacking, whose exception is caught.  What it emits is nothing or
    the seven pairs. *)
Theorem mapper_needs_nine_fields (line : string) :
  (count_char "|" line <> 8%nat -> mapper float line = [])
  /\ (mapper float line = [] \/ length (mapper float line) = 7%nat).
Proof.
  split.
  - intros H. apply mapper_arity. rewrite split_length, count_char_strip by reflexivity.
    lia.
  - unfold mapper. cbv zeta. destruct (length _ <? 9)%nat; [auto|].
    destruct (Py.split "|" (Py.strip line))
      as [|a [|b [|c [|d [|e [|f [|g [|h [|i [|j rest]]]]]]]]]]; auto.
    destruct (float i); auto.
Qed.

(** The fields of the line of a record without separator in its fields. *)
Lemma split_log_line (r : Proxy.access_record) :
  pipe_free r ->
  starts_blank (Proxy.ar_timestamp r) = false ->
  Py.split "|" (Py.strip (Proxy.log_line r))
  = [Proxy.ar_timestamp r; Proxy.ar_client_ip r; Proxy.ar_method r;
     Proxy.ar_url r; Proxy.ar_domain r; Py.str_int (Proxy.ar_status r);
     Proxy.ar_worker r; Py.str_bool (Proxy.ar_cached r);
     Py.format_2f (Proxy.ar_response_time r)].
Proof.
  intros (P1 & P2 & P3 & P4 & P5 & P6) Hts.
  rewrite (strip_log_line r Hts).
  rewrite (split_app_sep _ _ _ P1), (split_app_sep _ _ _ P2),
    (split_app_sep _ _ _ P3), (split_app_sep _ _ _ P4), (split_app_sep _ _ _ P5),
    (split_app_sep _ _ _ (all_chars_no_pipe _ (str_int_numeric _))),
    (split_app_sep _ _ _ P6), (split_app_sep _ _ _ (str_bool_no_pipe _)),
    (split_no_sep _ _ (all_chars_no_pipe _ (format_2f_numeric _))).
  reflexivity.
Qed.


(** X19.  [mapper] reads back what [log_access] wrote.  For a record whose
    free fields hold no separator, the line of the record gives the pairs
    of its domain, cache flag, worker and status, the response time as
    [float] reads the two-decimal text, and the hour of the timestamp; when
    [float] rejects the text, nothing. *)
Theorem mapper_reads_log_line (r : Proxy.access_record) :
  pipe_free r ->
  starts_blank (Proxy.ar_timestamp r) = false ->
  mapper float (Proxy.log_line r)
  = match float (Py.format_2f (Proxy.ar_response_time r)) with
    | Some seconds => pairs_of r seconds
    | None => []
    end.
Proof.
  intros Hfree Hts. unfold mapper.
  rewrite (split_log_line r Hfree Hts). cbv zeta.
  change (length _ <? 9)%nat with false. cbv iota.
  destruct (float (Py.format_2f (Proxy.ar_response_time r))); reflexivity.
Qed.

Section Unreadable.

Variable urlparse_netloc : string -> option string.


End Unreadable.

End MapperProperties.

Section MapReduceProperties.

Import Analytics.

Variable float : string -> option Q.

Lemma values_of_app (key : string * string) (l1 l2 : list ((string * string) * num)) :
  values_of key (l1 ++ l2)%list = (values_of key l1 ++ values_of key l2)%list.
Proof. unfold values_of. rewrite filter_app, fmap_app. reflexivity. Qed.

Lemma values_of_cons (key : string * string) (kv : (string * string) * num) l :
  values_of key (kv :: l)
  = if decide (kv.1 = key) then kv.2 :: values_of key l else values_of key l.
Proof.
  unfold values_of. rewrite filter_cons. destruct (decide (kv.1 = key)); reflexivity.
Qed.

(** The grouping, from any dictionary built so far. *)
Lemma shuffle_fold (key : string * string) (l : list ((string * string) * num)) :
  forall grouped : gmap (string * string) (list num),
  foldl (fun grouped kv =>
           <[kv.1 := (default [] (grouped !! kv.1) ++ [kv.2])%list]> grouped)
        grouped l !! key
  = match values_of key l with
    | [] => grouped !! key
    | vs => Some (default [] (grouped !! key) ++ vs)%list
    end.
Proof.
  induction l as [|kv l IH]; intros grouped; [reflexivity|].
  cbn [foldl]. rewrite IH, values_of_cons.
  destruct (decide (kv.1 = key)) as [->|Hk].
  - rewrite lookup_insert_eq.
    destruct (values_of key l); [reflexivity|].
    change (default [] (Some ?x)) with x. rewrite <- app_assoc. reflexivity.
  - rewrite lookup_insert_ne by exact Hk. reflexivity.
Qed.

(** [shuffle] groups the values by key, in order, and [reducer] sums
    them. *)
Lemma run_mapreduce_lookup (lines : list string) (key : string * string) :
  exists results,
    run_mapreduce float (Some lines) = Some results
    /\ results !! key
       = match values_of key (mjoin (map (mapper float) lines)) with
         | [] => None
         | vs => Some (sum vs)
         end.
Proof.
  eexists. split; [reflexivity|].
  rewrite map_lookup_imap. unfold shuffle. rewrite shuffle_fold, lookup_empty.
  destruct (values_of key _); [reflexivity|].
  cbn [default app mbind option_bind]. unfold reducer.
  destruct (_ && _); reflexivity.
Qed.

Lemma sum_ones (n : nat) (a : Z) :
  foldl add (Int a) (replicate n (Int 1)) = Int (a + Z.of_nat n).
Proof.
  revert a. induction n as [|n IH]; intros a.
  - simpl. f_equal. lia.
  - cbn [replicate foldl add]. rewrite IH. f_equal. lia.
Qed.

Lemma tally_ones (n : nat) :
  match replicate n (Int 1) with
  | [] => None
  | vs => Some (sum vs)
  end = tally n.
Proof.
  destruct n as [|n]; [reflexivity|].
  change (replicate (S n) (Int 1)) with (Int 1 :: replicate n (Int 1)).
  unfold sum, tally. cbn [foldl add]. rewrite sum_ones. do 2 f_equal. lia.
Qed.

(** The keys of the pairs of one line are distinct, and every value but
    the response time is [1]. *)
Lemma mapper_keys (line : string) :
  NoDup (mapper float line).*1
  /\ forall kv, kv ∈ mapper float line ->
       kv.1 <> ("response_time", "total") -> kv.2 = Int 1.
Proof.
  unfold mapper. cbv zeta.
  destruct (length _ <? 9)%nat; [split; [constructor|intros kv H; inversion H]|].
  destruct (Py.split "|" (Py.strip line))
    as [|a [|b [|c [|d [|e [|f [|g [|h [|i [|j rest]]]]]]]]]];
    try (split; [constructor|intros kv H; inversion H]).
  destruct (float i) as [seconds|];
    [|split; [constructor|intros kv H; inversion H]].
  split.
  - cbn [fmap list_fmap fst].
    repeat (apply NoDup_cons; split;
            [rewrite ?elem_of_cons, elem_of_nil; intros H;
             repeat (destruct H as [H|H]; [discriminate H|]); exact H|]).
    apply NoDup_nil_2.
  - intros kv H Hk. rewrite !elem_of_cons, elem_of_nil in H.
    repeat (destruct H as [H|H]; [subst kv; try reflexivity; contradiction|]).
    contradiction.
Qed.

Lemma values_of_distinct (key : string * string) (l : list ((string * string) * num)) :
  NoDup l.*1 ->
  (forall kv, kv ∈ l -> kv.1 = key -> kv.2 = Int 1) ->
  values_of key l = if decide (key ∈ l.*1) then [Int 1] else [].
Proof.
  induction l as [|kv l IH]; intros Hnd Hone.
  - unfold values_of. simpl. destruct (decide (key ∈ [])) as [H|_]; [inversion H|reflexivity].
  - rewrite fmap_cons in Hnd. apply NoDup_cons in Hnd. destruct Hnd as [Hnew Hnd].
    rewrite values_of_cons, IH;
      [|exact Hnd|intros kv' H; apply Hone; apply elem_of_cons; auto].
    rewrite fmap_cons.
    destruct (decide (kv.1 = key)) as [E|E].
    + rewrite (Hone kv (list_elem_of_here _ _) E).
      destruct (decide (key ∈ l.*1)) as [H|_]; [rewrite <- E in H; contradiction|].
      destruct (decide (key ∈ kv.1 :: l.*1)) as [_|H]; [reflexivity|].
      exfalso. apply H. rewrite E. apply list_elem_of_here.
    + destruct (decide (key ∈ l.*1)) as [H|H];
        destruct (decide (key ∈ kv.1 :: l.*1)) as [H'|H']; try reflexivity.
      * exfalso. apply H'. apply elem_of_cons. auto.
      * exfalso. apply elem_of_cons in H'. destruct H' as [H'|H']; [congruence|auto].
Qed.

Lemma values_of_lines (key : string * string) (lines : list string) :
  key <> ("response_time", "total") ->
  values_of key (mjoin (map (mapper float) lines))
  = replicate (length (filter (fun line => key ∈ (mapper float line).*1) lines))
              (Int 1).
Proof.
  intros Hkey. induction lines as [|line lines IH]; [reflexivity|].
  change (mjoin (map (mapper float) (line :: lines)))
    with (mapper float line ++ mjoin (map (mapper float) lines))%list.
  rewrite values_of_app, IH, filter_cons.
  destruct (mapper_keys line) as [Hnd Hone].
  rewrite (values_of_distinct key _ Hnd).
  - destruct (decide (key ∈ (mapper float line).*1)); reflexivity.
  - intros kv Hin E. apply (Hone kv Hin). rewrite E. exact Hkey.
Qed.

(** X21.  [run_mapreduce] on an existing log returns a dictionary in which
    every key but the total of the response times holds the number of
    lines whose pairs carry that key, and a key that no line carries has
    no entry: lines that [mapper] gave up count for nothing. *)
Theorem mapreduce_counts_lines (lines : list string) (key : string * string) :
  key <> ("response_time", "total") ->
  exists results,
    run_mapreduce float (Some lines) = Some results
    /\ results !! key
       = tally (length (filter (fun line => key ∈ (mapper float line).*1) lines)).
Proof.
  intros Hkey. destruct (run_mapreduce_lookup lines key) as (results & Hrun & Hk).
  exists results. split; [exact Hrun|].
  rewrite Hk, (values_of_lines key lines Hkey). apply tally_ones.
Qed.

End MapReduceProperties.

(** *** The lines that [readlines] gives back *)

Lemma numeric_no_line_break (s : string) :
  all_chars numeric_char s = true -> no_line_break s = true.
Proof.
  unfold no_line_break. induction s as [|c s IH]; [reflexivity|].
  cbn [all_chars has_char]. intros H. apply andb_true_iff in H.
  destruct H as [Hc Hs]. specialize (IH Hs). apply andb_true_iff in IH.
  destruct IH as [H1 H2]. apply negb_true_iff in H1. apply negb_true_iff in H2.
  rewrite H1, H2, !orb_false_r.
  destruct c as [[] [] [] [] [] [] [] []]; try discriminate Hc; reflexivity.
Qed.

(** A piece without line break stays in the line that follows it. *)
Lemma readlines_prefix (a rest line : string) (lines : list string) :
  no_line_break a = true ->
  Py.readlines rest = line :: lines ->
  Py.readlines (a ++ rest) = (a ++ line) :: lines.
Proof.
  intros Ha Hrest. induction a as [|c a IH]; [exact Hrest|].
  unfold no_line_break in Ha. cbn [has_char] in Ha.
  apply andb_true_iff in Ha. destruct Ha as [H1 H2].
  apply negb_true_iff in H1. apply negb_true_iff in H2.
  apply orb_false_iff in H1. destruct H1 as [Hlf H1].
  apply orb_false_iff in H2. destruct H2 as [Hcr H2].
  rewrite !append_cons. cbn [Py.readlines].
  rewrite (Ascii.eqb_sym c Py.lf), Hlf, (Ascii.eqb_sym c Py.cr), Hcr.
  rewrite IH; [reflexivity|].
  unfold no_line_break. rewrite H1, H2. reflexivity.
Qed.

(** The line of a record whose fields hold no line break is read back as
    one line. *)
Lemma readlines_log_line (r : Proxy.access_record) (rest : string) :
  one_line r ->
  Py.readlines (Proxy.log_line r ++ rest) = Proxy.log_line r :: Py.readlines rest.
Proof.
  intros (H1 & H2 & H3 & H4 & H5 & H6). unfold Proxy.log_line.
  rewrite !append_assoc.
  repeat (apply readlines_prefix;
          [first [assumption
                 |reflexivity
                 |apply numeric_no_line_break, str_int_numeric
                 |apply numeric_no_line_break, format_2f_numeric
                 |destruct (Proxy.ar_cached r); reflexivity]|]).
  reflexivity.
Qed.

Lemma readlines_log (rs : list Proxy.access_record) :
  Forall one_line rs ->
  Py.readlines (file_text (map Proxy.log_line rs)) = map Proxy.log_line rs.
Proof.
  induction 1 as [|r rs Hr _ IH]; [reflexivity|].
  cbn [map file_text foldr]. fold (file_text (map Proxy.log_line rs)).
  rewrite (readlines_log_line r _ Hr), IH. reflexivity.
Qed.

Section AccessLogAnalytics.

Import Analytics.

Variable float : string -> option Q.

(** The record can be read back: no separator and no line break in its
    fields, no blank before its timestamp, a response time that [float]
    reads as [seconds r]. *)
Variable seconds : Proxy.access_record -> Q.

Local Abbreviation readable r :=
  (pipe_free r /\ one_line r /\ starts_blank (Proxy.ar_timestamp r) = false
   /\ float (Py.format_2f (Proxy.ar_response_time r)) = Some (seconds r)).

Lemma readable_pairs (r : Proxy.access_record) :
  readable r -> mapper float (Proxy.log_line r) = pairs_of r (seconds r).
Proof.
  intros (Hp & _ & Hts & Hf). unfold mapper.
  rewrite (split_log_line r Hp Hts), Hf. reflexivity.
Qed.

Lemma count_records (rs : list Proxy.access_record) (key : string * string)
    (P : Proxy.access_record -> Prop) `{forall r, Decision (P r)} :
  Forall (fun r => readable r) rs ->
  key <> ("response_time", "total") ->
  (forall r, key ∈ (pairs_of r (seconds r)).*1 <-> P r) ->
  exists results,
    run_mapreduce float
      (Some (Py.readlines (file_text (map Proxy.log_line rs)))) = Some results
    /\ results !! key = tally (length (filter P rs)).
Proof.
  intros Hall Hkey HP.
  rewrite readlines_log
    by (apply (Forall_impl _ _ _ Hall); intros r (_ & Hone & _); exact Hone).
  destruct (run_mapreduce_lookup float (map Proxy.log_line rs) key)
    as (results & Hrun & Hk).
  exists results. split; [exact Hrun|].
  rewrite Hk, (values_of_lines float key _ Hkey), tally_ones.
  f_equal. rewrite length_filter_map. apply length_filter_ext.
  intros r Hr. rewrite (readable_pairs r), HP; [reflexivity|].
  apply (proj1 (Forall_forall _ _) Hall r Hr).
Qed.

(** X22.  The analytics of a log that the proxy wrote.  For records that
    can be read back, [run_mapreduce] on the lines that [readlines] finds
    in the file after their lines were appended to it reports the number
    of records as the count of the response times, the number of records
    served from a cache under [('cache', 'True')], and for each domain and
    each worker the number of records that name it. *)
Theorem analytics_of_access_log (rs : list Proxy.access_record) :
  Forall (fun r => readable r) rs ->
  exists results,
    run_mapreduce float
      (Some (Py.readlines (file_text (map Proxy.log_line rs)))) = Some results
    /\ results !! ("response_time", "count") = tally (length rs)
    /\ results !! ("cache", "True")
       = tally (length (filter (fun r => Proxy.ar_cached r = true) rs))
    /\ (forall domain, results !! ("domain", domain)
          = tally (length (filter (fun r => Proxy.ar_domain r = domain) rs)))
    /\ (forall worker, results !! ("worker", worker)
          = tally (length (filter (fun r => Proxy.ar_worker r = worker) rs))).
Proof.
  intros Hall. eexists. split; [reflexivity|].
  assert (Hkeys : forall r key,
            key ∈ (pairs_of r (seconds r)).*1 <->
            key = ("domain", Proxy.ar_domain r)
            \/ key = ("cache", Py.str_bool (Proxy.ar_cached r))
            \/ key = ("worker", Proxy.ar_worker r)
            \/ key = ("status", Py.str_int (Proxy.ar_status r))
            \/ key = ("response_time", "total")
            \/ key = ("response_time", "count")
            \/ key = ("hour", String.substring 0 13 (Proxy.ar_timestamp r))).
  { intros r key. unfold pairs_of. cbn [fmap list_fmap fst].
    rewrite !elem_of_cons, elem_of_nil. tauto. }
  split; [|split; [|split]].
  - destruct (count_records rs ("response_time", "count") (fun _ => True) Hall)
      as (results & Hrun & Hk); [discriminate| |].
    + intros r. rewrite Hkeys. split; [auto|]. intros _. auto 10.
    + injection Hrun as <-. rewrite Hk. f_equal.
      clear. induction rs as [|r rs IH]; [reflexivity|].
      rewrite filter_cons. destruct (decide True); [|tauto]. simpl. rewrite IH.
      reflexivity.
  - destruct (count_records rs ("cache", "True")
                (fun r => Proxy.ar_cached r = true) Hall)
      as (results & Hrun & Hk); [discriminate| |].
    + intros r. rewrite Hkeys. split.
      * intros [H|[H|[H|[H|[H|[H|H]]]]]]; try discriminate H.
        destruct (Proxy.ar_cached r); [reflexivity|discriminate H].
      * intros ->. auto.
    + injection Hrun as <-. exact Hk.
  - intros domain.
    destruct (count_records rs ("domain", domain)
                (fun r => Proxy.ar_domain r = domain) Hall)
      as (results & Hrun & Hk); [discriminate| |].
    + intros r. rewrite Hkeys. split.
      * intros [H|[H|[H|[H|[H|[H|H]]]]]]; try discriminate H. congruence.
      * intros ->. auto.
    + injection Hrun as <-. exact Hk.
  - intros worker.
    destruct (count_records rs ("worker", worker)
                (fun r => Proxy.ar_worker r = worker) Hall)
      as (results & Hrun & Hk); [discriminate| |].
    + intros r. rewrite Hkeys. split.
      * intros [H|[H|[H|[H|[H|[H|H]]]]]]; try discriminate H. congruence.
      * intros ->. auto.
    + injection Hrun as <-. exact Hk.
Qed.

End AccessLogAnalytics.

(** ** Instances *)

Lemma first_fetch_cache_files :
  only_cache_files "/dfs" (Worker.dfs dfs_after_first_fetch).
Proof.
  change (Worker.dfs dfs_after_first_fetch)
    with (Worker.dfs (run_fetches md5_of_examples [first_call] empty_dfs)).
  apply run_fetches_only_cache_files; [discriminate| |].
  - apply Forall_cons. split; [split; reflexivity|apply Forall_nil_2].
  - intros p [x Hx]. simpl in Hx. rewrite lookup_empty in Hx. discriminate Hx.
Qed.

Lemma expired_entry_is_refreshed_witness :
  let env := env_of "worker-2" in
  let url := "http://example.com/" in
  let out := Worker.fetch_url md5_of_examples env url (example_clock 200)
               (Worker.UpResponse 200 [] new_page) dfs_after_first_fetch in
  let out2 := Worker.fetch_url md5_of_examples env url (example_clock 230)
                (Worker.UpException "unreachable") out.2 in
  (Worker.dfs dfs_after_first_fetch
     !! Worker.get_cache_path env (Worker.get_cache_key md5_of_examples url)
   = Some first_entry
   /\ (60 <= 200 - Worker.mtime first_entry)%Q
   /\ (230 - 200 < 60)%Q)
  /\ (Worker.content out.1 = new_page /\ Worker.cached out.1 = false)
  /\ (Worker.content out2.1 = new_page /\ Worker.cached out2.1 = true).
Proof.
  cbv zeta.
  assert (Hold : (60 <= 200 - Worker.mtime first_entry)%Q)
    by (intros H; vm_compute in H; discriminate H).
  split; [split; [reflexivity|split; [exact Hold|reflexivity]]|].
  destruct (expired_entry_is_refreshed md5_of_examples (env_of "worker-2")
              "http://example.com/" (example_clock 200) 200%Z [] new_page
              dfs_after_first_fetch first_entry (example_clock 230)
              (Worker.UpException "unreachable") eq_refl Hold eq_refl)
    as ((_ & _ & H1 & H2) & _ & (_ & _ & H3 & H4) & _).
  split; split; assumption.
Defined.

Lemma undecodable_entry_is_a_miss_witness :
  let env := env_of "worker-2" in
  let url := "http://example.com/" in
  let path := Worker.get_cache_path env (Worker.get_cache_key md5_of_examples url) in
  let out := Worker.fetch_url md5_of_examples env url (example_clock 130)
               example_response undecodable_world in
  (Worker.dfs undecodable_world !! path = Some undecodable_entry
   /\ (130 - Worker.mtime undecodable_entry < 60)%Q
   /\ Py.fromhex (Worker.cd_content_hex (Worker.json undecodable_entry)) = None)
  /\ Worker.cached out.1 = false
  /\ Worker.outbound out.2 = ["http://example.com/"]
  /\ Worker.content out.1 = example_page
  /\ (Worker.cd_content_hex ∘ Worker.json <$> Worker.dfs out.2 !! path)
     = Some (Py.hex example_page).
Proof.
  cbv zeta.
  split; [split; [reflexivity|split; reflexivity]|].
  destruct (undecodable_entry_is_a_miss md5_of_examples (env_of "worker-2")
              "http://example.com/" (example_clock 130) example_response
              undecodable_world undecodable_entry eq_refl eq_refl eq_refl)
    as (H1 & H2 & H3 & H4).
  split; [exact H1|]. split; [exact H2|]. split; [exact H3|exact H4].
Defined.

Lemma same_key_same_entry_witness :
  let env := env_of "worker-1" in
  let out := Worker.fetch_url colliding_digest env "http://example.com/"
               (example_clock 100) example_response empty_dfs in
  let out2 := Worker.fetch_url colliding_digest env "http://example.com/a"
                (example_clock 130) (Worker.UpException "unreachable") out.2 in
  (colliding_digest "http://example.com/" = colliding_digest "http://example.com/a"
   /\ Worker.cached out.1 = false /\ (130 - 100 < 60)%Q)
  /\ Worker.cached out2.1 = true
  /\ Worker.content out2.1 = example_page.
Proof.
  cbv zeta.
  split; [split; [reflexivity|split; reflexivity]|].
  destruct (same_key_same_entry colliding_digest (env_of "worker-1")
              "http://example.com/" "http://example.com/a" (example_clock 100)
              200%Z [("Content-Type", "text/html")] example_page empty_dfs
              (example_clock 130) (Worker.UpException "unreachable")
              eq_refl eq_refl eq_refl)
    as (H1 & _ & _ & H2 & _).
  split; [exact H1|exact H2].
Defined.

Lemma entry_survives_other_fetches_witness :
  let env := env_of "worker-1" in
  let url := "http://example.com/" in
  let out := Worker.fetch_url md5_of_examples env url (example_clock 100)
               example_response empty_dfs in
  let w2 := run_fetches md5_of_examples other_fetches out.2 in
  let out2 := Worker.fetch_url md5_of_examples env url (example_clock 130)
                (Worker.UpException "unreachable") w2 in
  (Worker.cached out.1 = false /\ (130 - 100 < 60)%Q)
  /\ Worker.cached out2.1 = true
  /\ Worker.content out2.1 = example_page
  /\ out2.2 = w2.
Proof.
  cbv zeta.
  split; [split; reflexivity|].
  destruct (entry_survives_other_fetches md5_of_examples (env_of "worker-1")
              "http://example.com/" (example_clock 100)
              200%Z [("Content-Type", "text/html")] example_page empty_dfs
              other_fetches (example_clock 130) (Worker.UpException "unreachable")
              eq_refl
              ltac:(repeat (apply Forall_cons; split;
                            [intros H; vm_compute in H; discriminate H|]);
                    apply Forall_nil_2)
              eq_refl)
    as (H1 & _ & _ & H2 & H3).
  split; [exact H1|]. split; [exact H2|exact H3].
Defined.

Lemma clear_cache_removes_cache_files_witness :
  let env := env_of "worker-2" in
  let w := dfs_after_first_fetch in
  let out := Worker.clear_cache env w in
  (Worker.CACHE_DIR env <> "" /\ plain_directory (Worker.CACHE_DIR env) (Worker.dfs w))
  /\ out.1 = Worker.Returned true
  /\ Worker.dfs out.2 !! "/dfs/a6bf1757fff057f266b697df9cf176fd.json" = None
  /\ Worker.h_cache_entries (Worker.health_check env 130 out.2) = 0%nat.
Proof.
  cbv zeta.
  assert (Hdir : Worker.CACHE_DIR (env_of "worker-2") <> "") by discriminate.
  assert (Hplain : plain_directory (Worker.CACHE_DIR (env_of "worker-2"))
                     (Worker.dfs dfs_after_first_fetch))
    by exact (only_cache_files_plain _ _ first_fetch_cache_files).
  split; [split; [exact Hdir|exact Hplain]|].
  destruct (clear_cache_removes_cache_files (env_of "worker-2")
              dfs_after_first_fetch Hdir Hplain)
    as (H1 & _ & H2 & H3 & _).
  split; [exact H1|]. split; [|exact (H3 130%Q)].
  exact (H2 "/dfs/a6bf1757fff057f266b697df9cf176fd.json").
Defined.

Lemma clear_cache_reaches_every_worker_witness :
  let envA := env_of "worker-1" in
  let envB := env_of "worker-2" in
  let url := "http://example.com/" in
  let w := dfs_after_first_fetch in
  let before := Worker.fetch_url md5_of_examples envB url (example_clock 130)
                  example_response w in
  let out := Worker.fetch_url md5_of_examples envB url (example_clock 130)
               example_response (Worker.clear_cache envA w).2 in
  (Worker.CACHE_DIR envA = Worker.CACHE_DIR envB
   /\ Py.first_component (md5_of_examples url) = md5_of_examples url)
  /\ Worker.cached before.1 = true
  /\ Worker.cached out.1 = false
  /\ Worker.outbound out.2 = (Worker.outbound w ++ [url])%list.
Proof.
  cbv zeta.
  split; [split; reflexivity|]. split; [reflexivity|].
  exact (clear_cache_reaches_every_worker md5_of_examples (env_of "worker-1")
           (env_of "worker-2") "http://example.com/" (example_clock 130)
           example_response dfs_after_first_fetch eq_refl
           ltac:(discriminate)
           (only_cache_files_plain _ _ first_fetch_cache_files) eq_refl).
Defined.

Lemma fetch_counts_each_url_once_witness :
  let env := env_of "worker-2" in
  let w := dfs_after_first_fetch in
  let again := Worker.fetch_url md5_of_examples env "http://example.com/"
                 (example_clock 200) example_response w in
  let other := Worker.fetch_url md5_of_examples env "http://example.com/a"
                 (example_clock 200) example_response w in
  Worker.h_cache_entries (Worker.health_check env 200 w) = 1%nat
  /\ Worker.h_cache_entries (Worker.health_check env 200 again.2) = 1%nat
  /\ Worker.h_cache_entries (Worker.health_check env 200 other.2) = 2%nat.
Proof.
  cbv zeta.
  assert (Hdir : Worker.CACHE_DIR (env_of "worker-2") <> "") by discriminate.
  assert (Hplain : plain_directory (Worker.CACHE_DIR (env_of "worker-2"))
                     (Worker.dfs dfs_after_first_fetch))
    by exact (only_cache_files_plain _ _ first_fetch_cache_files).
  assert (H0 : Worker.h_cache_entries
                 (Worker.health_check (env_of "worker-2") 200 dfs_after_first_fetch)
               = 1%nat) by reflexivity.
  split; [exact H0|]. split.
  - exact (eq_trans
             (fetch_counts_each_url_once md5_of_examples (env_of "worker-2")
                "http://example.com/" (example_clock 200) 200%Z
                [("Content-Type", "text/html")] example_page
                dfs_after_first_fetch 200%Q Hdir Hplain eq_refl) H0).
  - exact (eq_trans
             (fetch_counts_each_url_once md5_of_examples (env_of "worker-2")
                "http://example.com/a" (example_clock 200) 200%Z
                [("Content-Type", "text/html")] example_page
                dfs_after_first_fetch 200%Q Hdir Hplain eq_refl)
             (f_equal S H0)).
Defined.

Lemma clear_cache_after_any_run_witness :
  let env := env_of "worker-3" in
  let w := run_fetches md5_of_examples (first_call :: other_fetches)
             {| Worker.dfs := ∅; Worker.outbound := [] |} in
  size (Worker.dfs w) = 2%nat
  /\ Worker.clear_cache env w
     = (Worker.Returned true,
        {| Worker.dfs := ∅; Worker.outbound := Worker.outbound w |}).
Proof.
  cbv zeta. split; [reflexivity|].
  apply (clear_cache_after_any_run md5_of_examples (env_of "worker-3")
           (first_call :: other_fetches)).
  - discriminate.
  - repeat (apply Forall_cons; split; [split; reflexivity|]). apply Forall_nil_2.
Defined.

Lemma requests_take_turns_witness :
  let w := three_workers_world in
  let out := handle_all netloc_of_url five_requests w in
  (Proxy.active_list w <> []
   /\ Forall (fun u => u <> "") (Proxy.active_list w))
  /\ out.1 = Proxy.Ok tt
  /\ Proxy.calls out.2 =
       (Proxy.calls w ++
        [("http://localhost:8001", "fetch_url"); ("http://localhost:8002", "fetch_url");
         ("http://localhost:8003", "fetch_url"); ("http://localhost:8001", "fetch_url");
         ("http://localhost:8002", "fetch_url")])%list
  /\ Proxy.index out.2 = 5%nat.
Proof.
  cbv zeta.
  assert (Hne : Proxy.active_list three_workers_world <> [])
    by (rewrite three_workers_active; discriminate).
  assert (Hall : Forall (fun u => u <> "") (Proxy.active_list three_workers_world)).
  { rewrite three_workers_active.
    repeat (apply Forall_cons; split; [discriminate|]). apply Forall_nil_2. }
  split; [split; [exact Hne|exact Hall]|].
  destruct (requests_take_turns netloc_of_url five_requests three_workers_world
              Hne Hall) as (H1 & H2 & H3 & _).
  split; [exact H1|]. split; [exact H2|exact H3].
Defined.

Lemma round_robin_is_fair_witness :
  let w := three_workers_world in
  let out := handle_all netloc_of_url five_requests w in
  (NoDup (Proxy.active_list w)
   /\ Proxy.active_list w !! 2%nat = Some "http://localhost:8003")
  /\ length (filter (fun e => e = "http://localhost:8003")
               (calls_after (length (Proxy.calls w)) out.2)) = 1%nat.
Proof.
  cbv zeta.
  assert (Hnd : NoDup (Proxy.active_list three_workers_world)).
  { rewrite three_workers_active.
    repeat (apply NoDup_cons; split;
            [rewrite ?elem_of_cons, elem_of_nil; intros H;
             repeat (destruct H as [H|H]; [discriminate H|]); exact H|]).
    apply NoDup_nil_2. }
  assert (Hall : Forall (fun u => u <> "") (Proxy.active_list three_workers_world)).
  { rewrite three_workers_active.
    repeat (apply Forall_cons; split; [discriminate|]). apply Forall_nil_2. }
  split; [split; [exact Hnd|reflexivity]|].
  exact (round_robin_is_fair netloc_of_url five_requests three_workers_world
           2%nat "http://localhost:8003" Hnd Hall eq_refl).
Defined.

Lemma reply_without_status_gives_502_witness :
  let w := three_workers_world in
  let env := env_replying reply_without_status in
  let worker_url := "http://localhost:8001" in
  let out := Proxy.do_GET netloc_of_url env "10.0.0.7" "http://example.com/a" w in
  (Proxy.get_worker w = (Proxy.Ok (Some worker_url), Proxy.with_index 1 w)
   /\ Proxy.rpc env worker_url (Proxy.target_url "http://example.com/a")
      = Proxy.Reply reply_without_status
   /\ Proxy.r_status reply_without_status = None)
  /\ out.1 = Proxy.Ok tt
  /\ Proxy.client out.2 = [Proxy.send_error 502 "RPC Error: 'status'"]
  /\ length (Proxy.log_file out.2) = 1%nat.
Proof.
  cbv zeta.
  assert (Hg : Proxy.get_worker three_workers_world
               = (Proxy.Ok (Some "http://localhost:8001"),
                  Proxy.with_index 1 three_workers_world)).
  { vm_compute. reflexivity. }
  split; [split; [exact Hg|split; reflexivity]|].
  destruct (reply_without_status_gives_502 netloc_of_url
              (env_replying reply_without_status) "10.0.0.7" "http://example.com/a"
              three_workers_world (Proxy.with_index 1 three_workers_world)
              "http://localhost:8001" reply_without_status Hg
              ltac:(discriminate) eq_refl eq_refl)
    as (H1 & H2 & _ & H4).
  split; [exact H1|]. split; [exact H2|].
  exact (f_equal length H4).
Defined.


Lemma example_record_readable :
  pipe_free example_record /\ pipe_free second_record.
Proof. split; repeat split. Qed.

Lemma example_record_one_line : one_line example_record /\ one_line second_record.
Proof. split; repeat split. Qed.

Lemma mapper_reads_log_line_witness :
  (pipe_free example_record
   /\ starts_blank (Proxy.ar_timestamp example_record) = false)
  /\ Analytics.mapper float_of_examples (Proxy.log_line example_record)
     = [(("domain", "example.com"), Analytics.Int 1);
        (("cache", "True"), Analytics.Int 1);
        (("worker", "worker-1"), Analytics.Int 1);
        (("status", "200"), Analytics.Int 1);
        (("response_time", "total"), Analytics.Float (25 # 2));
        (("response_time", "count"), Analytics.Int 1);
        (("hour", "2026-01-01T00"), Analytics.Int 1)].
Proof.
  split; [split; [exact (proj1 example_record_readable)|reflexivity]|].
  exact (mapper_reads_log_line float_of_examples example_record
           (proj1 example_record_readable) eq_refl).
Defined.


Lemma mapreduce_counts_lines_witness :
  let lines := [Proxy.log_line example_record; "not a record";
                Proxy.log_line second_record; Proxy.log_line example_record] in
  exists results,
    Analytics.run_mapreduce float_of_examples (Some lines) = Some results
    /\ results !! ("domain", "example.com")
       = tally (length (filter (fun line =>
                                  ("domain", "example.com")
                                  ∈ (Analytics.mapper float_of_examples line).*1)
                               lines)).
Proof.
  cbv zeta.
  exact (mapreduce_counts_lines float_of_examples
           [Proxy.log_line example_record; "not a record";
            Proxy.log_line second_record; Proxy.log_line example_record]
           ("domain", "example.com") ltac:(discriminate)).
Defined.

Lemma analytics_of_access_log_witness :
  let rs := [example_record; second_record; example_record] in
  exists results,
    Analytics.run_mapreduce float_of_examples
      (Some (Py.readlines (file_text (map Proxy.log_line rs))))
    = Some results
    /\ results !! ("response_time", "count") = Some (Analytics.Int 3)
    /\ results !! ("cache", "True") = Some (Analytics.Int 2)
    /\ results !! ("domain", "example.org") = Some (Analytics.Int 1)
    /\ results !! ("worker", "worker-9") = None.
Proof.
  cbv zeta.
  destruct (analytics_of_access_log float_of_examples
              (fun r => default 0%Q (float_of_examples
                                       (Py.format_2f (Proxy.ar_response_time r))))
              [example_record; second_record; example_record])
    as (results & Hrun & H1 & H2 & H3 & H4).
  - repeat (apply Forall_cons; split;
            [split; [first [exact (proj1 example_record_readable)
                           |exact (proj2 example_record_readable)]
                    |split; [first [exact (proj1 example_record_one_line)
                                   |exact (proj2 example_record_one_line)]
                            |split; reflexivity]]|]).
    apply Forall_nil_2.
  - exists results. split; [exact Hrun|]. split; [exact H1|].
    split; [exact H2|]. split; [exact (H3 "example.org")|exact (H4 "worker-9")].
Defined.
